(** * pyseir: ensemble runner, parameter sampler and initial-conditions fitter

    A shallow embedding of
      - [pyseir/ensembles/ensemble_runner.py],
      - [pyseir/parameters/parameter_ensemble_generator.py],
      - [pyseir/inference/initial_conditions_fitter.py],
    and the properties of their specification that can be stated over it.

    Conventions of the embedding.
      - A float64 is an exact rational or one of the IEEE special values
        (module [F64]); rounding is not modelled, the special values are.
      - A Python [dict] with string keys is a [gmap string _]; a numpy array
        or Python list is a [list].
      - A Python exception is a value of [exn]; code that can raise lives in
        the error monad [result]. *)

From Stdlib Require Import ZArith QArith Qabs Qround Lia Lqa Ascii.
From stdpp Require Import gmap strings list fin_maps pretty sorting.

Local Open Scope Z_scope.

(** ** Exceptions and the error monad *)

Inductive exn : Type :=
  | KeyError
  | IndexError
  | ValueError
  | AttributeError
  | TypeError
  | ZeroDivisionError.

Inductive result (A : Type) : Type :=
  | Ok (a : A)
  | Raise (e : exn).
Arguments Ok {A} a.
Arguments Raise {A} e.

#[global] Instance result_ret : MRet result := λ A a, Ok a.
#[global] Instance result_bind : MBind result := λ A B f m,
  match m with
  | Ok a => f a
  | Raise e => Raise e
  end.
#[global] Instance result_fmap : FMap result := λ A B f m,
  match m with
  | Ok a => Ok (f a)
  | Raise e => Raise e
  end.

Definition raises {A} (m : result A) : Prop := ∃ e, m = Raise e.
Definition returns {A} (m : result A) : Prop := ∃ a, m = Ok a.

Definition is_ok {A} (m : result A) : bool :=
  match m with Ok _ => true | Raise _ => false end.

(** [for x in l: acc = f acc x], stopping at the first exception. *)
Fixpoint foldlM {A B} (f : B → A → result B) (l : list A) (acc : B) : result B :=
  match l with
  | [] => Ok acc
  | x :: l' => acc' ← f acc x; foldlM f l' acc'
  end.

(** [[f x for x in l]], stopping at the first exception. *)
Fixpoint forM {A B} (f : A → result B) (l : list A) : result (list B) :=
  match l with
  | [] => Ok []
  | x :: l' => y ← f x; ys ← forM f l'; Ok (y :: ys)
  end.

(** ** Python containers *)

(** [d[k]]: [KeyError] on a missing key. *)
Definition dict_getitem {V} (d : gmap string V) (k : string) : result V :=
  match d !! k with
  | Some v => Ok v
  | None => Raise KeyError
  end.

(** The entry under [k] of the dict a computation returns, if it returns
    one that has it. *)
Definition returned_entry {V} (m : result (gmap string V)) (k : string) : option V :=
  match m with
  | Ok d => d !! k
  | Raise _ => None
  end.

(** [d.get(k, dflt)]: the default is used only when the key is absent. *)
Definition dict_get {V} (d : gmap string V) (k : string) (dflt : V) : V :=
  match d !! k with
  | Some v => v
  | None => dflt
  end.

(** [d.update(other)]: entries of [other] win. *)
Definition dict_update {V} (d other : gmap string V) : gmap string V := other ∪ d.

(** [l[i]] for a non-negative index: [IndexError] out of range. *)
Definition list_getitem {A} (l : list A) (i : nat) : result A :=
  match l !! i with
  | Some v => Ok v
  | None => Raise IndexError
  end.

(** A comprehension or loop over the items of a dict whose body can raise:
    every entry is rebuilt from [f key value].  The order in which Python
    visits the entries is not modelled: when several entries raise, the
    exception returned is the one of some entry, not necessarily of the
    first in insertion order. *)
Definition dict_forM {A B} (f : string → A → result B) (d : gmap string A)
  : result (gmap string B) :=
  map_fold (λ k v acc, acc' ← acc; y ← f k v; Ok (<[k:=y]> acc')) (Ok ∅) d.

(** [needle in haystack] on Python strings: substring test. *)
Fixpoint str_contains (haystack needle : string) : bool :=
  String.prefix needle haystack ||
  match haystack with
  | EmptyString => false
  | String _ rest => str_contains rest needle
  end.

(** ** float64, idealised *)

Module F64.

Inductive float : Type :=
  | Fin (q : Q)
  | PInf
  | NInf
  | NaN.

Definition of_Z (z : Z) : float := Fin (inject_Z z).
Definition of_nat (n : nat) : float := of_Z (Z.of_nat n).

Definition is_finite (x : float) : bool :=
  match x with Fin _ => true | _ => false end.
Definition is_nan (x : float) : bool :=
  match x with NaN => true | _ => false end.

Definition opp (x : float) : float :=
  match x with
  | Fin q => Fin (- q)
  | PInf => NInf
  | NInf => PInf
  | NaN => NaN
  end.

Definition add (x y : float) : float :=
  match x, y with
  | NaN, _ | _, NaN => NaN
  | Fin a, Fin b => Fin (a + b)
  | PInf, NInf | NInf, PInf => NaN
  | PInf, _ | _, PInf => PInf
  | NInf, _ | _, NInf => NInf
  end.

Definition sub (x y : float) : float := add x (opp y).

(** The infinity with the sign of [q], [NaN] for zero. *)
Definition signed_inf (q : Q) (inf : float) : float :=
  match q ?= 0 with
  | Eq => NaN
  | Gt => inf
  | Lt => opp inf
  end%Q.

Definition mul (x y : float) : float :=
  match x, y with
  | NaN, _ | _, NaN => NaN
  | Fin a, Fin b => Fin (a * b)
  | Fin a, PInf | PInf, Fin a => signed_inf a PInf
  | Fin a, NInf | NInf, Fin a => signed_inf a NInf
  | PInf, PInf | NInf, NInf => PInf
  | PInf, NInf | NInf, PInf => NInf
  end.

(** Division by a zero yields an infinity or NaN, as numpy's float64
    division does (with a warning, not an exception). *)
Definition div (x y : float) : float :=
  match x, y with
  | NaN, _ | _, NaN => NaN
  | Fin a, Fin b =>
      match b ?= 0 with
      | Eq => signed_inf a PInf
      | _ => Fin (a / b)
      end%Q
  | Fin _, (PInf | NInf) => Fin 0
  | (PInf | NInf), (PInf | NInf) => NaN
  | PInf, Fin b => if Qle_bool 0 b then PInf else NInf
  | NInf, Fin b => if Qle_bool 0 b then NInf else PInf
  end.

Definition abs (x : float) : float :=
  match x with
  | Fin q => Fin (Qabs q)
  | PInf | NInf => PInf
  | NaN => NaN
  end.

(** Comparisons are false as soon as one side is NaN. *)
Definition ltb (x y : float) : bool :=
  match x, y with
  | NaN, _ | _, NaN => false
  | Fin a, Fin b => match (a ?= b)%Q with Lt => true | _ => false end
  | NInf, NInf | PInf, PInf => false
  | NInf, _ | _, PInf => true
  | _, NInf | PInf, _ => false
  end.
Definition gtb (x y : float) : bool := ltb y x.

Definition leb (x y : float) : bool :=
  match x, y with
  | NaN, _ | _, NaN => false
  | Fin a, Fin b => Qle_bool a b
  | NInf, _ | _, PInf => true
  | _, NInf | PInf, _ => false
  end.

(** Numerical equality of two floats that are not NaN; rationals are
    compared by value, not by representation. *)
Definition eqv (x y : float) : Prop :=
  match x, y with
  | Fin a, Fin b => (a == b)%Q
  | PInf, PInf | NInf, NInf | NaN, NaN => True
  | _, _ => False
  end.

(** [x <= y] as a proposition. *)
Definition le (x y : float) : Prop := leb x y = true.

End F64.

Export F64 (float, Fin, PInf, NInf, NaN).

(** ** numpy *)

Module Np.
Import F64.

(** [np.argwhere(mask)] of a one-dimensional boolean array: the indices
    of its true entries, in increasing order. *)
Fixpoint argwhere_from (i : nat) (mask : list bool) : list nat :=
  match mask with
  | [] => []
  | b :: mask' =>
      if b then i :: argwhere_from (S i) mask' else argwhere_from (S i) mask'
  end.
Definition argwhere (mask : list bool) : list nat := argwhere_from 0 mask.

(** [np.argmax] keeps the first maximum and treats NaN as maximal. *)
Definition argmax_replaces (x best : float) : bool :=
  negb (is_nan best) && (is_nan x || ltb best x).
Fixpoint argmax_from (i : nat) (l : list float) (best_i : nat) (best : float) : nat :=
  match l with
  | [] => best_i
  | x :: l' =>
      if argmax_replaces x best
      then argmax_from (S i) l' i x
      else argmax_from (S i) l' best_i best
  end.
Definition argmax (a : list float) : result nat :=
  match a with
  | [] => Raise ValueError
  | x :: a' => Ok (argmax_from 1 a' 0%nat x)
  end.

(** [np.argmin] keeps the first minimum and treats NaN as minimal. *)
Definition argmin_replaces (x best : float) : bool :=
  negb (is_nan best) && (is_nan x || ltb x best).
Fixpoint argmin_from (i : nat) (l : list float) (best_i : nat) (best : float) : nat :=
  match l with
  | [] => best_i
  | x :: l' =>
      if argmin_replaces x best
      then argmin_from (S i) l' i x
      else argmin_from (S i) l' best_i best
  end.
Definition argmin (a : list float) : result nat :=
  match a with
  | [] => Raise ValueError
  | x :: a' => Ok (argmin_from 1 a' 0%nat x)
  end.

Definition sum (a : list float) : float := foldl add (Fin 0) a.
Definition mean (a : list float) : float := div (sum a) (of_nat (length a)).

(** [np.vstack] of one-dimensional arrays: they must all have the length
    of the first, and there must be at least one. *)
Definition vstack (rows : list (list float)) : result (list (list float)) :=
  match rows with
  | [] => Raise ValueError
  | r :: rest =>
      if forallb (λ r', Nat.eqb (length r') (length r)) rest
      then Ok rows
      else Raise ValueError
  end.

(** Columns of a two-dimensional array (as [axis=0] reductions see it). *)
Definition columns (stack : list (list float)) : list (list float) :=
  match stack with
  | [] => []
  | r :: _ => (λ j, (λ row, nth j row NaN) <$> stack) <$> seq 0 (length r)
  end.

Fixpoint insert_sorted (x : float) (l : list float) : list float :=
  match l with
  | [] => [x]
  | y :: l' => if leb x y then x :: l else y :: insert_sorted x l'
  end.
Definition sort (a : list float) : list float := foldr insert_sorted [] a.

(** Linear interpolation [i + (j - i) * fraction]. *)
Definition lerp (a b : float) (g : Q) : float := add a (mul (sub b a) (Fin g)).

(** The [p]-th percentile of a one-dimensional array, default (linear)
    interpolation: the virtual index [(n - 1) * p / 100] into the sorted
    data is split into its floor and its fractional part.  A NaN in the
    data makes the result NaN; so does an empty array.  numpy versions
    differ in how they round the interpolation and in what they return
    next to an infinity, not on numbers in exact arithmetic. *)
Definition percentile_1d (p : Q) (a : list float) : float :=
  if existsb is_nan a then NaN
  else match a with
  | [] => NaN
  | _ =>
      let sorted := sort a in
      let n := length a in
      let index := (inject_Z (Z.of_nat (n - 1)) * (p / 100))%Q in
      let below := Z.to_nat (Qfloor index) in
      let above := Nat.min (below + 1) (n - 1) in
      let fraction := (index - inject_Z (Qfloor index))%Q in
      lerp (nth below sorted NaN) (nth above sorted NaN) fraction
  end.

Definition percentile_in_range (p : Q) : bool := Qle_bool 0 p && Qle_bool p 100.

(** [np.percentile(a, p)]; [ValueError] unless [0 <= p <= 100]. *)
Definition percentile (a : list float) (p : Q) : result float :=
  if percentile_in_range p then Ok (percentile_1d p a) else Raise ValueError.

(** [np.percentile(stack, p, axis=0)]: one percentile per column. *)
Definition percentile_axis0 (stack : list (list float)) (p : Q) : result (list float) :=
  if percentile_in_range p
  then Ok (percentile_1d p <$> columns stack)
  else Raise ValueError.

End Np.

(** ** ensembles/ensemble_runner.py *)

Module EnsembleRunner.
Import F64.

(** An executed [SEIRModel], as the runner reads it: the time grid, the
    compartment series under [results], and the three capacity
    attributes. *)
Record SEIRModel : Type := {
  t_list : list float;
  results : gmap string (list float);
  beds_general : float;
  beds_ICU : float;
  ventilators : float;
}.

Definition compartment_to_capacity_attr_map : gmap string string :=
  <["HGen" := "beds_general"]>
    (<["HICU" := "beds_ICU"]>
      (<["HVent" := "ventilators"]> ∅)).

(** [getattr(m, attr)] on the capacity attributes. *)
Definition getattr (m : SEIRModel) (attr : string) : result float :=
  if decide (attr = "beds_general") then Ok (beds_general m)
  else if decide (attr = "beds_ICU") then Ok (beds_ICU m)
  else if decide (attr = "ventilators") then Ok (ventilators m)
  else Raise AttributeError.

(** Values stored in a compartment's output dict, and entries of the
    output of one suppression policy (the time grid is a list, every
    compartment a dict). *)
Inductive outval : Type :=
  | VNum (x : float)
  | VList (l : list float).
Inductive outentry : Type :=
  | OList (l : list float)
  | ODict (d : gmap string outval).

(** The keys of the first model's results that are kept as compartments.
    The source tests [key not in ('t_list')], and [('t_list')] is the
    string itself, so the test is a substring test. *)
Definition is_compartment_key (key : string) : bool :=
  negb (str_contains "t_list" key).

Definition _generate_compartment_arrays (model_ensemble : list SEIRModel)
  : result (gmap string (list (list float))) :=
  model0 ← list_getitem model_ensemble 0;
  let compartments : gmap string (list (list float)) :=
    (λ _, []) <$> filter (λ kv, is_compartment_key kv.1 = true) (results model0) in
  compartments ←
    foldlM (λ compartments model,
              dict_forM (λ key stack,
                           series ← dict_getitem (results model) key;
                           Ok (stack ++ [series]))
                        compartments)
           model_ensemble compartments;
  dict_forM (λ key value_stack, Np.vstack value_stack) compartments.

(** The capacity constant of a run for a capacity-bound compartment. *)
Definition capacity_of (compartment : string) (m : SEIRModel) : result float :=
  attr ← dict_getitem compartment_to_capacity_attr_map compartment;
  getattr m attr.

(** Body of the loop of [_get_surge_window] for one model. *)
Definition surge_window_of_run (compartment : string) (m : SEIRModel)
  : result (float * float) :=
  series ← dict_getitem (results m) compartment;
  capacity ← capacity_of compartment m;
  (* Find the first t where overcapacity occurs *)
  let surge_start_idx := Np.argwhere ((λ v, gtb v capacity) <$> series) in
  surge_start ←
    match surge_start_idx with
    | i :: _ => list_getitem (t_list m) i
    | [] => Ok NaN
    end;
  (* Reverse the t-list and capacity and do the same. *)
  let surge_end_idx := Np.argwhere ((λ v, gtb v capacity) <$> reverse series) in
  surge_end ←
    match surge_end_idx with
    | i :: _ => list_getitem (reverse (t_list m)) i
    | [] => Ok NaN
    end;
  Ok (surge_start, surge_end).

Definition _get_surge_window (model_ensemble : list SEIRModel) (compartment : string)
  : result (list float * list float) :=
  windows ← forM (surge_window_of_run compartment) model_ensemble;
  Ok (windows.*1, windows.*2).

Definition _detect_peak_time_and_value (output_percentiles : list Z)
    (value_stack : list (list float)) (t_list : list float)
  : result (gmap string outval) :=
  peak_indices ← forM Np.argmax value_stack;
  peak_times ← forM (list_getitem t_list) peak_indices;
  values_at_peak_index ←
    forM (λ vi, list_getitem vi.1 vi.2) (zip value_stack peak_indices);
  peak_data ←
    foldlM (λ peak_data percentile,
              v ← Np.percentile values_at_peak_index (inject_Z percentile);
              t ← Np.percentile peak_times (inject_Z percentile);
              Ok (<["peak_time_ci" +:+ pretty percentile := VNum t]>
                    (<["peak_value_ci" +:+ pretty percentile := VNum v]> peak_data)))
           output_percentiles (∅ : gmap string outval);
  Ok (<["peak_value_mean" := VNum (Np.mean values_at_peak_index)]> peak_data).

(** Body of the loop of [_generate_output_for_suppression_policy] for one
    compartment: the dict finally stored under [outputs[compartment]]. *)
Definition compartment_outputs (output_percentiles : list Z)
    (model_ensemble : list SEIRModel) (t_list_out : list float)
    (compartment : string) (value_stack : list (list float))
  : result (gmap string outval) :=
  (* Compute percentiles over the ensemble *)
  bands ←
    foldlM (λ bands percentile,
              band ← Np.percentile_axis0 value_stack (inject_Z percentile);
              Ok (<["ci_" +:+ pretty percentile := VList band]> bands))
           output_percentiles (∅ : gmap string outval);
  compartment_output ←
    (if decide (is_Some (compartment_to_capacity_attr_map !! compartment))
     then
       window ← _get_surge_window model_ensemble compartment;
       (* both targets of the tuple assignment are the key 'surge_start',
          written left to right *)
       let compartment_output : gmap string outval :=
         <["surge_start" := VList window.2]>
           (<["surge_start" := VList window.1]> ∅) in
       capacity ← forM (capacity_of compartment) model_ensemble;
       Ok (<["capacity" := VList capacity]> compartment_output)
     else Ok ∅);
  peak_data ← _detect_peak_time_and_value output_percentiles value_stack t_list_out;
  let compartment_output := dict_update compartment_output peak_data in
  (* Merge this dictionary into the suppression level one. *)
  Ok (dict_update bands compartment_output).

(** The [suppression_policy] argument of the source is not read. *)
Definition _generate_output_for_suppression_policy (output_percentiles : list Z)
    (model_ensemble : list SEIRModel) : result (gmap string outentry) :=
  model0 ← list_getitem model_ensemble 0;
  let t_list_out := t_list model0 in
  arrays ← _generate_compartment_arrays model_ensemble;
  per_compartment ←
    dict_forM (compartment_outputs output_percentiles model_ensemble t_list_out) arrays;
  Ok (<["t_list" := OList t_list_out]>
        (ODict <$> (per_compartment : gmap string (gmap string outval)))).

(** [outputs[compartment][key]] in the output of a policy, if present. *)
Definition output_entry (outputs : result (gmap string outentry))
    (compartment key : string) : option outval :=
  match returned_entry outputs compartment with
  | Some (ODict d) => d !! key
  | _ => None
  end.

End EnsembleRunner.

(** ** parameters/parameter_ensemble_generator.py *)

Module ParameterEnsembleGenerator.
Import F64.

(** *** The reference tables and the pandas operations on them *)

(** A row of the county metadata table: the [fips] column and the numeric
    columns by name ([total_population], the densities, ...).  Its label
    columns ([state], [county]) are strings and are not read here. *)
Record county_row : Type := {
  county_fips : string;
  county_columns : gmap string float;
}.

(** A row of the hospital table restricted to the six selected columns;
    one region can have several rows (one per facility). *)
Record hospital_row : Type := {
  hospital_fips : string;
  num_licensed_beds : float;
  num_staffed_beds : float;
  num_icu_beds : float;
  bed_utilization : float;
  potential_increase_in_bed_capac : float;
}.

Definition hospital_row_columns (r : hospital_row) : gmap string float :=
  <["num_licensed_beds" := num_licensed_beds r]>
    (<["num_staffed_beds" := num_staffed_beds r]>
      (<["num_icu_beds" := num_icu_beds r]>
        (<["bed_utilization" := bed_utilization r]>
          (<["potential_increase_in_bed_capac" := potential_increase_in_bed_capac r]> ∅)))).

(** pandas' [sum] skips NaN. *)
Definition nansum (x y : float) : float :=
  if is_nan y then x else if is_nan x then y else add x y.
Definition skipna (x : float) : float := if is_nan x then Fin 0 else x.

(** [hospital_bed_data[[...]].groupby('fips').sum()]: one row per region
    that occurs in the table, indexed by region. *)
Definition add_to_group (groups : gmap string (gmap string float)) (r : hospital_row)
  : gmap string (gmap string float) :=
  let cols := hospital_row_columns r in
  match groups !! hospital_fips r with
  | Some acc =>
      <[hospital_fips r := union_with (λ a b, Some (nansum a b)) acc cols]> groups
  | None => <[hospital_fips r := skipna <$> cols]> groups
  end.
Definition groupby_fips_sum (hospital_bed_data : list hospital_row)
  : gmap string (gmap string float) :=
  foldl add_to_group ∅ hospital_bed_data.

(** The columns a left merge adds to a row without a match: every column
    of the right table, holding NaN. *)
Definition unmatched_hospital_columns : gmap string float :=
  <["num_licensed_beds" := NaN]>
    (<["num_staffed_beds" := NaN]>
      (<["num_icu_beds" := NaN]>
        (<["bed_utilization" := NaN]>
          (<["potential_increase_in_bed_capac" := NaN]> ∅)))).

(** [county_metadata.merge(hospital_bed_data, on='fips', how='left')]:
    every metadata row is kept, with the hospital columns of its region,
    or NaN in each of them when the region has no hospital row.  The two
    tables share no column name but [fips]; should they, the metadata
    column is the one kept here, where pandas renames both columns (to
    [<name>_x] and [<name>_y]): what is proved of the merged columns is
    proved for metadata tables without a column named like a hospital
    column. *)
Definition merge_left (county_metadata : list county_row)
    (hospital_bed_data : gmap string (gmap string float)) : list county_row :=
  (λ row,
     {| county_fips := county_fips row;
        county_columns :=
          county_columns row ∪
          match hospital_bed_data !! county_fips row with
          | Some cols => cols
          | None => unmatched_hospital_columns
          end |}) <$> county_metadata.

(** [df.set_index('fips').loc[fips].to_dict()]: the columns of the row
    of that region (regions are unique in the metadata table);
    [KeyError] when there is none. *)
Definition loc_to_dict (df : list county_row) (fips : string)
  : result (gmap string float) :=
  match list_find (λ row, county_fips row = fips) df with
  | Some (_, row) => Ok (county_columns row)
  | None => Raise KeyError
  end.

(** *** The generator *)

Section Generator.
(** The type of suppression policies, callables of the time. *)
Variable policy : Type.

Record generator : Type := {
  fips : string;
  N_samples : nat;
  I_initial : Z;
  suppression_policy : option policy;
  t_list : list float;
  county_metadata_merged : gmap string float;
}.

(** The tables are what [load_data.load_county_metadata()] and
    [load_data.load_hospital_data()] return. *)
Definition __init__ (county_metadata : list county_row)
    (hospital_bed_data : list hospital_row)
    (fips : string) (N_samples : nat) (t_list : list float)
    (I_initial : Z) (suppression_policy : option policy) : result generator :=
  (* TODO: Some counties do not have hospitals. Likely need to go to HRR level.. *)
  let hospital_bed_data := groupby_fips_sum hospital_bed_data in
  merged ← loc_to_dict (merge_left county_metadata hospital_bed_data) fips;
  Ok {| fips := fips; N_samples := N_samples; I_initial := I_initial;
        suppression_policy := suppression_policy; t_list := t_list;
        county_metadata_merged := merged |}.

(** The values [np.random] returns during one iteration of the sampling
    loop, in the order of the calls. *)
Record draws : Type := {
  draw_hospitalization_rate_general : float;   (* normal(.10, 0.03) *)
  draw_fraction_asymptomatic : float;          (* uniform(0.4, 0.6) *)
  draw_R0 : float;                             (* uniform(3, 4.5) *)
  draw_icu_given_hospitalized : float;         (* normal(.29, 0.03) *)
  draw_fraction_icu_requiring_ventilator : float; (* normal(0.54, 0.2) *)
  draw_incubation_days : float;                (* normal(5.1, 0.86) *)
  draw_infectious_days : float;                (* gamma(5.0, 1) *)
  draw_symptoms_to_hospital_days : float;      (* normal(6.5, 1.5) *)
  draw_symptoms_to_mortality_days : float;     (* normal(18.8, .45) *)
  draw_length_of_stay_general : float;         (* normal(7, 2) *)
  draw_length_of_stay_icu : float;             (* normal(16, 3) *)
  draw_length_of_stay_icu_and_ventilator : float; (* normal(17, 3) *)
  draw_mortality_rate : float;                 (* normal(0.01, 0.0025) *)
  draw_mortality_rate_no_general_beds : float; (* uniform(0.2, 0.3) *)
  draw_mortality_rate_no_ICU_beds : float;     (* uniform(0.8, 1) *)
  draw_ventilators_per_icu_bed : float;        (* uniform(1.0, 1.2) *)
}.

(** A value of a parameter set. *)
Inductive pval : Type :=
  | PNum (x : float)
  | PArray (a : list float)
  | PPolicy (f : option policy).

(** Python's [max(x, y)]: [y] only when [y > x]. *)
Definition py_max (x y : float) : float := if gtb y x then y else x.

(** Python's [x / y] on its own floats, which is what [np.random] returns
    for a single draw: a divisor that is zero raises, where numpy's
    division yields an infinity or NaN. *)
Definition py_truediv (x y : float) : result float :=
  match y with
  | Fin b => if Qeq_bool b 0 then Raise ZeroDivisionError else Ok (div x y)
  | _ => Ok (div x y)
  end.

Definition sample_one (self : generator) (d : draws) : result (gmap string pval) :=
  let merged := county_metadata_merged self in
  let hospitalization_rate_general := draw_hospitalization_rate_general d in
  let fraction_asymptomatic := draw_fraction_asymptomatic d in
  N ← dict_getitem merged "total_population";
  (* assume no asymptomatic cases are tested. *)
  A_initial ← py_truediv (mul fraction_asymptomatic (of_Z (I_initial self)))
                         (sub (Fin 1) fraction_asymptomatic);
  sigma ← py_truediv (Fin 1) (draw_incubation_days d);
  delta ← py_truediv (Fin 1) (draw_infectious_days d);
  Ok (list_to_map [
    ("t_list", PArray (t_list self));
    ("N", PNum N);
    ("A_initial", PNum A_initial);
    ("I_initial", PNum (of_Z (I_initial self)));
    ("R_initial", PNum (Fin 0));
    ("E_initial", PNum (Fin 0));
    ("D_initial", PNum (Fin 0));
    ("HGen_initial", PNum (Fin 0));
    ("HICU_initial", PNum (Fin 0));
    ("HICUVent_initial", PNum (Fin 0));
    ("suppression_policy", PPolicy (suppression_policy self));
    ("R0", PNum (draw_R0 d));
    ("hospitalization_rate_general", PNum hospitalization_rate_general);
    ("hospitalization_rate_icu",
       PNum (py_max (mul (draw_icu_given_hospitalized d) hospitalization_rate_general) (Fin 0)));
    ("fraction_icu_requiring_ventilator",
       PNum (py_max (draw_fraction_icu_requiring_ventilator d) (Fin 0)));
    ("sigma", PNum sigma);
    ("delta", PNum delta);
    ("kappa", PNum (Fin 1));
    ("gamma", PNum fraction_asymptomatic);
    ("symptoms_to_hospital_days", PNum (draw_symptoms_to_hospital_days d));
    ("symptoms_to_mortality_days", PNum (draw_symptoms_to_mortality_days d));
    ("hospitalization_length_of_stay_general", PNum (draw_length_of_stay_general d));
    ("hospitalization_length_of_stay_icu", PNum (draw_length_of_stay_icu d));
    ("hospitalization_length_of_stay_icu_and_ventilator",
       PNum (draw_length_of_stay_icu_and_ventilator d));
    ("mortality_rate", PNum (draw_mortality_rate d));
    ("mortality_rate_no_general_beds", PNum (draw_mortality_rate_no_general_beds d));
    ("mortality_rate_no_ICU_beds", PNum (draw_mortality_rate_no_ICU_beds d));
    ("mortality_rate_no_ventilator", PNum (Fin 1));
    ("beds_general",
       PNum (add (sub (dict_get merged "num_licensed_beds" (Fin 0))
                      (dict_get merged "bed_utilization" (Fin 0)))
                 (dict_get merged "potential_increase_in_bed_capac" (Fin 0))));
    ("beds_ICU", PNum (dict_get merged "num_icu_beds" (Fin 0)));
    ("ventilators",
       PNum (mul (dict_get merged "num_icu_beds" (Fin 0)) (draw_ventilators_per_icu_bed d)))
  ]).

(** [rng i] are the draws of iteration [i]; [None] for [override_params]
    is the empty dict. *)
Definition sample_seir_parameters (self : generator) (rng : nat → draws)
    (override_params : option (gmap string pval)) : result (list (gmap string pval)) :=
  let override_params := default ∅ override_params in
  parameter_sets ← forM (λ i, sample_one self (rng i)) (seq 0 (N_samples self));
  Ok ((λ parameter_set, dict_update parameter_set override_params)
        <$> (parameter_sets : list (gmap string pval))).

End Generator.

(** The value of parameter [k] in the [i]-th parameter set a sampling
    returns, if it returns one. *)
Definition sampled_parameter {policy} (sets : result (list (gmap string (pval policy))))
    (i : nat) (k : string) : option (pval policy) :=
  match sets with
  | Ok parameter_sets => parameter_sets !! i ≫= (.!! k)
  | Raise _ => None
  end.

End ParameterEnsembleGenerator.

(** ** inference/initial_conditions_fitter.py *)

(** [s.lower()], on ASCII letters. *)
Definition ascii_lower (c : ascii) : ascii :=
  let n := nat_of_ascii c in
  if (Nat.leb 65 n && Nat.leb n 90)%bool then ascii_of_nat (n + 32) else c.
Fixpoint str_lower (s : string) : string :=
  match s with
  | EmptyString => EmptyString
  | String c rest => String (ascii_lower c) (str_lower rest)
  end.

(** [d[k] = v] on a dict kept in insertion order. *)
Fixpoint alist_set {V} (k : string) (v : V) (d : list (string * V)) : list (string * V) :=
  match d with
  | [] => [(k, v)]
  | (k', v') :: d' =>
      if decide (k = k') then (k, v) :: d' else (k', v') :: alist_set k v d'
  end.

(** A slice bound as Python normalises it: negative bounds count from the
    end, and every bound is clipped to the sequence. *)
Definition py_slice_bound (len i : Z) : Z :=
  if i <? 0 then Z.max (i + len) 0 else Z.min i len.

(** [l[start:stop]]. *)
Definition py_slice {A} (l : list A) (start stop : Z) : list A :=
  let len := Z.of_nat (length l) in
  let a := py_slice_bound len start in
  let b := py_slice_bound len stop in
  take (Z.to_nat (b - a)) (drop (Z.to_nat a) l).

(** [a[mask]] with a boolean mask: [IndexError] unless the mask has the
    length of the array. *)
Definition mask_select {A} (a : list A) (mask : list bool) : result (list A) :=
  if decide (length a = length mask)
  then Ok ((filter (λ xb, xb.2 = true) (zip a mask)).*1)
  else Raise IndexError.

Module InitialConditionsFitter.
Import F64.

(** A row of the case table [load_data.load_county_case_data()]; a date
    is a number of days since 1970-01-01. *)
Record case_row : Type := {
  row_fips : string;
  row_date : Z;
  row_cases : Z;
  row_county : string;
  row_state : string;
}.

(** The parameters of the exponential model. *)
Record model_params_t : Type := {
  norm : float;
  t0 : float;
  scale : float;
}.

(** The attributes [__init__] sets (the result attributes start as
    [None] and are set by [fit]). *)
Record fitter : Type := {
  t0_case_count : Z;
  start_days_before_t0 : Z;
  start_days_after_t0 : Z;
  min_days_required : Z;
  cases : list case_row;
  fips : string;
  county : string;
  state : string;
  t : list Z;
  data_start_date : Z;
  y : list Z;
}.

Definition __init__ (case_data : list case_row) (fips : string)
    (t0_case_count start_days_before_t0 start_days_after_t0 min_days_required : Z)
  : result fitter :=
  (* Load case data *)
  let cases := filter (λ r, row_fips r = fips) case_data in
  let n_days := Z.of_nat (length cases) in
  if decide (n_days < min_days_required) then Raise ValueError
  else
    first_row ← list_getitem cases 0;
    let date_min := foldr Z.min (row_date first_row) (row_date <$> cases) in
    Ok {| t0_case_count := t0_case_count;
          start_days_before_t0 := start_days_before_t0;
          start_days_after_t0 := start_days_after_t0;
          min_days_required := min_days_required;
          cases := cases;
          fips := fips;
          county := row_county first_row;
          state := row_state first_row;
          t := (λ r, row_date r - date_min) <$> cases;
          data_start_date := date_min;
          y := row_cases <$> cases |}.

(** The number of strictly positive observed counts, [len(y[y > 0])]. *)
Definition n_positive (y : list Z) : nat :=
  length (filter (λ v, 0 < v) y).

(** Summands of the chi-square: [(y_pred[y > 0] - y[y > 0]) ** 2 / y[y > 0]]. *)
Definition chi2_terms (y_pred : list float) (y : list Z) : result (list float) :=
  let mask := (λ v, bool_decide (0 < v)) <$> y in
  pred_pos ← mask_select y_pred mask;
  y_pos ← mask_select y mask;
  Ok (zip_with (λ p v, div (mul (sub p (of_Z v)) (sub p (of_Z v))) (of_Z v))
               pred_pos y_pos).

Definition _reduced_chi2 (y_pred : list float) (y : list Z) : result float :=
  chi2 ← chi2_terms y_pred y;
  Ok (div (Np.sum chi2) (of_Z (Z.of_nat (length chi2) - 1))).

(** What [iminuit.Minuit(fcn, **x0, errordef=...)] is given besides the
    function to minimise. *)
Record minuit_settings : Type := {
  start : model_params_t;
  error : model_params_t;
  errordef : float;
}.

Definition x0 : minuit_settings :=
  {| start := {| norm := Fin 1; t0 := Fin 5; scale := Fin 20 |};
     error := {| norm := Fin (1 # 100); t0 := Fin (1 # 10); scale := Fin (1 # 100) |};
     errordef := Fin (1 # 2) |}.

Section Fit.
(** [np.exp]. *)
Variable np_exp : float → float.
(** [Minuit(fcn, ...).migrad()] followed by the extraction of the fitted
    values by name: a function of the loss and of the settings. *)
Variable migrad :
  (model_params_t → result float) → minuit_settings → result model_params_t.

Definition exponential_model (p : model_params_t) (t : list Z) : list float :=
  (λ ti, mul (norm p) (np_exp (div (sub (of_Z ti) (t0 p)) (scale p)))) <$> t.

(** Return the reduced chi2 for an exponential fit to the data. *)
Definition exponential_loss (self : fitter) (p : model_params_t) : result float :=
  let y_pred := exponential_model p (t self) in
  _reduced_chi2 y_pred (y self).

(** The arguments [t] and [y] are not read: the loss given to Minuit is
    the bound method [self.exponential_loss]. *)
Definition fit_county_initial_conditions (self : fitter) (t : list Z) (y : list Z)
  : result model_params_t :=
  migrad (exponential_loss self) x0.

(** [np.argmin(np.abs(predictions - t0_case_count))]. *)
Definition threshold_index (self : fitter) (predictions : list float) : result nat :=
  Np.argmin ((λ v, abs (sub v (of_Z (t0_case_count self)))) <$> predictions).

(** The attributes [fit] sets. *)
Record fit_attributes : Type := {
  model_params : model_params_t;
  fit_predictions : list float;
  reduced_chi2 : float;
  t0_idx : nat;
  fitted_t0 : Z;
  t0_date : Z;
}.

Definition fit (self : fitter) : result fit_attributes :=
  model_params ← fit_county_initial_conditions self (t self) (y self);
  let fit_predictions := exponential_model model_params (t self) in
  (* Filter out data a few days before this and re-fit. *)
  t0_idx ← threshold_index self fit_predictions;
  let filter_start := Z.max 0 (Z.of_nat t0_idx - start_days_before_t0 self) in
  let filter_end :=
    Z.min (Z.of_nat (length (t self))) (Z.of_nat t0_idx + start_days_after_t0 self) in
  let t_filtered := py_slice (t self) filter_start filter_end in
  let y_filtered := py_slice (y self) filter_start filter_end in
  model_params ← fit_county_initial_conditions self t_filtered y_filtered;
  let fit_predictions := exponential_model model_params (t self) in
  reduced_chi2 ← exponential_loss self model_params;
  t0_idx ← threshold_index self fit_predictions;
  t0 ← list_getitem (t self) t0_idx;
  Ok {| model_params := model_params;
        fit_predictions := fit_predictions;
        reduced_chi2 := reduced_chi2;
        t0_idx := t0_idx;
        fitted_t0 := t0;
        t0_date := data_start_date self + t0 |}.

(** The window [fit] selects from a coarse fit, as the pair of slices
    it hands to the second call. *)
Definition window (self : fitter) (coarse : model_params_t)
  : result (list Z * list Z) :=
  t0_idx ← threshold_index self (exponential_model coarse (t self));
  let filter_start := Z.max 0 (Z.of_nat t0_idx - start_days_before_t0 self) in
  let filter_end :=
    Z.min (Z.of_nat (length (t self))) (Z.of_nat t0_idx + start_days_after_t0 self) in
  Ok (py_slice (t self) filter_start filter_end,
      py_slice (y self) filter_start filter_end).

End Fit.

(** *** [generate_start_times_for_state] *)

(** A row of the county metadata table. *)
Record county_meta : Type := {
  meta_fips : string;
  meta_state : string;
  population_density : float;
  housing_density : float;
  total_population : float;
}.

(** A value of [fips_to_fit_map]: [fitter.fit_summary], or the three
    [None] of the [except ValueError] branch. *)
Record fit_summary_t : Type := {
  summary_model_params : option model_params_t;
  summary_t0_date : option Z;
  summary_reduced_chi2 : option float;
}.

(** A row of the table [merged].  A missing number is [NaN]; a date is a
    number of days since 1970-01-01, fractional once imputed, and [None]
    when missing; the last two columns exist once they are assigned. *)
Record merged_row : Type := {
  merged_fips : string;
  merged_model_params : option model_params_t;
  merged_t0_date : option float;
  merged_reduced_chi2 : option float;
  merged_meta : county_meta;
  days_from_2020_01_01 : float;
  imputed_start_time : option bool;
  doubling_rate_days : float;
}.

Definition date_2020_01_01 : Z := 18262.

Inductive estimator : Type :=
  | LinearRegression
  | RandomForestRegressor
  | BayesianRidge.

Section Impute.
Variable np_exp : float → float.
Variable migrad :
  (model_params_t → result float) → minuit_settings → result model_params_t.
(** [np.log]. *)
Variable np_log : float → float.
(** [cross_validate(estimator, X=X, y=y, scoring='r2', cv=4)["test_score"]]. *)
Variable cross_validate :
  estimator → list (list float) → list float → result (list float).
(** A fitted [BayesianRidge], its [fit] and its [predict] on one row. *)
Variable ridge : Type.
Variable BayesianRidge_fit : list (list float) → list float → result ridge.
Variable BayesianRidge_predict : ridge → list float → float.

(** The body of the [try] for one county, and its [except ValueError]. *)
Definition fit_one_county (case_data : list case_row) (fips : string)
  : result fit_summary_t :=
  let attempt :=
    fitter ← __init__ case_data fips 1 0 1000 5;
    attrs ← fit np_exp migrad fitter;
    Ok {| summary_model_params := Some (model_params attrs);
          summary_t0_date := Some (t0_date attrs);
          summary_reduced_chi2 := Some (reduced_chi2 attrs) |} in
  match attempt with
  | Raise ValueError =>
      Ok {| summary_model_params := None;
            summary_t0_date := None;
            summary_reduced_chi2 := None |}
  | other => other
  end.

(** The three log features of a row. *)
Definition log_features (row : merged_row) : list float :=
  [np_log (population_density (merged_meta row));
   np_log (housing_density (merged_meta row));
   np_log (total_population (merged_meta row))].

(** [samples_with_data] of a row: its [days_from_2020_01_01] is not
    null.  The mask is taken before anything is imputed. *)
Definition has_data (row : merged_row) : bool :=
  negb (is_nan (days_from_2020_01_01 row)).

(** The last assignments to one row of [merged]: a row without data
    gets the predicted [days_from_2020_01_01] and [t0_date] and is
    marked imputed; a row with data is marked not imputed and gets
    [doubling_rate_days = np.log(2) * model_params['scale']]. *)
Definition finalize_row (best_model : ridge) (row : merged_row) : result merged_row :=
  if has_data row
  then
    match merged_model_params row with
    | Some p =>
        Ok {| merged_fips := merged_fips row;
              merged_model_params := merged_model_params row;
              merged_t0_date := merged_t0_date row;
              merged_reduced_chi2 := merged_reduced_chi2 row;
              merged_meta := merged_meta row;
              days_from_2020_01_01 := days_from_2020_01_01 row;
              imputed_start_time := Some false;
              doubling_rate_days := mul (np_log (Fin 2)) (scale p) |}
    | None => Raise TypeError
    end
  else
    let predicted := BayesianRidge_predict best_model (log_features row) in
    Ok {| merged_fips := merged_fips row;
          merged_model_params := merged_model_params row;
          merged_t0_date := Some (add (of_Z date_2020_01_01) predicted);
          merged_reduced_chi2 := merged_reduced_chi2 row;
          merged_meta := merged_meta row;
          days_from_2020_01_01 := predicted;
          imputed_start_time := Some true;
          doubling_rate_days := doubling_rate_days row |}.

(** The table that is pickled, for the counties of [state].  The column
    [t0_date] of [merged] is a column of dates, with [NaT] for the counties
    without a fit, as soon as one county has a fit. *)
Definition generate_start_times_for_state (metadata : list county_meta)
    (case_data : list case_row) (state : string) : result (list merged_row) :=
  let counties :=
    meta_fips <$> filter (λ m, str_lower (meta_state m) = str_lower state) metadata in
  if decide (length counties = 0%nat) then Raise ValueError
  else
    (* Fit exponential model to extract T0. *)
    fips_to_fit_map ←
      foldlM (λ fips_to_fit_map fips,
                summary ← fit_one_county case_data fips;
                Ok (alist_set fips summary fips_to_fit_map))
             counties [];
    (* Merge in county level metadata. *)
    let merged :=
      fips_to_fit_map ≫= λ entry,
        (λ meta,
           {| merged_fips := entry.1;
              merged_model_params := summary_model_params entry.2;
              merged_t0_date := (λ d, of_Z d) <$> summary_t0_date entry.2;
              merged_reduced_chi2 := summary_reduced_chi2 entry.2;
              merged_meta := meta;
              days_from_2020_01_01 :=
                match summary_t0_date entry.2 with
                | Some d => of_Z (d - date_2020_01_01)
                | None => NaN
                end;
              imputed_start_time := None;
              doubling_rate_days := NaN |})
        <$> filter (λ meta, meta_fips meta = entry.1) metadata in
    (* [merged.t0_date - datetime]: a column that holds [None] only is not
       a column of dates, and the subtraction raises *)
    if forallb (λ row, bool_decide (merged_t0_date row = None)) merged
    then Raise TypeError
    else
    let X := log_features <$> filter (λ row, has_data row = true) merged in
    let y := days_from_2020_01_01 <$> filter (λ row, has_data row = true) merged in
    (* Test a few regressors *)
    _ ← forM (λ estimator, cross_validate estimator X y)
             [LinearRegression; RandomForestRegressor; BayesianRidge];
    (* Train best model and impute the missing times. *)
    best_model ← BayesianRidge_fit X y;
    forM (finalize_row best_model) merged.

End Impute.

End InitialConditionsFitter.

(** ** ensembles/ensemble_runner.py: the time grid and the run over the
    policies *)

Module EnsembleRun.
Import F64 EnsembleRunner.

(** [np.linspace(start, stop, num)] with its end point: [num] evenly
    spaced samples from [start] to [stop], the last one being [stop]
    itself; a single sample is [start]; [ValueError] for a negative
    [num]. *)
Definition linspace (start stop : float) (num : Z) : result (list float) :=
  if num <? 0 then Raise ValueError
  else
    let div := num - 1 in
    let delta := sub stop start in
    let step := F64.div delta (of_Z div) in
    Ok ((λ i : nat,
           if 0 <? div
           then if Z.of_nat i =? div then stop
                else add (mul (of_nat i) step) start
           else add (mul (of_nat i) delta) start)
        <$> seq 0 (Z.to_nat num)).

(** [self.t_list] as [EnsembleRunner.__init__] computes it from
    [n_years]. *)
Definition time_grid (n_years : Z) : result (list float) :=
  linspace (Fin 0) (of_Z (365 * n_years)) (365 * n_years).

Section Run.
(** The suppression policies as callables, and the entries of
    [self.suppression_policy] (floats or strings) they are made from. *)
Variable policy : Type.
Variable future_suppression : Type.
(** [generate_empirical_distancing_policy(t_list, fips, future_suppression)]. *)
Variable generate_empirical_distancing_policy :
  list float → string → future_suppression → result policy.
(** The text of an entry in an f-string, [f'{suppression_policy}']. *)
Variable format_policy : future_suppression → string.
(** [_run_single_simulation]: the model built from the parameter set, after
    its [run()]. *)
Variable _run_single_simulation :
  gmap string (ParameterEnsembleGenerator.pval policy) → result SEIRModel.
(** [CountyReport(...).generate_and_save()], of the last ensemble and the
    outputs. *)
Variable generate_and_save :
  list SEIRModel → gmap string (gmap string outentry) → result unit.

(** The attributes of the runner that [run_ensemble] reads. *)
Record runner : Type := {
  fips : string;
  t_list : list float;
  n_samples : nat;
  suppression_policy : list future_suppression;
  output_percentiles : list Z;
  generate_report : bool;
}.

(** The body of the loop for one policy: the ensemble and its output.
    [rng] are the draws of this iteration of the loop. *)
Definition run_policy (self : runner)
    (county_metadata : list ParameterEnsembleGenerator.county_row)
    (hospital_bed_data : list ParameterEnsembleGenerator.hospital_row)
    (rng : nat → ParameterEnsembleGenerator.draws)
    (suppression_policy : future_suppression)
  : result (list SEIRModel * gmap string outentry) :=
  distancing ←
    generate_empirical_distancing_policy (t_list self) (fips self) suppression_policy;
  generator ←
    ParameterEnsembleGenerator.__init__ policy county_metadata hospital_bed_data
      (fips self) (n_samples self) (t_list self) 1 (Some distancing);
  parameter_ensemble ←
    ParameterEnsembleGenerator.sample_seir_parameters policy generator rng None;
  model_ensemble ← forM _run_single_simulation parameter_ensemble;
  output ←
    _generate_output_for_suppression_policy (output_percentiles self) model_ensemble;
  Ok (model_ensemble, output).

(** The loop over the policies: [all_outputs] and the variable
    [model_ensemble], unbound before the first iteration.  [rng i] are the
    draws of iteration [i] of the loop. *)
Fixpoint policy_loop (self : runner)
    (county_metadata : list ParameterEnsembleGenerator.county_row)
    (hospital_bed_data : list ParameterEnsembleGenerator.hospital_row)
    (rng : nat → nat → ParameterEnsembleGenerator.draws) (i : nat)
    (policies : list future_suppression)
    (all_outputs : gmap string (gmap string outentry))
    (model_ensemble : option (list SEIRModel))
  : result (gmap string (gmap string outentry) * option (list SEIRModel)) :=
  match policies with
  | [] => Ok (all_outputs, model_ensemble)
  | suppression_policy :: policies' =>
      run ← run_policy self county_metadata hospital_bed_data (rng i) suppression_policy;
      policy_loop self county_metadata hospital_bed_data rng (S i) policies'
        (<["suppression_policy__" +:+ format_policy suppression_policy := run.2]>
           all_outputs)
        (Some run.1)
  end.

(** How a call of [run_ensemble] ends: the dict written to the data file,
    an exception of [exn], or the [UnboundLocalError] of reading a local
    variable that was never assigned. *)
Inductive outcome : Type :=
  | Written (all_outputs : gmap string (gmap string outentry))
  | Raised (e : exn)
  | RaisedUnboundLocalError.

(** [all_outputs] is empty when the runner is constructed. *)
Definition run_ensemble (self : runner)
    (county_metadata : list ParameterEnsembleGenerator.county_row)
    (hospital_bed_data : list ParameterEnsembleGenerator.hospital_row)
    (rng : nat → nat → ParameterEnsembleGenerator.draws) : outcome :=
  match policy_loop self county_metadata hospital_bed_data rng 0
                    (suppression_policy self) ∅ None with
  | Raise e => Raised e
  | Ok (all_outputs, model_ensemble) =>
      if generate_report self
      then
        match model_ensemble with
        | None => RaisedUnboundLocalError
        | Some model_ensemble =>
            match generate_and_save model_ensemble all_outputs with
            | Raise e => Raised e
            | Ok _ => Written all_outputs
            end
        end
      else Written all_outputs
  end.

End Run.

End EnsembleRun.

(** ** Specification predicates *)

Module Spec.
Import F64 EnsembleRunner.

(** The series exceeds the capacity at index [i] (strictly). *)
Definition exceeds_at (series : list float) (capacity : float) (i : nat) : Prop :=
  ∃ v, series !! i = Some v ∧ gtb v capacity = true.

(** [(surge_start, surge_end)] is the surge window of a series over a time
    grid: the time at the earliest index where the capacity is exceeded,
    the time at the latest, both NaN when there is none; with exactly one
    such index both are the time at that index. *)
Definition is_surge_window (t_list series : list float) (capacity : float)
    (surge_start surge_end : float) : Prop :=
  (∀ i, exceeds_at series capacity i →
        (∀ j, (j < i)%nat → ¬ exceeds_at series capacity j) →
        t_list !! i = Some surge_start) ∧
  (∀ i, exceeds_at series capacity i →
        (∀ j, (i < j)%nat → ¬ exceeds_at series capacity j) →
        t_list !! i = Some surge_end) ∧
  ((∀ i, ¬ exceeds_at series capacity i) → surge_start = NaN ∧ surge_end = NaN) ∧
  (∀ i, exceeds_at series capacity i →
        (∀ j, exceeds_at series capacity j → j = i) →
        t_list !! i = Some surge_start ∧ surge_end = surge_start).

(** A float that is a number. *)
Definition finite (x : float) : Prop := is_finite x = true.

(** The rational a finite float stands for. *)
Definition value (x : float) : Q :=
  match x with Fin q => q | _ => 0%Q end.


(** The value of run [m] for the compartment at timestep [t]. *)
Definition value_at (m : SEIRModel) (compartment : string) (t : nat) : float :=
  match results m !! compartment with
  | Some series => nth t series NaN
  | None => NaN
  end.

(** Some run's compartment key set, or the length of some compartment's
    series, differs from another run's. *)
Definition shape_inconsistent (model_ensemble : list SEIRModel) : Prop :=
  ∃ m m', m ∈ model_ensemble ∧ m' ∈ model_ensemble ∧
    (dom (results m) ≠ dom (results m') ∨
     ∃ key series series',
       results m !! key = Some series ∧ results m' !! key = Some series' ∧
       length series ≠ length series').

(** Some run lacks a compartment of the first run, or its series for one
    has not the length of the first run's. *)
Definition shape_mismatch_with_first (model_ensemble : list SEIRModel) : Prop :=
  ∃ model0 m key series0,
    model_ensemble !! 0%nat = Some model0 ∧ m ∈ model_ensemble ∧
    results model0 !! key = Some series0 ∧ is_compartment_key key = true ∧
    (results m !! key = None ∨
     ∃ series, results m !! key = Some series ∧ length series ≠ length series0).

(** The distinct observation days of a region in the case table. *)
Definition observation_days (case_data : list InitialConditionsFitter.case_row)
    (fips : string) : list Z :=
  remove_dups (InitialConditionsFitter.row_date
                 <$> filter (λ r, InitialConditionsFitter.row_fips r = fips) case_data).

(** The case table has one row per region and day. *)
Definition one_row_per_day (case_data : list InitialConditionsFitter.case_row)
    (fips : string) : Prop :=
  NoDup (InitialConditionsFitter.row_date
           <$> filter (λ r, InitialConditionsFitter.row_fips r = fips) case_data).

(** A fit summary has its parameters exactly when it has its start date. *)
Definition summary_consistent (summary : InitialConditionsFitter.fit_summary_t) : Prop :=
  match InitialConditionsFitter.summary_model_params summary,
        InitialConditionsFitter.summary_t0_date summary with
  | Some _, Some _ | None, None => True
  | _, _ => False
  end.

(** The doubling-time column of a row of the imputation table is as
    specified: a region with a real fit is not marked imputed and has
    [ln 2] times its fitted growth timescale; a region without one is marked
    imputed and has no doubling time. *)
Definition doubling_time_as_specified (np_log : float → float)
    (row : InitialConditionsFitter.merged_row) : Prop :=
  match InitialConditionsFitter.merged_model_params row with
  | Some p =>
      InitialConditionsFitter.imputed_start_time row = Some false ∧
      InitialConditionsFitter.doubling_rate_days row
        = mul (np_log (Fin 2)) (InitialConditionsFitter.scale p)
  | None =>
      InitialConditionsFitter.imputed_start_time row = Some true ∧
      InitialConditionsFitter.doubling_rate_days row = NaN
  end.

End Spec.

(** *** Predicates of further properties *)

Module PeakSpec.
Import F64 EnsembleRunner.

(** [mx] is the largest value of [row], and [idx] the first index at
    which the row attains it. *)
Definition is_first_maximum (row : list float) (idx : nat) (mx : float) : Prop :=
  row !! idx = Some mx ∧
  (∀ v, v ∈ row → le v mx) ∧
  (∀ j v, (j < idx)%nat → row !! j = Some v → ltb v mx = true).

End PeakSpec.

Module SamplerSpec.
Import F64 ParameterEnsembleGenerator.

(** The sum of a column over the rows of a region in the hospital table,
    as a rational (the column holding numbers). *)
Definition facility_total (col : hospital_row → float) (fips : string)
    (hospital_bed_data : list hospital_row) : Q :=
  foldr Qplus 0%Q
    ((λ r, Spec.value (col r)) <$> filter (λ r, hospital_fips r = fips) hospital_bed_data).

(** None of the three divisors of an iteration is zero: the incubation
    days and the infectious days that are inverted, and one minus the
    asymptomatic fraction.  The draws are Python floats, and dividing by a
    zero one raises [ZeroDivisionError]. *)
Definition divisors_nonzero (d : draws) : Prop :=
  ¬ eqv (draw_incubation_days d) (Fin 0) ∧
  ¬ eqv (draw_infectious_days d) (Fin 0) ∧
  ¬ eqv (draw_fraction_asymptomatic d) (Fin 1).

End SamplerSpec.

(** ** Example inputs *)

Module Examples.
Import F64 EnsembleRunner.

Definition floats (l : list Z) : list float := of_Z <$> l.

(** A run over the time grid [0, 1, 2] whose only compartment is the
    general-bed one, with the given series and general-bed capacity. *)
Definition hgen_run (series : list Z) (capacity : Z) : SEIRModel :=
  {| t_list := floats [0; 1; 2];
     results := {[ "HGen" := floats series ]};
     beds_general := of_Z capacity;
     beds_ICU := Fin 0;
     ventilators := Fin 0 |}.

(** Three runs of one compartment: [[1,2,3], [2,3,4], [3,4,5]]. *)
Definition three_runs : list SEIRModel :=
  [hgen_run [1; 2; 3] 2; hgen_run [2; 3; 4] 2; hgen_run [3; 4; 5] 2].

(** A run like [hgen_run series capacity] that carries one compartment
    more, the ICU one. *)
Definition hgen_hicu_run (series icu_series : list Z) (capacity : Z) : SEIRModel :=
  {| t_list := floats [0; 1; 2];
     results := <["HICU" := floats icu_series]> {[ "HGen" := floats series ]};
     beds_general := of_Z capacity;
     beds_ICU := Fin 0;
     ventilators := Fin 0 |}.

(** Observed counts with a single strictly positive entry, and predictions
    for them. *)
Definition one_positive_count : list Z := [0; 3].
Definition two_predictions : list float := [Fin 1; Fin 2].

(** County metadata with two regions, and a hospital table that has rows
    (two facilities) for the second region only. *)
Definition county_metadata : list ParameterEnsembleGenerator.county_row :=
  [ {| ParameterEnsembleGenerator.county_fips := "06003";
       ParameterEnsembleGenerator.county_columns :=
         <["total_population" := of_Z 1129]>
           (<["population_density" := Fin (15 # 10)]>
             (<["housing_density" := Fin (24 # 10)]> ∅)) |};
    {| ParameterEnsembleGenerator.county_fips := "06075";
       ParameterEnsembleGenerator.county_columns :=
         <["total_population" := of_Z 881549]>
           (<["population_density" := of_Z 18790]>
             (<["housing_density" := of_Z 8530]> ∅)) |} ].

Definition hospital_bed_data : list ParameterEnsembleGenerator.hospital_row :=
  [ {| ParameterEnsembleGenerator.hospital_fips := "06075";
       ParameterEnsembleGenerator.num_licensed_beds := of_Z 500;
       ParameterEnsembleGenerator.num_staffed_beds := of_Z 400;
       ParameterEnsembleGenerator.num_icu_beds := of_Z 40;
       ParameterEnsembleGenerator.bed_utilization := Fin (6 # 10);
       ParameterEnsembleGenerator.potential_increase_in_bed_capac := of_Z 100 |};
    {| ParameterEnsembleGenerator.hospital_fips := "06075";
       ParameterEnsembleGenerator.num_licensed_beds := of_Z 300;
       ParameterEnsembleGenerator.num_staffed_beds := of_Z 250;
       ParameterEnsembleGenerator.num_icu_beds := of_Z 20;
       ParameterEnsembleGenerator.bed_utilization := Fin (7 # 10);
       ParameterEnsembleGenerator.potential_increase_in_bed_capac := of_Z 50 |} ].

(** One iteration's draws, each at the centre of its distribution. *)
Definition central_draws : ParameterEnsembleGenerator.draws :=
  {| ParameterEnsembleGenerator.draw_hospitalization_rate_general := Fin (10 # 100);
     ParameterEnsembleGenerator.draw_fraction_asymptomatic := Fin (5 # 10);
     ParameterEnsembleGenerator.draw_R0 := Fin (375 # 100);
     ParameterEnsembleGenerator.draw_icu_given_hospitalized := Fin (29 # 100);
     ParameterEnsembleGenerator.draw_fraction_icu_requiring_ventilator := Fin (54 # 100);
     ParameterEnsembleGenerator.draw_incubation_days := Fin (51 # 10);
     ParameterEnsembleGenerator.draw_infectious_days := Fin 5;
     ParameterEnsembleGenerator.draw_symptoms_to_hospital_days := Fin (65 # 10);
     ParameterEnsembleGenerator.draw_symptoms_to_mortality_days := Fin (188 # 10);
     ParameterEnsembleGenerator.draw_length_of_stay_general := Fin 7;
     ParameterEnsembleGenerator.draw_length_of_stay_icu := Fin 16;
     ParameterEnsembleGenerator.draw_length_of_stay_icu_and_ventilator := Fin 17;
     ParameterEnsembleGenerator.draw_mortality_rate := Fin (1 # 100);
     ParameterEnsembleGenerator.draw_mortality_rate_no_general_beds := Fin (25 # 100);
     ParameterEnsembleGenerator.draw_mortality_rate_no_ICU_beds := Fin (9 # 10);
     ParameterEnsembleGenerator.draw_ventilators_per_icu_bed := Fin (11 # 10) |}.

(** The parameter sets sampled for a region: two samples over the time grid
    [0, 1, 2], one initial infection, no suppression policy, no override. *)
Definition sampled_for (fips : string)
  : result (list (gmap string (ParameterEnsembleGenerator.pval unit))) :=
  self ← ParameterEnsembleGenerator.__init__ unit county_metadata hospital_bed_data
            fips 2 (floats [0; 1; 2]) 1 None;
  ParameterEnsembleGenerator.sample_seir_parameters unit self (λ _, central_draws) None.

(** Five days of cases of one county, doubling every day. *)
Definition doubling_cases : list InitialConditionsFitter.case_row :=
  (λ dc : Z * Z,
     {| InitialConditionsFitter.row_fips := "06075";
        InitialConditionsFitter.row_date := 18322 + dc.1;
        InitialConditionsFitter.row_cases := dc.2;
        InitialConditionsFitter.row_county := "San Francisco";
        InitialConditionsFitter.row_state := "California" |})
  <$> [(0, 1); (1, 2); (2, 4); (3, 8); (4, 16)].

(** The metadata of a state with two counties; only the second has case
    data in [doubling_cases]. *)
Definition state_metadata : list InitialConditionsFitter.county_meta :=
  [ {| InitialConditionsFitter.meta_fips := "06003";
       InitialConditionsFitter.meta_state := "California";
       InitialConditionsFitter.population_density := Fin (15 # 10);
       InitialConditionsFitter.housing_density := Fin (24 # 10);
       InitialConditionsFitter.total_population := of_Z 1129 |};
    {| InitialConditionsFitter.meta_fips := "06075";
       InitialConditionsFitter.meta_state := "California";
       InitialConditionsFitter.population_density := of_Z 18790;
       InitialConditionsFitter.housing_density := of_Z 8530;
       InitialConditionsFitter.total_population := of_Z 881549 |} ].

(** Stand-ins for the numerical libraries, to run the imputation on the
    example: an optimiser that returns its start point, constant [exp] and
    [log], a regression that predicts day 80. *)
Definition start_point_optimiser
    (loss : InitialConditionsFitter.model_params_t → result float)
    (settings : InitialConditionsFitter.minuit_settings)
  : result InitialConditionsFitter.model_params_t :=
  Ok (InitialConditionsFitter.start settings).
Definition constant_exp (x : float) : float := Fin 1.

(** An optimiser that evaluates the loss it is given at its start point and
    reports the value as [norm]: it shows which loss it was handed. *)
Definition probe_optimiser
    (loss : InitialConditionsFitter.model_params_t → result float)
    (settings : InitialConditionsFitter.minuit_settings)
  : result InitialConditionsFitter.model_params_t :=
  v ← loss (InitialConditionsFitter.start settings);
  Ok {| InitialConditionsFitter.norm := v;
        InitialConditionsFitter.t0 :=
          InitialConditionsFitter.t0 (InitialConditionsFitter.start settings);
        InitialConditionsFitter.scale :=
          InitialConditionsFitter.scale (InitialConditionsFitter.start settings) |}.

(** A fitter on [doubling_cases] whose window is two days long. *)
Definition two_day_window_fitter : result InitialConditionsFitter.fitter :=
  InitialConditionsFitter.__init__ doubling_cases "06075" 1 0 2 5.
Definition constant_log (x : float) : float := Fin (6931 # 10000).

Definition example_start_times : result (list InitialConditionsFitter.merged_row) :=
  InitialConditionsFitter.generate_start_times_for_state
    constant_exp start_point_optimiser constant_log
    (λ _ _ _, Ok []) unit (λ _ _, Ok tt) (λ _ _, Fin 80)
    state_metadata doubling_cases "california".

End Examples.

(** *** Inputs of further properties *)

Module MoreRuns.
Import F64 EnsembleRunner.

(** A run whose results carry, besides the general-bed compartment, a
    series under the key ['t']. *)
Definition hgen_t_run (series t_series : list Z) (capacity : Z) : SEIRModel :=
  {| t_list := Examples.floats [0; 1; 2];
     results := <["t" := Examples.floats t_series]> {[ "HGen" := Examples.floats series ]};
     beds_general := of_Z capacity;
     beds_ICU := Fin 0;
     ventilators := Fin 0 |}.

(** Two runs of three timesteps, [[1,5,9], [3,7,5]]: the medians over the
    runs are [2, 6, 7], one per timestep; the medians of the runs are [5]
    and [5]. *)
Definition two_runs : list SEIRModel :=
  [Examples.hgen_run [1; 5; 9] 2; Examples.hgen_run [3; 7; 5] 2].

End MoreRuns.

Module SamplerExamples.
Import F64 ParameterEnsembleGenerator.

(** The generator constructed for a region of the example tables: two
    samples over the time grid [0, 1, 2], one initial infection, no
    suppression policy. *)
Definition generator_for (fips : string) : generator unit :=
  match __init__ unit Examples.county_metadata Examples.hospital_bed_data
                 fips 2 (Examples.floats [0; 1; 2]) 1 None with
  | Ok self => self
  | Raise _ =>
      {| ParameterEnsembleGenerator.fips := fips; N_samples := 0; I_initial := 0;
         suppression_policy := None; t_list := []; county_metadata_merged := ∅ |}
  end.

(** The sets it samples with the central draws in every iteration, under
    an override. *)
Definition sampled_with (fips : string) (override_params : option (gmap string (pval unit)))
  : list (gmap string (pval unit)) :=
  match sample_seir_parameters unit (generator_for fips) (λ _, Examples.central_draws)
                               override_params with
  | Ok parameter_sets => parameter_sets
  | Raise _ => []
  end.

(** The sets it samples, without override, when every iteration draws [d]. *)
Definition sampled_with_draws (fips : string) (d : draws)
  : list (gmap string (pval unit)) :=
  match sample_seir_parameters unit (generator_for fips) (λ _, d) None with
  | Ok parameter_sets => parameter_sets
  | Raise _ => []
  end.

(** The first of these sets. *)
Definition first_sampled_with_draws (fips : string) (d : draws) : gmap string (pval unit) :=
  default ∅ (sampled_with_draws fips d !! 0%nat).

(** An override of the reproduction number and of the ICU capacity. *)
Definition override_R0_beds : gmap string (pval unit) :=
  <["R0" := PNum unit (Fin 2)]> (<["beds_ICU" := PNum unit (Fin 10)]> ∅).

(** Draws like the central ones, with a negative draw for the fraction of
    ICU patients requiring a ventilator and for the ICU rate. *)
Definition negative_draws : draws :=
  {| draw_hospitalization_rate_general := Fin (10 # 100);
     draw_fraction_asymptomatic := Fin (5 # 10);
     draw_R0 := Fin (375 # 100);
     draw_icu_given_hospitalized := Fin (- 5 # 100);
     draw_fraction_icu_requiring_ventilator := Fin (- 1 # 10);
     draw_incubation_days := Fin (51 # 10);
     draw_infectious_days := Fin 5;
     draw_symptoms_to_hospital_days := Fin (65 # 10);
     draw_symptoms_to_mortality_days := Fin (188 # 10);
     draw_length_of_stay_general := Fin 7;
     draw_length_of_stay_icu := Fin 16;
     draw_length_of_stay_icu_and_ventilator := Fin 17;
     draw_mortality_rate := Fin (1 # 100);
     draw_mortality_rate_no_general_beds := Fin (25 # 100);
     draw_mortality_rate_no_ICU_beds := Fin (9 # 10);
     draw_ventilators_per_icu_bed := Fin (11 # 10) |}.

(** Draws like the central ones, with an incubation period of zero
    days. *)
Definition zero_incubation_draws : draws :=
  {| draw_hospitalization_rate_general := Fin (10 # 100);
     draw_fraction_asymptomatic := Fin (5 # 10);
     draw_R0 := Fin (375 # 100);
     draw_icu_given_hospitalized := Fin (29 # 100);
     draw_fraction_icu_requiring_ventilator := Fin (54 # 100);
     draw_incubation_days := Fin 0;
     draw_infectious_days := Fin 5;
     draw_symptoms_to_hospital_days := Fin (65 # 10);
     draw_symptoms_to_mortality_days := Fin (188 # 10);
     draw_length_of_stay_general := Fin 7;
     draw_length_of_stay_icu := Fin 16;
     draw_length_of_stay_icu_and_ventilator := Fin 17;
     draw_mortality_rate := Fin (1 # 100);
     draw_mortality_rate_no_general_beds := Fin (25 # 100);
     draw_mortality_rate_no_ICU_beds := Fin (9 # 10);
     draw_ventilators_per_icu_bed := Fin (11 # 10) |}.

End SamplerExamples.

Module FitterExamples.
Import F64 InitialConditionsFitter.

(** The fitter constructed on [doubling_cases] with the defaults of the
    constructor. *)
Definition doubling_fitter : fitter :=
  match __init__ Examples.doubling_cases "06075" 1 2 1000 5 with
  | Ok self => self
  | Raise _ =>
      {| t0_case_count := 1; start_days_before_t0 := 2; start_days_after_t0 := 1000;
         min_days_required := 5; cases := []; fips := "06075"; county := "";
         state := ""; t := []; data_start_date := 0; y := [] |}
  end.

(** What [fit] stores for it, with the stand-ins for [exp] and the
    minimiser. *)
Definition doubling_fit : fit_attributes :=
  match fit Examples.constant_exp Examples.start_point_optimiser doubling_fitter with
  | Ok attrs => attrs
  | Raise _ =>
      {| model_params := start x0; fit_predictions := []; reduced_chi2 := NaN;
         t0_idx := 0; fitted_t0 := 0; t0_date := 0 |}
  end.

(** [Examples.doubling_cases] with its last day reported a second time:
    six rows on five distinct days. *)
Definition repeated_day_cases : list case_row :=
  Examples.doubling_cases ++
  [ {| row_fips := "06075"; row_date := 18326; row_cases := 16;
       row_county := "San Francisco"; row_state := "California" |} ].

End FitterExamples.

Module TableExamples.

(** The table of [Examples.example_start_times]. *)
Definition start_times_table : list InitialConditionsFitter.merged_row :=
  match Examples.example_start_times with
  | Ok table => table
  | Raise _ => []
  end.

End TableExamples.

Module RunExamples.
Import F64 EnsembleRunner.

(** Stand-ins to run [run_ensemble] on the example tables: the entries of
    [suppression_policy] are integers, the distancing policy carries no
    information, every simulation yields the same run, and the report
    succeeds. *)
Definition example_runner (n_samples : nat) (policies : list Z) (report : bool)
  : EnsembleRun.runner Z :=
  {| EnsembleRun.fips := "06075";
     EnsembleRun.t_list := Examples.floats [0; 1; 2];
     EnsembleRun.n_samples := n_samples;
     EnsembleRun.suppression_policy := policies;
     EnsembleRun.output_percentiles := [50];
     EnsembleRun.generate_report := report |}.

Definition example_run (n_samples : nat) (policies : list Z) (report : bool)
  : EnsembleRun.outcome :=
  EnsembleRun.run_ensemble unit Z (λ _ _ _, Ok tt) pretty
    (λ _, Ok (Examples.hgen_run [1; 3; 1] 2)) (λ _ _, Ok tt)
    (example_runner n_samples policies report)
    Examples.county_metadata Examples.hospital_bed_data (λ _ _, Examples.central_draws).

(** The dict a run writes, empty when it writes none. *)
Definition written (o : EnsembleRun.outcome) : gmap string (gmap string outentry) :=
  match o with
  | EnsembleRun.Written all_outputs => all_outputs
  | _ => ∅
  end.

Definition is_written (o : EnsembleRun.outcome) : bool :=
  match o with
  | EnsembleRun.Written _ => true
  | _ => false
  end.

End RunExamples.

(** * Properties *)

(** ** The error monad and the containers *)

Lemma bind_Ok {A B} (m : result A) (k : A → result B) (b : B) :
  m ≫= k = Ok b → ∃ a, m = Ok a ∧ k a = Ok b.
Proof. destruct m as [a|e]; simpl; [eauto | discriminate]. Qed.

Lemma bind_Raise {A B} (m : result A) (k : A → result B) (e : exn) :
  m ≫= k = Raise e → m = Raise e ∨ ∃ a, m = Ok a ∧ k a = Raise e.
Proof. destruct m as [a|e']; simpl; [eauto | intros [= ->]; auto]. Qed.

Section Monad.
Context {A B : Type}.

Lemma forM_Ok_inv (f : A → result B) (l : list A) (ys : list B) :
  forM f l = Ok ys → Forall2 (λ x y, f x = Ok y) l ys.
Proof.
  revert ys. induction l as [|x l IH]; simpl; intros ys H.
  - injection H as <-. constructor.
  - apply bind_Ok in H as (y & Hy & H).
    apply bind_Ok in H as (ys' & Hys & H).
    injection H as <-. constructor; auto.
Qed.

Lemma forM_Ok (f : A → result B) (l : list A) (ys : list B) :
  Forall2 (λ x y, f x = Ok y) l ys → forM f l = Ok ys.
Proof.
  induction 1 as [|x y l ys Hxy _ IH]; simpl; [done|].
  rewrite Hxy. simpl. rewrite IH. done.
Qed.

Lemma forM_fmap (f : A → result B) (g : A → B) (l : list A) :
  (∀ x, x ∈ l → f x = Ok (g x)) → forM f l = Ok (g <$> l).
Proof.
  intros H. apply forM_Ok. induction l as [|x l IH]; simpl; constructor.
  - apply H. left.
  - apply IH. intros z Hz. apply H. by right.
Qed.

Lemma forM_Raise_inv (f : A → result B) (l : list A) (e : exn) :
  forM f l = Raise e → ∃ x, x ∈ l ∧ f x = Raise e.
Proof.
  induction l as [|x l IH]; simpl; [discriminate|]. intros H.
  apply bind_Raise in H as [H | (y & Hy & H)].
  - exists x. split; [left | done].
  - apply bind_Raise in H as [H | (ys & Hys & H)]; [|discriminate].
    destruct (IH H) as (z & Hz & Hfz). exists z. split; [by right | done].
Qed.

(** What a loop over the items of a dict returns: the dict rebuilt entry
    by entry, or the exception one of its entries raised. *)
Lemma dict_forM_spec (f : string → A → result B) (d : gmap string A) :
  match dict_forM f d with
  | Ok d' =>
      ∀ k, match d !! k with
           | Some v => ∃ y, f k v = Ok y ∧ d' !! k = Some y
           | None => d' !! k = None
           end
  | Raise e => ∃ k v, d !! k = Some v ∧ f k v = Raise e
  end.
Proof.
  unfold dict_forM.
  apply (map_fold_weak_ind (λ r m,
    match r with
    | Ok d' =>
        ∀ k, match m !! k with
             | Some v => ∃ y, f k v = Ok y ∧ d' !! k = Some y
             | None => d' !! k = None
             end
    | Raise e => ∃ k v, m !! k = Some v ∧ f k v = Raise e
    end)).
  - intros k. rewrite !lookup_empty. done.
  - intros i x m r Hi IH. destruct r as [acc|e]; simpl.
    + destruct (f i x) as [y|e] eqn:Hf; simpl.
      * intros k. destruct (decide (k = i)) as [->|Hne].
        -- rewrite !lookup_insert_eq. eauto.
        -- rewrite !lookup_insert_ne by done. apply IH.
      * exists i, x. by rewrite lookup_insert_eq.
    + destruct IH as (k & v & Hk & Hf). exists k, v. split; [|done].
      rewrite lookup_insert_ne; [done|]. intros ->. congruence.
Qed.

Lemma dict_forM_Ok_lookup (f : string → A → result B) (d : gmap string A)
    (d' : gmap string B) (k : string) :
  dict_forM f d = Ok d' →
  match d !! k with
  | Some v => ∃ y, f k v = Ok y ∧ d' !! k = Some y
  | None => d' !! k = None
  end.
Proof. intros H. pose proof (dict_forM_spec f d) as S. rewrite H in S. apply S. Qed.

(** The loop returns when every entry does. *)
Lemma dict_forM_returns (f : string → A → result B) (d : gmap string A) :
  (∀ k v, d !! k = Some v → returns (f k v)) → returns (dict_forM f d).
Proof.
  intros H. pose proof (dict_forM_spec f d) as S.
  destruct (dict_forM f d) as [d'|e]; [by exists d'|].
  destruct S as (k & v & Hk & Hf). destruct (H k v Hk) as [y Hy]. congruence.
Qed.

End Monad.

(** ** Surge windows *)

Section SurgeWindow.
Import F64 Np EnsembleRunner Spec.

Lemma argwhere_from_nil (k : nat) (mask : list bool) :
  argwhere_from k mask = [] → ∀ j, mask !! j ≠ Some true.
Proof.
  revert k. induction mask as [|b mask IH]; intros k H j; [by destruct j|].
  simpl in H. destruct b; [discriminate|].
  destruct j as [|j]; simpl; [discriminate | by eapply IH].
Qed.

Lemma argwhere_from_head (k : nat) (mask : list bool) (i : nat) (rest : list nat) :
  argwhere_from k mask = i :: rest →
  ∃ j, i = (k + j)%nat ∧ mask !! j = Some true ∧
       ∀ j', (j' < j)%nat → mask !! j' = Some false.
Proof.
  revert k. induction mask as [|b mask IH]; intros k H; [discriminate|].
  simpl in H. destruct b.
  - injection H as <- _. exists 0%nat. repeat split; [lia | lia].
  - destruct (IH _ H) as (j & -> & Hj & Hlt). exists (S j).
    repeat split; [lia | done |].
    intros [|j'] ?; simpl; [done | apply Hlt; lia].
Qed.

Lemma exceeds_at_mask (series : list float) (capacity : float) (i : nat) :
  ((λ v, gtb v capacity) <$> series) !! i = Some true ↔ exceeds_at series capacity i.
Proof.
  rewrite list_lookup_fmap. unfold exceeds_at.
  destruct (series !! i) as [v|]; simpl; split.
  - intros [= H]. eauto.
  - intros (v' & [= <-] & H). by rewrite H.
  - discriminate.
  - intros (v' & [=] & _).
Qed.

Lemma exceeds_at_lt (series : list float) (capacity : float) (i : nat) :
  exceeds_at series capacity i → (i < length series)%nat.
Proof. intros (v & Hv & _). by eapply lookup_lt_Some. Qed.

Lemma exceeds_at_reverse (series : list float) (capacity : float) (j : nat) :
  exceeds_at (reverse series) capacity j ↔
  (j < length series)%nat ∧ exceeds_at series capacity (length series - S j).
Proof.
  unfold exceeds_at. split.
  - intros (v & Hv & Hgt).
    assert (j < length series)%nat as Hj
      by (rewrite <- length_reverse; by eapply lookup_lt_Some).
    rewrite reverse_lookup in Hv by done. eauto.
  - intros (Hj & v & Hv & Hgt). rewrite reverse_lookup by done. eauto.
Qed.

Lemma argwhere_first_exceed (series : list float) (capacity : float) i rest :
  argwhere ((λ v, gtb v capacity) <$> series) = i :: rest →
  exceeds_at series capacity i ∧ ∀ j, (j < i)%nat → ¬ exceeds_at series capacity j.
Proof.
  intros H. apply argwhere_from_head in H as (j & -> & Hj & Hlt). simpl. split.
  - by apply exceeds_at_mask.
  - intros j' Hj' Hex. apply exceeds_at_mask in Hex. rewrite (Hlt _ Hj') in Hex.
    discriminate.
Qed.

Lemma argwhere_last_exceed (series : list float) (capacity : float) j rest :
  argwhere ((λ v, gtb v capacity) <$> reverse series) = j :: rest →
  (j < length series)%nat ∧
  exceeds_at series capacity (length series - S j) ∧
  ∀ i, (length series - S j < i)%nat → ¬ exceeds_at series capacity i.
Proof.
  intros H. apply argwhere_from_head in H as (j0 & -> & Hj & Hlt). simpl.
  apply exceeds_at_mask, exceeds_at_reverse in Hj as [Hlen Hex].
  repeat split; [done | done |].
  intros i Hi Hexi. pose proof (exceeds_at_lt _ _ _ Hexi) as Hilen.
  assert (exceeds_at (reverse series) capacity (length series - S i)) as Hrev.
  { apply exceeds_at_reverse. split; [lia|].
    replace (length series - S (length series - S i))%nat with i by lia. done. }
  apply exceeds_at_mask in Hrev. rewrite Hlt in Hrev by lia. discriminate.
Qed.

Lemma argwhere_none_exceed (series : list float) (capacity : float) :
  argwhere ((λ v, gtb v capacity) <$> series) = [] →
  ∀ i, ¬ exceeds_at series capacity i.
Proof.
  intros H i Hex. apply exceeds_at_mask in Hex.
  by eapply argwhere_from_nil in H.
Qed.

Lemma capacity_of_total (compartment : string) (m : SEIRModel) :
  is_Some (compartment_to_capacity_attr_map !! compartment) →
  ∃ capacity, capacity_of compartment m = Ok capacity.
Proof.
  intros [attr Hattr]. unfold capacity_of, dict_getitem. rewrite Hattr. simpl.
  unfold compartment_to_capacity_attr_map in Hattr.
  rewrite !lookup_insert_Some, lookup_empty in Hattr.
  destruct Hattr as [[_ <-]|[_ [[_ <-]|[_ [[_ <-]|[_ ?]]]]]]; [| | |done];
    vm_compute; eauto.
Qed.

(** The body of the loop computes the surge window of its run. *)
Lemma surge_window_of_run_correct (compartment : string) (m : SEIRModel)
    (series : list float) :
  is_Some (compartment_to_capacity_attr_map !! compartment) →
  results m !! compartment = Some series →
  length (t_list m) = length series →
  ∃ capacity surge_start surge_end,
    capacity_of compartment m = Ok capacity ∧
    surge_window_of_run compartment m = Ok (surge_start, surge_end) ∧
    is_surge_window (t_list m) series capacity surge_start surge_end.
Proof.
  intros Hcap Hseries Hlen.
  destruct (capacity_of_total compartment m Hcap) as [capacity Hc].
  exists capacity. unfold surge_window_of_run, dict_getitem.
  rewrite Hseries. simpl. rewrite Hc. simpl.
  destruct (argwhere ((λ v, gtb v capacity) <$> series)) as [|i rest] eqn:Hs;
    destruct (argwhere ((λ v, gtb v capacity) <$> reverse series)) as [|j rest'] eqn:He.
  - exists NaN, NaN. split; [done|]. split; [done|].
    pose proof (argwhere_none_exceed _ _ Hs) as Hnone.
    split; [|split; [|split]].
    + intros i' Hex. by apply Hnone in Hex.
    + intros i' Hex. by apply Hnone in Hex.
    + done.
    + intros i' Hex. by apply Hnone in Hex.
  - exfalso. apply argwhere_last_exceed in He as (_ & Hex & _).
    by apply (argwhere_none_exceed _ _ Hs) in Hex.
  - exfalso. apply argwhere_first_exceed in Hs as [Hex _].
    assert (exceeds_at (reverse series) capacity (length series - S i)) as Hrev.
    { pose proof (exceeds_at_lt _ _ _ Hex). apply exceeds_at_reverse. split; [lia|].
      replace (length series - S (length series - S i))%nat with i by lia. done. }
    by apply (argwhere_none_exceed _ _ He) in Hrev.
  - apply argwhere_first_exceed in Hs as [Hfirst Hbefore].
    apply argwhere_last_exceed in He as (Hj & Hlast & Hafter).
    pose proof (exceeds_at_lt _ _ _ Hfirst) as Hi.
    destruct (lookup_lt_is_Some_2 (t_list m) i) as [s Hts]; [lia|].
    destruct (lookup_lt_is_Some_2 (t_list m) (length series - S j)) as [e Hte]; [lia|].
    unfold list_getitem. rewrite Hts. simpl.
    rewrite reverse_lookup by lia. rewrite Hlen, Hte. simpl.
    exists s, e. split; [done|]. split; [done|].
    assert (∀ i', exceeds_at series capacity i' →
                  (∀ j', (j' < i')%nat → ¬ exceeds_at series capacity j') → i' = i) as Huniq1.
    { intros i' Hex Hmin. destruct (Nat.lt_trichotomy i' i) as [?|[?|?]]; [|done|].
      - by apply Hbefore in Hex.
      - by apply Hmin in Hfirst. }
    assert (∀ i', exceeds_at series capacity i' →
                  (∀ j', (i' < j')%nat → ¬ exceeds_at series capacity j') →
                  i' = (length series - S j)%nat) as Huniq2.
    { intros i' Hex Hmax.
      destruct (Nat.lt_trichotomy i' (length series - S j)) as [?|[?|?]]; [|done|].
      - by apply Hmax in Hlast.
      - by apply Hafter in Hex. }
    split; [|split; [|split]].
    + intros i' Hex Hmin. by rewrite (Huniq1 i' Hex Hmin).
    + intros i' Hex Hmax. by rewrite (Huniq2 i' Hex Hmax).
    + intros Hnone. by apply Hnone in Hfirst.
    + intros i' Hex Honly.
      pose proof (Honly _ Hfirst) as E1. pose proof (Honly _ Hlast) as E2.
      rewrite <- E1. split; [done|].
      rewrite E2, <- E1, Hts in Hte. by injection Hte.
Qed.

Lemma forM_surge_windows (compartment : string) (model_ensemble : list SEIRModel) :
  is_Some (compartment_to_capacity_attr_map !! compartment) →
  (∀ m, m ∈ model_ensemble →
        ∃ series, results m !! compartment = Some series ∧
                  length (t_list m) = length series) →
  ∃ windows,
    forM (surge_window_of_run compartment) model_ensemble = Ok windows ∧
    Forall2 (λ m w, ∃ series capacity,
               results m !! compartment = Some series ∧
               capacity_of compartment m = Ok capacity ∧
               is_surge_window (t_list m) series capacity w.1 w.2)
            model_ensemble windows.
Proof.
  intros Hcap. induction model_ensemble as [|m ens IH]; intros Hwf.
  - exists []. split; [done | constructor].
  - destruct (Hwf m) as (series & Hseries & Hlen); [left|].
    destruct (surge_window_of_run_correct _ _ _ Hcap Hseries Hlen)
      as (capacity & s & e & Hc & Hrun & Hspec).
    destruct IH as (windows & Hwin & Hall).
    { intros m' Hm'. apply Hwf. by right. }
    exists ((s, e) :: windows). split.
    + simpl. rewrite Hrun. simpl. rewrite Hwin. done.
    + constructor; [|done]. exists series, capacity. done.
Qed.

(** C4.  For a capacity-bound compartment and an ensemble whose runs carry
    that compartment over their time grid, [_get_surge_window] returns, for
    every run, the surge window of that run: surge-start is the time-grid
    value at the earliest index where the series strictly exceeds the run's
    capacity, surge-end the one at the latest such index, both are NaN when
    the capacity is never exceeded, and they coincide with the time of the
    single exceeding timestep when there is exactly one. *)
Theorem surge_window_correct (model_ensemble : list SEIRModel) (compartment : string) :
  is_Some (compartment_to_capacity_attr_map !! compartment) →
  (∀ m, m ∈ model_ensemble →
        ∃ series, results m !! compartment = Some series ∧
                  length (t_list m) = length series) →
  ∃ surge_start surge_end,
    _get_surge_window model_ensemble compartment = Ok (surge_start, surge_end) ∧
    ∀ k m, model_ensemble !! k = Some m →
      ∃ series capacity s e,
        results m !! compartment = Some series ∧
        capacity_of compartment m = Ok capacity ∧
        surge_start !! k = Some s ∧
        surge_end !! k = Some e ∧
        is_surge_window (t_list m) series capacity s e.
Proof.
  intros Hcap Hwf.
  destruct (forM_surge_windows _ _ Hcap Hwf) as (windows & Hwin & Hall).
  exists (windows.*1), (windows.*2). unfold _get_surge_window. rewrite Hwin.
  split; [done|]. intros k m Hk.
  destruct (Forall2_lookup_l _ _ _ _ _ Hall Hk) as (w & Hw & series & capacity & H1 & H2 & H3).
  exists series, capacity, w.1, w.2. rewrite !list_lookup_fmap, Hw. done.
Qed.

Lemma surge_window_correct_witness :
  ∃ surge_start surge_end,
    _get_surge_window [Examples.hgen_run [1; 3; 1] 2] "HGen" = Ok (surge_start, surge_end) ∧
    ∀ k m, [Examples.hgen_run [1; 3; 1] 2] !! k = Some m →
      ∃ series capacity s e,
        results m !! "HGen" = Some series ∧
        capacity_of "HGen" m = Ok capacity ∧
        surge_start !! k = Some s ∧
        surge_end !! k = Some e ∧
        is_surge_window (t_list m) series capacity s e.
Proof.
  apply (surge_window_correct [Examples.hgen_run [1; 3; 1] 2] "HGen").
  - exists "beds_general". vm_compute. reflexivity.
  - intros m Hm. apply list_elem_of_singleton in Hm as ->.
    eexists. split; vm_compute; reflexivity.
Defined.

(** The scenario of the specification: capacity 2, series [1, 3, 1] over
    the time grid [0, 1, 2] gives surge-start 1 and surge-end 1. *)
Example surge_window_scenario :
  _get_surge_window [Examples.hgen_run [1; 3; 1] 2] "HGen" = Ok ([Fin 1], [Fin 1]).
Proof. vm_compute. reflexivity. Qed.

(** A run that never exceeds its capacity has NaN surge bounds. *)
Example surge_window_never :
  _get_surge_window [Examples.hgen_run [1; 2; 1] 2] "HGen" = Ok ([NaN], [NaN]).
Proof. vm_compute. reflexivity. Qed.

End SurgeWindow.

(** ** The keys of a compartment's output *)

Section OutputKeys.
Import F64 Np EnsembleRunner.

(** A loop that only adds keys satisfying [P] leaves other keys as they
    were. *)
Lemma foldlM_keys {V X} (P : string → Prop)
    (step : gmap string V → X → result (gmap string V)) (l : list X)
    (d0 d : gmap string V) :
  (∀ d x d', step d x = Ok d' → ∀ k, ¬ P k → d' !! k = d !! k) →
  foldlM step l d0 = Ok d →
  ∀ k, ¬ P k → d !! k = d0 !! k.
Proof.
  intros Hstep. revert d0. induction l as [|x l IH]; simpl; intros d0 H k Hk.
  - by injection H as <-.
  - apply bind_Ok in H as (d1 & H1 & H). rewrite (IH _ H k Hk). by eapply Hstep.
Qed.

Definition starts_with (c : ascii) (k : string) : Prop :=
  ∃ rest, k = String c rest.

Lemma bands_keys (output_percentiles : list Z) (value_stack : list (list float))
    (bands : gmap string outval) (k : string) :
  foldlM (λ bands percentile,
            band ← percentile_axis0 value_stack (inject_Z percentile);
            Ok (<["ci_" +:+ pretty percentile := VList band]> bands))
         output_percentiles (∅ : gmap string outval) = Ok bands →
  ¬ starts_with "c" k → bands !! k = None.
Proof.
  intros H Hk. eapply (foldlM_keys (starts_with "c")) in H; [by rewrite H | | done].
  intros d p d' Hd k' Hk'. apply bind_Ok in Hd as (band & _ & [= <-]).
  apply lookup_insert_ne. intros <-. apply Hk'. by eexists.
Qed.

Lemma peak_data_keys (output_percentiles : list Z) (value_stack : list (list float))
    (t_list_out : list float) (peak_data : gmap string outval) (k : string) :
  _detect_peak_time_and_value output_percentiles value_stack t_list_out = Ok peak_data →
  ¬ starts_with "p" k → peak_data !! k = None.
Proof.
  unfold _detect_peak_time_and_value. intros H Hk.
  apply bind_Ok in H as (peak_indices & _ & H).
  apply bind_Ok in H as (peak_times & _ & H).
  apply bind_Ok in H as (values_at_peak_index & _ & H).
  apply bind_Ok in H as (d & Hd & [= <-]).
  rewrite lookup_insert_ne by (intros <-; apply Hk; by eexists).
  eapply (foldlM_keys (starts_with "p")) in Hd; [by rewrite Hd | | done].
  intros d1 p d2 Hd2 k' Hk'.
  apply bind_Ok in Hd2 as (v & _ & Hd2). apply bind_Ok in Hd2 as (tv & _ & [= <-]).
  rewrite !lookup_insert_ne; [done | |]; intros <-; apply Hk'; by eexists.
Qed.

(** What the loop body stores for a capacity-bound compartment: nothing
    under ['surge_end'], and the surge-end list under ['surge_start']. *)
Lemma compartment_outputs_surge_keys (output_percentiles : list Z)
    (model_ensemble : list SEIRModel) (t_list_out : list float)
    (compartment : string) (value_stack : list (list float))
    (d : gmap string outval) :
  is_Some (compartment_to_capacity_attr_map !! compartment) →
  compartment_outputs output_percentiles model_ensemble t_list_out
                      compartment value_stack = Ok d →
  d !! "surge_end" = None ∧
  ∃ surge_start surge_end capacity,
    _get_surge_window model_ensemble compartment = Ok (surge_start, surge_end) ∧
    forM (capacity_of compartment) model_ensemble = Ok capacity ∧
    d !! "surge_start" = Some (VList surge_end) ∧
    d !! "capacity" = Some (VList capacity).
Proof.
  intros Hcap H. unfold compartment_outputs in H.
  apply bind_Ok in H as (bands & Hbands & H).
  destruct (decide (is_Some (compartment_to_capacity_attr_map !! compartment)));
    [|done].
  apply bind_Ok in H as (co & Hco & H).
  apply bind_Ok in Hco as ([surge_start surge_end] & Hwin & Hco).
  apply bind_Ok in Hco as (capacity & Hcapacity & [= <-]).
  apply bind_Ok in H as (peak_data & Hpeak & [= <-]).
  assert (∀ k, ¬ starts_with "c" k → ¬ starts_with "p" k →
               dict_update bands (dict_update
                 (<["capacity" := VList capacity]>
                    (<["surge_start" := VList surge_end]>
                       (<["surge_start" := VList surge_start]> ∅))) peak_data) !! k
               = (<["capacity" := VList capacity]>
                    (<["surge_start" := VList surge_end]>
                       (<["surge_start" := VList surge_start]> ∅))
                  : gmap string outval) !! k) as Hlook.
  { intros k Hc Hp. unfold dict_update.
    rewrite lookup_union_l by (by eapply bands_keys).
    rewrite lookup_union_r by (by eapply peak_data_keys). done. }
  assert (∀ c rest, c ≠ "c"%char → c ≠ "p"%char →
                    ¬ starts_with "c" (String c rest) ∧
                    ¬ starts_with "p" (String c rest)) as Hfirst.
  { intros c rest Hc Hp. split; intros [rest' [= ? _]]; done. }
  split.
  - destruct (Hfirst "s"%char "urge_end") as [Hc Hp]; [done|done|].
    change (String "s" "urge_end") with "surge_end" in *.
    rewrite (Hlook _ Hc Hp). done.
  - exists surge_start, surge_end, capacity. split; [done|]. split; [done|]. split.
    + destruct (Hfirst "s"%char "urge_start") as [Hc Hp]; [done|done|].
      change (String "s" "urge_start") with "surge_start" in *.
      rewrite (Hlook _ Hc Hp). rewrite lookup_insert_ne by done.
      by rewrite lookup_insert_eq.
    + unfold dict_update. rewrite lookup_union_l'.
      * rewrite lookup_union_r by (eapply peak_data_keys; [done|]; intros [rest' [=]]).
        by rewrite lookup_insert_eq.
      * exists (VList capacity).
        rewrite lookup_union_r by (eapply peak_data_keys; [done|]; intros [rest' [=]]).
        by rewrite lookup_insert_eq.
Qed.

(** The same, in the output of a whole suppression policy. *)
Lemma generate_output_surge_keys (output_percentiles : list Z)
    (model_ensemble : list SEIRModel) (outputs : gmap string outentry)
    (compartment : string) (entry : outentry) :
  is_Some (compartment_to_capacity_attr_map !! compartment) →
  _generate_output_for_suppression_policy output_percentiles model_ensemble = Ok outputs →
  outputs !! compartment = Some entry →
  ∃ d, entry = ODict d ∧
       d !! "surge_end" = None ∧
       ∃ surge_start surge_end,
         _get_surge_window model_ensemble compartment = Ok (surge_start, surge_end) ∧
         d !! "surge_start" = Some (VList surge_end).
Proof.
  intros Hcap H Hentry. unfold _generate_output_for_suppression_policy in H.
  apply bind_Ok in H as (model0 & _ & H).
  apply bind_Ok in H as (arrays & _ & H).
  apply bind_Ok in H as (per & Hper & [= <-]).
  assert (compartment ≠ "t_list") as Hne.
  { intros ->. destruct Hcap as [attr Hattr]. vm_compute in Hattr. discriminate. }
  rewrite lookup_insert_ne, lookup_fmap in Hentry by done.
  pose proof (dict_forM_Ok_lookup _ _ _ compartment Hper) as Hc.
  destruct (arrays !! compartment) as [value_stack|].
  - destruct Hc as (d & Hd & Hlook). rewrite Hlook in Hentry. injection Hentry as <-.
    exists d. split; [done|].
    destruct (compartment_outputs_surge_keys _ _ _ _ _ _ Hcap Hd)
      as (Hend & surge_start & surge_end & capacity & Hwin & _ & Hstart & _).
    eauto.
  - rewrite Hc in Hentry. discriminate.
Qed.

(** C1, on the code.  One run of the general-bed compartment with series
    [1, 3, 3] and capacity 2 has surge-start 1 and surge-end 2; the output
    of the policy has no ['surge_end'] entry for the compartment, and its
    ['surge_start'] entry is the surge-end list [2], not the surge-start
    list. *)
Theorem surge_end_stored_under_surge_start :
  let model_ensemble := [Examples.hgen_run [1; 3; 3] 2] in
  let outputs :=
    _generate_output_for_suppression_policy [5; 25; 32; 50; 75; 68; 95] model_ensemble in
  is_ok outputs = true ∧
  _get_surge_window model_ensemble "HGen" = Ok ([Fin 1], [Fin 2]) ∧
  output_entry outputs "HGen" "surge_start" = Some (VList [Fin 2]) ∧
  output_entry outputs "HGen" "surge_end" = None ∧
  output_entry outputs "HGen" "capacity" = Some (VList [Fin 2]).
Proof.
  cbv zeta.
  split; [vm_compute; reflexivity|].
  split; [vm_compute; reflexivity|].
  split; [vm_compute; reflexivity|].
  split; vm_compute; reflexivity.
Qed.

End OutputKeys.

(** ** Stacking the runs *)

Section Stacking.
Import F64 Np EnsembleRunner.

(** The loop of [_generate_compartment_arrays] over the models. *)
Local Abbreviation stack_loop :=
  (foldlM (λ (compartments : gmap string (list (list float))) (model : SEIRModel),
             dict_forM (λ key stack,
                          series ← dict_getitem (results model) key;
                          Ok (stack ++ [series]))
                       compartments)).

Lemma dict_getitem_Ok {V} (d : gmap string V) (k : string) (v : V) :
  dict_getitem d k = Ok v ↔ d !! k = Some v.
Proof. unfold dict_getitem. destruct (d !! k); split; congruence. Qed.

Lemma dict_getitem_Raise {V} (d : gmap string V) (k : string) (e : exn) :
  dict_getitem d k = Raise e ↔ d !! k = None ∧ e = KeyError.
Proof.
  unfold dict_getitem. destruct (d !! k); split; try congruence.
  - intros [? _]. congruence.
  - intros [= <-]. done.
  - intros [_ ->]. done.
Qed.

(** When the loop returns, every compartment has received, in order, the
    series of every model. *)
Lemma stack_loop_Ok (model_ensemble : list SEIRModel)
    (compartments compartments' : gmap string (list (list float))) (key : string) :
  stack_loop model_ensemble compartments = Ok compartments' →
  match compartments !! key with
  | Some stack =>
      ∃ rows, Forall2 (λ m row, results m !! key = Some row) model_ensemble rows ∧
              compartments' !! key = Some (stack ++ rows)
  | None => compartments' !! key = None
  end.
Proof.
  revert compartments.
  induction model_ensemble as [|m ens IH]; simpl; intros compartments H.
  - injection H as <-. destruct (compartments !! key) as [stack|]; [|done].
    exists []. split; [constructor | by rewrite app_nil_r].
  - apply bind_Ok in H as (comps1 & H1 & H).
    pose proof (dict_forM_Ok_lookup _ _ _ key H1) as Hk.
    specialize (IH _ H).
    destruct (compartments !! key) as [stack|].
    + destruct Hk as (y & Hy & Hlook). rewrite Hlook in IH.
      apply bind_Ok in Hy as (series & Hseries & [= <-]).
      apply dict_getitem_Ok in Hseries.
      destruct IH as (rows & Hrows & Hfinal).
      exists (series :: rows). split; [by constructor|].
      by rewrite Hfinal, <- app_assoc.
    + by rewrite Hk in IH.
Qed.

(** The loop raises only [KeyError], and only for a model that lacks one
    of the keys. *)
Lemma stack_loop_Raise (model_ensemble : list SEIRModel)
    (compartments : gmap string (list (list float))) (e : exn) :
  stack_loop model_ensemble compartments = Raise e →
  e = KeyError ∧
  ∃ m key, m ∈ model_ensemble ∧ is_Some (compartments !! key) ∧
           results m !! key = None.
Proof.
  revert compartments.
  induction model_ensemble as [|m ens IH]; simpl; intros compartments H; [done|].
  apply bind_Raise in H as [H | (comps1 & H1 & H)].
  - pose proof (dict_forM_spec
      (λ key stack, series ← dict_getitem (results m) key; Ok (stack ++ [series]))
      compartments) as S.
    rewrite H in S. destruct S as (k & v & Hk & Hbody).
    apply bind_Raise in Hbody as [Hbody | (? & _ & ?)]; [|done].
    apply dict_getitem_Raise in Hbody as [Hnone ->].
    split; [done|]. exists m, k. split; [left|]. split; [by eexists | done].
  - destruct (IH _ H) as (-> & m' & key & Hm' & Hsome & Hnone).
    split; [done|]. exists m', key. split; [by right|]. split; [|done].
    pose proof (dict_forM_Ok_lookup _ _ _ key H1) as Hk.
    destruct (compartments !! key); [by eexists|].
    rewrite Hk in Hsome. by destruct Hsome.
Qed.

(** A model that lacks a key makes the loop raise [KeyError]. *)
Lemma stack_loop_missing_key (model_ensemble : list SEIRModel)
    (compartments : gmap string (list (list float))) (m : SEIRModel) (key : string) :
  m ∈ model_ensemble → is_Some (compartments !! key) → results m !! key = None →
  stack_loop model_ensemble compartments = Raise KeyError.
Proof.
  intros Hm [stack Hstack] Hnone.
  destruct (stack_loop model_ensemble compartments) as [comps'|e] eqn:H.
  - pose proof (stack_loop_Ok _ _ _ key H) as Hk. rewrite Hstack in Hk.
    destruct Hk as (rows & Hrows & _).
    apply list_elem_of_lookup in Hm as [i Hi].
    destruct (Forall2_lookup_l _ _ _ _ _ Hrows Hi) as (row & _ & Hrow). congruence.
  - by apply stack_loop_Raise in H as [-> _].
Qed.

Lemma vstack_Raise (rows : list (list float)) (e : exn) :
  vstack rows = Raise e → e = ValueError.
Proof.
  unfold vstack. destruct rows as [|r rest]; [congruence|].
  destruct (forallb _ rest); congruence.
Qed.

(** [np.vstack] refuses rows of different lengths. *)
Lemma vstack_ragged (rows : list (list float)) (r0 r : list float) :
  rows !! 0%nat = Some r0 → r ∈ rows → length r ≠ length r0 →
  vstack rows = Raise ValueError.
Proof.
  intros H0 Hr Hlen. destruct rows as [|r0' rest]; [done|].
  injection H0 as ->. unfold vstack.
  destruct (forallb _ rest) eqn:Hall; [|done].
  rewrite forallb_forall in Hall.
  apply elem_of_cons in Hr as [->|Hr]; [done|].
  apply list_elem_of_In, Hall, Nat.eqb_eq in Hr. done.
Qed.

Lemma vstack_Ok (rows rows' : list (list float)) :
  vstack rows = Ok rows' →
  rows' = rows ∧ ∃ r0, rows !! 0%nat = Some r0 ∧ ∀ r, r ∈ rows → length r = length r0.
Proof.
  unfold vstack. destruct rows as [|r0 rest]; [done|].
  destruct (forallb _ rest) eqn:Hall; [|done]. intros [= <-]. split; [done|].
  exists r0. split; [done|]. intros r Hr.
  rewrite forallb_forall in Hall.
  apply elem_of_cons in Hr as [->|Hr]; [done|].
  by apply list_elem_of_In, Hall, Nat.eqb_eq in Hr.
Qed.

(** When the runs are stacked, the array of a compartment holds the series
    of the runs, in order, and they all have the length of the first. *)
Lemma generate_compartment_arrays_Ok (model_ensemble : list SEIRModel)
    (arrays : gmap string (list (list float))) (compartment : string)
    (value_stack : list (list float)) :
  _generate_compartment_arrays model_ensemble = Ok arrays →
  arrays !! compartment = Some value_stack →
  Forall2 (λ m row, results m !! compartment = Some row) model_ensemble value_stack ∧
  ∃ row0, value_stack !! 0%nat = Some row0 ∧
          ∀ row, row ∈ value_stack → length row = length row0.
Proof.
  unfold _generate_compartment_arrays. intros H Hstack.
  apply bind_Ok in H as (model0 & _ & H).
  apply bind_Ok in H as (comps' & Hloop & H).
  pose proof (dict_forM_Ok_lookup _ _ _ compartment H) as Hv.
  pose proof (stack_loop_Ok _ _ _ compartment Hloop) as Hk.
  rewrite lookup_fmap in Hk.
  destruct (filter _ (results model0) !! compartment) as [series0|]; simpl in Hk.
  - destruct Hk as (rows & Hrows & Hlook). rewrite Hlook in Hv.
    destruct Hv as (y & Hy & Harr). rewrite Harr in Hstack. injection Hstack as ->.
    apply vstack_Ok in Hy as [-> Hrect]. done.
  - rewrite Hk in Hv. congruence.
Qed.

(** C8, amended.  When some run lacks a compartment of the first run, or
    carries for one a series of another length than the first run's,
    stacking the runs raises ([KeyError] for the missing key, [ValueError]
    from [np.vstack] for the length), and so does the aggregation of the
    scenario: no run is dropped or truncated. *)
Theorem aggregation_raises_on_mismatch (model_ensemble : list SEIRModel) :
  Spec.shape_mismatch_with_first model_ensemble →
  ∃ e, (e = KeyError ∨ e = ValueError) ∧
       _generate_compartment_arrays model_ensemble = Raise e ∧
       ∀ output_percentiles,
         _generate_output_for_suppression_policy output_percentiles model_ensemble
         = Raise e.
Proof.
  intros (model0 & m & key & series0 & H0 & Hm & Hkey & Hkept & Hbad).
  assert (∃ e, (e = KeyError ∨ e = ValueError) ∧
               _generate_compartment_arrays model_ensemble = Raise e) as (e & He & Harr).
  { unfold _generate_compartment_arrays, list_getitem. rewrite H0. simpl.
    set (compartments := (λ _, []) <$> filter _ (results model0)).
    assert (compartments !! key = Some []) as Hcomp.
    { unfold compartments. rewrite lookup_fmap.
      rewrite (proj2 (map_lookup_filter_Some _ _ key series0)); [done|]. done. }
    destruct (stack_loop model_ensemble compartments) as [comps'|e] eqn:Hloop.
    - pose proof (stack_loop_Ok _ _ _ key Hloop) as Hk. rewrite Hcomp in Hk.
      destruct Hk as (rows & Hrows & Hlook). simpl in Hlook.
      apply list_elem_of_lookup in Hm as [i Hi].
      destruct (Forall2_lookup_l _ _ _ _ _ Hrows Hi) as (row & Hrow & Hmrow).
      destruct (Forall2_lookup_l _ _ _ _ _ Hrows H0) as (row0 & Hrow0 & Hm0row).
      rewrite Hkey in Hm0row. injection Hm0row as <-.
      destruct Hbad as [Hnone | (series & Hseries & Hlen)]; [congruence|].
      rewrite Hseries in Hmrow. injection Hmrow as <-.
      assert (vstack rows = Raise ValueError) as Hv.
      { eapply vstack_ragged; [done | | done]. apply list_elem_of_lookup. eauto. }
      exists ValueError. split; [by right|]. simpl.
      pose proof (dict_forM_spec (λ _ value_stack, vstack value_stack) comps') as S.
      destruct (dict_forM _ comps') as [d'|e].
      + specialize (S key). rewrite Hlook in S. destruct S as (y & Hy & _). congruence.
      + destruct S as (k & v & _ & Hraise). by apply vstack_Raise in Hraise as ->.
    - apply stack_loop_Raise in Hloop as [-> _]. exists KeyError. split; [by left|done]. }
  exists e. split; [done|]. split; [done|]. intros output_percentiles.
  unfold _generate_output_for_suppression_policy, list_getitem. rewrite H0. simpl.
  by rewrite Harr.
Qed.

Lemma aggregation_raises_on_mismatch_witness :
  ∃ e, (e = KeyError ∨ e = ValueError) ∧
       _generate_compartment_arrays
         [Examples.hgen_run [1; 2; 3] 2; Examples.hgen_run [1; 2] 2] = Raise e ∧
       ∀ output_percentiles,
         _generate_output_for_suppression_policy output_percentiles
           [Examples.hgen_run [1; 2; 3] 2; Examples.hgen_run [1; 2] 2] = Raise e.
Proof.
  apply (aggregation_raises_on_mismatch
           [Examples.hgen_run [1; 2; 3] 2; Examples.hgen_run [1; 2] 2]).
  exists (Examples.hgen_run [1; 2; 3] 2), (Examples.hgen_run [1; 2] 2), "HGen",
         (Examples.floats [1; 2; 3]).
  split; [reflexivity|]. split; [right; left|].
  split; [vm_compute; reflexivity|]. split; [vm_compute; reflexivity|].
  right. exists (Examples.floats [1; 2]). split; [vm_compute; reflexivity|].
  vm_compute. lia.
Defined.

(** C8 as stated fails: a second run that carries one compartment more than
    the first has another key set, and yet the aggregation returns; the
    extra compartment is absent from the stacked arrays. *)
Lemma extra_compartment_accepted :
  ¬ (∀ output_percentiles model_ensemble,
       Spec.shape_inconsistent model_ensemble →
       raises (_generate_output_for_suppression_policy output_percentiles model_ensemble)).
Proof.
  intros H.
  destruct (H [50] [Examples.hgen_run [1; 2; 3] 2;
                    Examples.hgen_hicu_run [2; 3; 4] [0; 0; 0] 2]) as [e He].
  - exists (Examples.hgen_run [1; 2; 3] 2),
           (Examples.hgen_hicu_run [2; 3; 4] [0; 0; 0] 2).
    split; [left|]. split; [right; left|]. left. intros Hdom.
    assert ("HICU" ∈ dom (results (Examples.hgen_hicu_run [2; 3; 4] [0; 0; 0] 2))) as Hin.
    { apply elem_of_dom. eexists. vm_compute. reflexivity. }
    rewrite <- Hdom in Hin. apply elem_of_dom in Hin as [x Hx].
    vm_compute in Hx. discriminate.
  - assert (is_ok (_generate_output_for_suppression_policy [50]
                     [Examples.hgen_run [1; 2; 3] 2;
                      Examples.hgen_hicu_run [2; 3; 4] [0; 0; 0] 2]) = true) as Hok
      by (vm_compute; reflexivity).
    rewrite He in Hok. discriminate.
Qed.

(** The arrays stacked from those two runs hold the general-bed compartment
    only. *)
Example extra_compartment_ignored :
  let arrays :=
    _generate_compartment_arrays
      [Examples.hgen_run [1; 2; 3] 2; Examples.hgen_hicu_run [2; 3; 4] [0; 0; 0] 2] in
  is_ok arrays = true ∧
  returned_entry arrays "HGen"
    = Some [Examples.floats [1; 2; 3]; Examples.floats [2; 3; 4]] ∧
  returned_entry arrays "HICU" = None.
Proof.
  cbv zeta. split; [vm_compute; reflexivity|].
  split; vm_compute; reflexivity.
Qed.

End Stacking.

(** ** Percentiles *)

Section Percentile.
Import F64 Np EnsembleRunner Spec.

Lemma finite_Fin (x : float) : finite x → x = Fin (value x).
Proof. destruct x; done. Qed.

Lemma le_finite (x y : float) :
  finite x → finite y → (le x y ↔ (value x <= value y)%Q).
Proof.
  destruct x, y; try done. intros _ _. unfold le. simpl. apply Qle_bool_iff.
Qed.

Lemma le_Fin (a b : Q) : le (Fin a) (Fin b) ↔ (a <= b)%Q.
Proof. apply Qle_bool_iff. Qed.


Lemma le_trans (x y z : float) :
  finite x → finite y → finite z → le x y → le y z → le x z.
Proof.
  intros Hx Hy Hz. rewrite !le_finite by done. apply Qle_trans.
Qed.







Lemma sorted_nth (s : list float) (i j : nat) :
  StronglySorted le s → Forall finite s → (i <= j)%nat → (j < length s)%nat →
  (value (nth i s NaN) <= value (nth j s NaN))%Q.
Proof.
  intros Hs. revert i j. induction Hs as [|x s Hs IH Hall]; intros i j Hfin Hij Hj.
  - simpl in Hj. lia.
  - apply Forall_cons in Hfin as [Hx Hfin]. destruct i as [|i], j as [|j]; simpl.
    + apply Qle_refl.
    + simpl in Hj. rewrite Forall_forall in Hall, Hfin.
      assert (nth j s NaN ∈ s) as Hin by (apply list_elem_of_In, nth_In; lia).
      apply le_finite; [done| |by apply Hall]. by apply Hfin.
    + lia.
    + simpl in Hj. apply IH; [done|lia|lia].
Qed.












Lemma columns_rectangular (stack : list (list float)) (row0 : list float) :
  stack !! 0%nat = Some row0 →
  columns stack = (λ j, (λ row, nth j row NaN) <$> stack) <$> seq 0 (length row0).
Proof. destruct stack as [|r rest]; [done|]. by intros [= ->]. Qed.

(** A column of the stacked array is the values of the runs at one
    timestep. *)
Lemma column_value_at (model_ensemble : list SEIRModel) (compartment : string)
    (stack : list (list float)) (t : nat) :
  Forall2 (λ m row, results m !! compartment = Some row) model_ensemble stack →
  (λ row, nth t row NaN) <$> stack = (λ m, value_at m compartment t) <$> model_ensemble.
Proof.
  induction 1 as [|m row ens stack Hrow _ IH]; [done|].
  rewrite !fmap_cons. unfold value_at at 1. rewrite Hrow. f_equal. exact IH.
Qed.



(** A single run: every band is the run's own series. *)
Example percentile_single_run :
  ∃ band,
    (arrays ← _generate_compartment_arrays [Examples.hgen_run [1; 3; 1] 2];
     value_stack ← dict_getitem arrays "HGen";
     percentile_axis0 value_stack 95) = Ok band ∧
    Forall2 eqv band [Fin 1; Fin 3; Fin 1].
Proof.
  eexists. split; [vm_compute; reflexivity|]. repeat constructor; reflexivity.
Qed.

End Percentile.

(** ** The initial-conditions fitter *)

Section Fitter.
Import F64 InitialConditionsFitter Spec.

Lemma remove_dups_NoDup_length {A} `{EqDecision A} (l : list A) :
  NoDup l → length (remove_dups l) = length l.
Proof.
  induction 1 as [|x l Hx _ IH]; simpl; [done|].
  destruct (decide_rel elem_of x l); [done|]. simpl. by rewrite IH.
Qed.

(** C7, as amended.  The constructor counts the rows the case table holds
    for the region, not its distinct observation days.  It raises
    [ValueError] (the fit-infeasible error its caller catches) exactly when
    there are fewer rows than [min_days_required]; it returns a fitter
    exactly when there are at least that many and at least one; and with no
    row at all and a minimum that is not positive it raises [IndexError],
    from [values[0]].  On a table with one row per region and day the
    number of rows is the number of distinct observation days. *)
Theorem fitter_raises_iff_too_few_rows (case_data : list case_row) (fips : string)
    (t0_case_count start_days_before_t0 start_days_after_t0 min_days_required : Z) :
  (__init__ case_data fips t0_case_count start_days_before_t0
            start_days_after_t0 min_days_required = Raise ValueError ↔
   Z.of_nat (length (filter (λ r, row_fips r = fips) case_data)) < min_days_required) ∧
  (returns (__init__ case_data fips t0_case_count start_days_before_t0
                     start_days_after_t0 min_days_required) ↔
   min_days_required ≤ Z.of_nat (length (filter (λ r, row_fips r = fips) case_data)) ∧
   filter (λ r, row_fips r = fips) case_data ≠ []) ∧
  (__init__ case_data fips t0_case_count start_days_before_t0
            start_days_after_t0 min_days_required = Raise IndexError ↔
   min_days_required ≤ 0 ∧ filter (λ r, row_fips r = fips) case_data = []) ∧
  (one_row_per_day case_data fips →
   length (filter (λ r, row_fips r = fips) case_data)
   = length (observation_days case_data fips)).
Proof.
  unfold __init__.
  destruct (filter (λ r, row_fips r = fips) case_data) as [|row rows] eqn:Hrows.
  - simpl. change (Z.of_nat 0) with 0.
    destruct (decide (0 < min_days_required)) as [Hlt|Hge].
    + split; [done|]. split; [|split].
      * split; [by intros [? ?] | intros [_ ?]; done].
      * split; [done | lia].
      * intros _. unfold observation_days. by rewrite Hrows.
    + split; [split; [done | lia]|]. split; [|split].
      * split; [by intros [? ?] | intros [_ ?]; done].
      * split; [intros _; split; [lia | done] | done].
      * intros _. unfold observation_days. by rewrite Hrows.
  - set (n_days := Z.of_nat (length (row :: rows))).
    destruct (decide (n_days < min_days_required)) as [Hlt|Hge].
    + split; [done|]. split; [|split].
      * split; [by intros [? ?] | lia].
      * split; [done | by intros [_ ?]].
      * intros Hone. unfold observation_days, one_row_per_day in *.
        rewrite Hrows in *. by rewrite (remove_dups_NoDup_length _ Hone), length_fmap.
    + simpl. split; [split; [done | lia]|]. split; [|split].
      * split; [intros _; split; [lia | done] | intros _; by eexists].
      * split; [done | by intros [_ ?]].
      * intros Hone. unfold observation_days, one_row_per_day in *.
        rewrite Hrows in *. by rewrite (remove_dups_NoDup_length _ Hone), length_fmap.
Qed.

(** The three outcomes on examples: five rows against a minimum of six,
    five rows against the default minimum of five, and a region without
    rows against a minimum of zero. *)
Lemma fitter_raises_iff_too_few_rows_witness :
  __init__ Examples.doubling_cases "06075" 1 2 1000 6 = Raise ValueError ∧
  returns (__init__ Examples.doubling_cases "06075" 1 2 1000 5) ∧
  __init__ Examples.doubling_cases "06001" 1 2 1000 0 = Raise IndexError ∧
  length (filter (λ r, row_fips r = "06075") Examples.doubling_cases)
  = length (observation_days Examples.doubling_cases "06075").
Proof.
  split; [|split; [|split]].
  - apply (proj1 (fitter_raises_iff_too_few_rows
                    Examples.doubling_cases "06075" 1 2 1000 6)).
    vm_compute. reflexivity.
  - apply (proj1 (proj2 (fitter_raises_iff_too_few_rows
                           Examples.doubling_cases "06075" 1 2 1000 5))).
    split; [vm_compute; discriminate | vm_compute; discriminate].
  - apply (proj1 (proj2 (proj2 (fitter_raises_iff_too_few_rows
                                  Examples.doubling_cases "06001" 1 2 1000 0)))).
    split; [lia | vm_compute; reflexivity].
  - apply (proj2 (proj2 (proj2 (fitter_raises_iff_too_few_rows
                                  Examples.doubling_cases "06075" 1 2 1000 5)))).
    unfold one_row_per_day. apply (bool_decide_unpack _). vm_compute. reflexivity.
Defined.

(** C7 as stated fails, in both halves.  A region with six rows on five
    distinct days has fewer distinct observation days than a minimum of
    six, and the constructor returns; a region without rows has as many
    days (none) as a minimum of zero asks for, and the constructor raises
    [IndexError]. *)
Lemma distinct_days_not_counted :
  ¬ (∀ case_data fips t0_case_count start_days_before_t0 start_days_after_t0
       min_days_required,
       Z.of_nat (length (observation_days case_data fips)) < min_days_required →
       __init__ case_data fips t0_case_count start_days_before_t0
                start_days_after_t0 min_days_required = Raise ValueError) ∧
  ¬ (∀ case_data fips t0_case_count start_days_before_t0 start_days_after_t0
       min_days_required,
       min_days_required ≤ Z.of_nat (length (observation_days case_data fips)) →
       returns (__init__ case_data fips t0_case_count start_days_before_t0
                         start_days_after_t0 min_days_required)).
Proof.
  split.
  - intros H.
    assert (is_ok (__init__ FitterExamples.repeated_day_cases "06075" 1 2 1000 6) = true)
      as Hok by (vm_compute; reflexivity).
    rewrite (H FitterExamples.repeated_day_cases "06075" 1 2 1000 6) in Hok;
      [discriminate|].
    vm_compute. reflexivity.
  - intros H.
    destruct (H [] "06075" 1 2 1000 0) as [self Hself]; [vm_compute; discriminate|].
    vm_compute in Hself. discriminate.
Qed.

(** The rows of the example with a repeated day, and its distinct days. *)
Example repeated_day_counts :
  length (filter (λ r, row_fips r = "06075") FitterExamples.repeated_day_cases) = 6%nat ∧
  length (observation_days FitterExamples.repeated_day_cases "06075") = 5%nat.
Proof. split; vm_compute; reflexivity. Qed.

(** Six is more than the five days of the example: the constructor raises. *)
Example fitter_too_few_days :
  __init__ Examples.doubling_cases "06075" 1 2 1000 6 = Raise ValueError.
Proof. vm_compute. reflexivity. Qed.

(** Selecting with the mask [y > 0] keeps as many entries as [y] has
    strictly positive counts. *)
Lemma mask_select_positive {A} (a : list A) (y : list Z) :
  length a = length y →
  ∃ selected,
    mask_select a ((λ v, bool_decide (0 < v)) <$> y) = Ok selected ∧
    length selected = n_positive y.
Proof.
  intros Hlen. unfold mask_select.
  rewrite length_fmap. destruct (decide (length a = length y)); [|done].
  eexists. split; [done|]. rewrite length_fmap. unfold n_positive.
  clear e. revert a Hlen. induction y as [|v y IH]; intros [|x a] Hlen; try done.
  simpl in Hlen. rewrite fmap_cons. change (zip (x :: a) (?b :: ?m)) with ((x, b) :: zip a m).
  rewrite !filter_cons. simpl.
  destruct (decide (0 < v)) as [Hv|Hv].
  - rewrite (bool_decide_eq_true_2 _ Hv). destruct (decide (true = true)); [|done].
    simpl. f_equal. apply IH. lia.
  - rewrite (bool_decide_eq_false_2 _ Hv). destruct (decide (false = true)); [done|].
    apply IH. lia.
Qed.

Lemma div_zero_not_finite (x : float) : is_finite (div x (of_Z 0)) = false.
Proof.
  destruct x as [q| | |]; try done. unfold div, of_Z.
  change (inject_Z 0 ?= 0)%Q with Eq. unfold signed_inf.
  destruct (q ?= 0)%Q; done.
Qed.

(** C10.  The reduced chi-square is the summed chi-square divided by the
    number of strictly positive observed counts minus one.  With exactly one
    positive count the divisor is zero and the result is not finite; with
    none the divisor is negative (it is -1); the divisor is positive exactly
    when there are at least two positive counts. *)
Theorem reduced_chi2_divisor (y_pred : list float) (y : list Z) :
  length y_pred = length y →
  ∃ chi2,
    chi2_terms y_pred y = Ok chi2 ∧
    length chi2 = n_positive y ∧
    _reduced_chi2 y_pred y
      = Ok (div (Np.sum chi2) (of_Z (Z.of_nat (n_positive y) - 1))) ∧
    (n_positive y = 1%nat →
       Z.of_nat (n_positive y) - 1 = 0 ∧
       ∃ r, _reduced_chi2 y_pred y = Ok r ∧ is_finite r = false) ∧
    (n_positive y = 0%nat → Z.of_nat (n_positive y) - 1 = -1) ∧
    (0 < Z.of_nat (n_positive y) - 1 ↔ (2 <= n_positive y)%nat).
Proof.
  intros Hlen.
  destruct (mask_select_positive y_pred y Hlen) as (pred_pos & Hpred & Hpredlen).
  destruct (mask_select_positive y y eq_refl) as (y_pos & Hy & Hylen).
  assert (∃ chi2, chi2_terms y_pred y = Ok chi2 ∧ length chi2 = n_positive y)
    as (chi2 & Hchi2 & Hchi2len).
  { unfold chi2_terms. rewrite Hpred. simpl. rewrite Hy. simpl.
    eexists. split; [done|]. rewrite length_zip_with. lia. }
  assert (_reduced_chi2 y_pred y
          = Ok (div (Np.sum chi2) (of_Z (Z.of_nat (n_positive y) - 1)))) as Hred.
  { unfold _reduced_chi2. rewrite Hchi2. simpl. by rewrite Hchi2len. }
  exists chi2. split; [done|]. split; [done|]. split; [done|]. split; [|split].
  - intros H1. split; [lia|]. eexists. split; [exact Hred|].
    rewrite H1. apply div_zero_not_finite.
  - intros H0. lia.
  - lia.
Qed.

Lemma reduced_chi2_divisor_witness :
  ∃ chi2,
    chi2_terms Examples.two_predictions Examples.one_positive_count = Ok chi2 ∧
    length chi2 = n_positive Examples.one_positive_count ∧
    _reduced_chi2 Examples.two_predictions Examples.one_positive_count
      = Ok (div (Np.sum chi2)
                (of_Z (Z.of_nat (n_positive Examples.one_positive_count) - 1))) ∧
    (n_positive Examples.one_positive_count = 1%nat →
       Z.of_nat (n_positive Examples.one_positive_count) - 1 = 0 ∧
       ∃ r, _reduced_chi2 Examples.two_predictions Examples.one_positive_count = Ok r ∧
            is_finite r = false) ∧
    (n_positive Examples.one_positive_count = 0%nat →
       Z.of_nat (n_positive Examples.one_positive_count) - 1 = -1) ∧
    (0 < Z.of_nat (n_positive Examples.one_positive_count) - 1 ↔
     (2 <= n_positive Examples.one_positive_count)%nat).
Proof.
  apply (reduced_chi2_divisor Examples.two_predictions Examples.one_positive_count).
  reflexivity.
Defined.

(** One positive count: the reduced chi-square is an infinity.  No positive
    count: it is 0 / -1. *)
Example reduced_chi2_one_positive :
  _reduced_chi2 [Fin 1; Fin 2] [0; 3] = Ok PInf.
Proof. vm_compute. reflexivity. Qed.

Example reduced_chi2_no_positive :
  _reduced_chi2 [Fin 1; Fin 2] [0; 0] = Ok (Fin (0 # 1)).
Proof. vm_compute. reflexivity. Qed.

(** [fit] is the program below, in which no window occurs. *)
Lemma fit_without_window
    (np_exp : float → float)
    (migrad : (model_params_t → result float) → minuit_settings → result model_params_t)
    (self : fitter) :
  fit np_exp migrad self =
    (params ← migrad (λ p, _reduced_chi2 (exponential_model np_exp p (t self)) (y self)) x0;
     let predictions := exponential_model np_exp params (t self) in
     idx ← threshold_index self predictions;
     chi2 ← _reduced_chi2 predictions (y self);
     day ← list_getitem (t self) idx;
     Ok {| model_params := params;
           fit_predictions := predictions;
           reduced_chi2 := chi2;
           t0_idx := idx;
           fitted_t0 := day;
           t0_date := data_start_date self + day |}).
Proof.
  unfold fit, fit_county_initial_conditions, exponential_loss.
  destruct (migrad _ x0) as [params|e]; [|done]. simpl.
  destruct (threshold_index self _) as [idx|e]; [|done]. simpl.
  destruct (_reduced_chi2 _ (y self)) as [chi2|e]; [|done]. simpl.
  done.
Qed.

(** The parameters [fit] stores are the ones the fit to all observations
    returns. *)
Lemma fit_stores_coarse_fit
    (np_exp : float → float)
    (migrad : (model_params_t → result float) → minuit_settings → result model_params_t)
    (self : fitter) (attrs : fit_attributes) :
  fit np_exp migrad self = Ok attrs →
  fit_county_initial_conditions np_exp migrad self (t self) (y self)
  = Ok (model_params attrs).
Proof.
  rewrite fit_without_window.
  unfold fit_county_initial_conditions, exponential_loss. intros H.
  apply bind_Ok in H as (params & Hparams & H). rewrite Hparams.
  apply bind_Ok in H as (idx & _ & H).
  apply bind_Ok in H as (chi2 & _ & H).
  apply bind_Ok in H as (day & _ & [= <-]). done.
Qed.

(** On the five doubling observations with a window of two days, the
    window selected from the first fit is the first two observations; the
    loss over them at the start point is 1/2, the loss over all five is
    367/64, and the loss the second call hands to the optimiser is the
    latter. *)
Example refit_loss_is_over_all_observations :
  ∃ stored windowed,
    (self ← Examples.two_day_window_fitter;
     coarse ← fit_county_initial_conditions Examples.constant_exp
                 Examples.probe_optimiser self (t self) (y self);
     window Examples.constant_exp self coarse) = Ok ([0; 1], [1; 2]) ∧
    (self ← Examples.two_day_window_fitter;
     attrs ← fit Examples.constant_exp Examples.probe_optimiser self;
     Ok (norm (model_params attrs))) = Ok (Fin stored) ∧
    _reduced_chi2 (exponential_model Examples.constant_exp (start x0) [0; 1]) [1; 2]
      = Ok (Fin windowed) ∧
    (stored == 367 # 64)%Q ∧ (windowed == 1 # 2)%Q.
Proof.
  eexists. eexists. split; [vm_compute; reflexivity|].
  split; [vm_compute; reflexivity|].
  split; [vm_compute; reflexivity|].
  split; reflexivity.
Qed.


End Fitter.

(** ** The parameter sampler *)

Section Sampler.
Import F64 ParameterEnsembleGenerator.

(** With NaN under the hospital keys of the merged dict, the capacity
    constants of a sample are NaN, whatever is drawn: the defaults of
    [get] are not used, since the keys are present. *)
Lemma sample_one_nan_capacities {policy} (self : generator policy) (d : draws) :
  county_metadata_merged policy self !! "num_licensed_beds" = Some NaN →
  county_metadata_merged policy self !! "num_icu_beds" = Some NaN →
  match sample_one policy self d with
  | Ok parameter_set =>
      parameter_set !! "beds_general" = Some (PNum policy NaN) ∧
      parameter_set !! "beds_ICU" = Some (PNum policy NaN) ∧
      parameter_set !! "ventilators" = Some (PNum policy NaN)
  | Raise _ => True
  end.
Proof.
  intros Hbeds Hicu. unfold sample_one.
  assert (dict_get (county_metadata_merged policy self) "num_licensed_beds" (Fin 0) = NaN)
    as -> by (unfold dict_get; by rewrite Hbeds).
  assert (dict_get (county_metadata_merged policy self) "num_icu_beds" (Fin 0) = NaN)
    as -> by (unfold dict_get; by rewrite Hicu).
  destruct (dict_getitem _ "total_population") as [N|e]; [|exact I].
  destruct (py_truediv (mul _ _) _) as [A_initial|e]; [|exact I].
  destruct (py_truediv _ (draw_incubation_days d)) as [sigma|e]; [|exact I].
  destruct (py_truediv _ (draw_infectious_days d)) as [delta|e]; [|exact I].
  vm_compute. repeat split.
Qed.

Lemma groupby_fips_sum_unmatched (hospital_bed_data : list hospital_row) (fips : string) :
  (∀ r, r ∈ hospital_bed_data → hospital_fips r ≠ fips) →
  groupby_fips_sum hospital_bed_data !! fips = None.
Proof.
  unfold groupby_fips_sum.
  assert (∀ groups, groups !! fips = None →
                    (∀ r, r ∈ hospital_bed_data → hospital_fips r ≠ fips) →
                    foldl add_to_group groups hospital_bed_data !! fips = None) as H.
  { induction hospital_bed_data as [|r rows IH]; intros groups Hg Hne; [done|].
    simpl. apply IH.
    - unfold add_to_group.
      destruct (groups !! hospital_fips r);
        rewrite lookup_insert_ne; try done; apply Hne; left.
    - intros r' Hr'. apply Hne. by right. }
  apply H. apply lookup_empty.
Qed.

(** For every region of the metadata table that has no row in the hospital
    table (the metadata having no column named like a hospital column), the
    capacity constants of every sampled parameter set are NaN. *)
Lemma unmatched_region_nan {policy} (county_metadata : list county_row)
    (hospital_bed_data : list hospital_row) (fips : string) (N_samples : nat)
    (t_list : list float) (I_initial : Z) (suppression_policy : option policy)
    (self : generator policy) (rng : nat → draws)
    (parameter_sets : list (gmap string (pval policy))) :
  (∀ r, r ∈ hospital_bed_data → hospital_fips r ≠ fips) →
  (∀ row k, row ∈ county_metadata → is_Some (unmatched_hospital_columns !! k) →
            county_columns row !! k = None) →
  __init__ policy county_metadata hospital_bed_data fips N_samples t_list
           I_initial suppression_policy = Ok self →
  sample_seir_parameters policy self rng None = Ok parameter_sets →
  Forall (λ parameter_set,
            parameter_set !! "beds_general" = Some (PNum policy NaN) ∧
            parameter_set !! "beds_ICU" = Some (PNum policy NaN) ∧
            parameter_set !! "ventilators" = Some (PNum policy NaN))
         parameter_sets.
Proof.
  intros Hunmatched Hschema Hinit Hsample.
  unfold __init__ in Hinit. apply bind_Ok in Hinit as (merged & Hmerged & [= <-]).
  assert (∀ k, is_Some (unmatched_hospital_columns !! k) →
               merged !! k = unmatched_hospital_columns !! k) as Hlook.
  { intros k Hk. unfold loc_to_dict in Hmerged.
    destruct (list_find _ _) as [[i row]|] eqn:Hfind; [|done]. injection Hmerged as <-.
    apply list_find_Some in Hfind as (Hi & Hfips & _).
    unfold merge_left in Hi. rewrite list_lookup_fmap in Hi.
    destruct (county_metadata !! i) as [row0|] eqn:Hrow0; [|done].
    injection Hi as <-. simpl in *. subst fips.
    rewrite (groupby_fips_sum_unmatched _ _ Hunmatched).
    rewrite lookup_union_r; [done|]. apply Hschema; [|done].
    by eapply list_elem_of_lookup_2. }
  unfold sample_seir_parameters in Hsample.
  apply bind_Ok in Hsample as (sets & Hsets & [= <-]).
  apply forM_Ok_inv in Hsets. apply Forall_fmap.
  induction Hsets as [|i ps idx sets Hps _ IH]; constructor; [|done].
  simpl. unfold dict_update. rewrite (left_id_L ∅ (∪)).
  pose proof (sample_one_nan_capacities
                {| fips := fips; N_samples := N_samples; I_initial := I_initial;
                   suppression_policy := suppression_policy; t_list := t_list;
                   county_metadata_merged := merged |} (rng i)) as Hone.
  rewrite Hps in Hone. apply Hone; cbn [county_metadata_merged];
    rewrite Hlook; try done; by eexists.
Qed.

(** C3, on the code.  Region 06003 is in the metadata table and has no row
    in the hospital table.  The sampler returns its parameter sets (here
    the first), in which the general-bed, ICU-bed and ventilator capacities
    are all NaN: neither zero nor a non-negative finite number.  For region
    06075, which has hospital rows, they are numbers. *)
Theorem unmatched_region_capacities_are_nan :
  is_ok (Examples.sampled_for "06003") = true ∧
  sampled_parameter (Examples.sampled_for "06003") 0 "beds_general" = Some (PNum unit NaN) ∧
  sampled_parameter (Examples.sampled_for "06003") 0 "beds_ICU" = Some (PNum unit NaN) ∧
  sampled_parameter (Examples.sampled_for "06003") 0 "ventilators" = Some (PNum unit NaN) ∧
  sampled_parameter (Examples.sampled_for "06075") 0 "beds_ICU" = Some (PNum unit (Fin 60)).
Proof.
  split; [vm_compute; reflexivity|].
  split; [vm_compute; reflexivity|].
  split; [vm_compute; reflexivity|].
  split; vm_compute; reflexivity.
Qed.

End Sampler.

(** ** The imputation table *)

Section Imputation.
Import F64 InitialConditionsFitter Spec.

Lemma foldlM_invariant {A B} (I : B → Prop) (f : B → A → result B)
    (l : list A) (acc r : B) :
  I acc →
  (∀ acc x acc', I acc → f acc x = Ok acc' → I acc') →
  foldlM f l acc = Ok r → I r.
Proof.
  intros Hacc Hstep. revert acc Hacc.
  induction l as [|x l IH]; simpl; intros acc Hacc H.
  - by injection H as <-.
  - apply bind_Ok in H as (acc' & Hf & H). eapply IH; [|done]. by eapply Hstep.
Qed.

Lemma alist_set_Forall {V} (P : string * V → Prop) (k : string) (v : V)
    (d : list (string * V)) :
  P (k, v) → Forall P d → Forall P (alist_set k v d).
Proof.
  intros Hkv. induction 1 as [|[k' v'] d Hx Hd IH]; simpl.
  - by constructor.
  - destruct (decide (k = k')); by constructor.
Qed.

Lemma fit_one_county_consistent np_exp migrad case_data fips summary :
  fit_one_county np_exp migrad case_data fips = Ok summary →
  summary_consistent summary.
Proof.
  unfold fit_one_county.
  destruct (__init__ case_data fips 1 0 1000 5) as [fitter|e]; simpl.
  - destruct (fit np_exp migrad fitter) as [attrs|e]; simpl.
    + by intros [= <-].
    + destruct e; try done. by intros [= <-].
  - destruct e; try done. by intros [= <-].
Qed.

(** On the example, the county with case data has a real fit and the
    doubling time [log 2 * 20] for the scale 20 of its fit; the county
    without is imputed and has none. *)
Example doubling_time_example :
  (λ row, (merged_fips row, imputed_start_time row, doubling_rate_days row))
    <$> (match Examples.example_start_times with Ok table => table | Raise _ => [] end)
  = [("06003", Some true, NaN);
     ("06075", Some false, mul (Fin (6931 # 10000)) (Fin 20))].
Proof. vm_compute. reflexivity. Qed.

End Imputation.

(** * Further properties of the code *)

(** ** More on the error monad *)

Section MonadReturns.

(** A computation that returns, as the value it returns. *)
Lemma ok_unwrap {A} (m : result A) (dflt : A) :
  is_ok m = true → m = Ok (match m with Ok a => a | Raise _ => dflt end).
Proof. destruct m; [reflexivity | discriminate]. Qed.

Lemma forM_returns {A B} (f : A → result B) (l : list A) :
  (∀ x, x ∈ l → returns (f x)) → returns (forM f l).
Proof.
  induction l as [|x l IH]; intros H; simpl; [by eexists|].
  destruct (H x) as [y Hy]; [left|]. rewrite Hy. simpl.
  destruct IH as [ys Hys]; [intros x' Hx'; apply H; by right|].
  rewrite Hys. by eexists.
Qed.

End MonadReturns.

(** ** The stacked arrays: when they exist and what they hold *)

Section CompartmentArrays.
Import F64 Np EnsembleRunner.

Local Abbreviation stack_loop :=
  (foldlM (λ (compartments : gmap string (list (list float))) (model : SEIRModel),
             dict_forM (λ key stack,
                          series ← dict_getitem (results model) key;
                          Ok (stack ++ [series]))
                       compartments)).

(** The loop over the models returns when every model has every key. *)
Lemma stack_loop_returns (model_ensemble : list SEIRModel)
    (compartments : gmap string (list (list float))) :
  (∀ m key, m ∈ model_ensemble → is_Some (compartments !! key) →
            is_Some (results m !! key)) →
  returns (stack_loop model_ensemble compartments).
Proof.
  revert compartments.
  induction model_ensemble as [|m ens IH]; intros compartments H; simpl.
  - by eexists.
  - destruct (dict_forM_returns
                (λ key stack, series ← dict_getitem (results m) key; Ok (stack ++ [series]))
                compartments) as [comps1 H1].
    + intros k v Hk. destruct (H m k) as [series Hseries]; [left | by eexists |].
      unfold dict_getitem. rewrite Hseries. by eexists.
    + rewrite H1. simpl. apply IH. intros m' key Hm' [v Hv].
      apply H; [by right|].
      pose proof (dict_forM_Ok_lookup _ _ _ key H1) as Hl.
      destruct (compartments !! key); [by eexists | congruence].
Qed.

(** The compartments with which the loop starts: the kept keys of the
    first model. *)
Lemma initial_compartments_lookup (model0 : SEIRModel) (key : string) :
  ((λ _, []) <$> filter (λ kv, is_compartment_key kv.1 = true) (results model0)
     : gmap string (list (list float))) !! key
  = match results model0 !! key with
    | Some _ => if is_compartment_key key then Some [] else None
    | None => None
    end.
Proof.
  rewrite lookup_fmap.
  destruct (results model0 !! key) as [series|] eqn:Hkey.
  - destruct (is_compartment_key key) eqn:Hkept.
    + by rewrite (proj2 (map_lookup_filter_Some _ _ key series)).
    + rewrite (proj2 (map_lookup_filter_None _ _ key)); [done|].
      right. intros x _. simpl. congruence.
  - rewrite (proj2 (map_lookup_filter_None _ _ key)); [done|]. by left.
Qed.

(** The keys of the stacked arrays are the kept keys of the first model. *)
Lemma generate_compartment_arrays_dom (model_ensemble : list SEIRModel)
    (arrays : gmap string (list (list float))) (model0 : SEIRModel) (key : string) :
  _generate_compartment_arrays model_ensemble = Ok arrays →
  model_ensemble !! 0%nat = Some model0 →
  is_Some (arrays !! key) ↔
  is_Some (results model0 !! key) ∧ is_compartment_key key = true.
Proof.
  unfold _generate_compartment_arrays, list_getitem. intros H H0.
  rewrite H0 in H. simpl in H.
  apply bind_Ok in H as (comps' & Hloop & H).
  pose proof (dict_forM_Ok_lookup _ _ _ key H) as Hv.
  pose proof (stack_loop_Ok _ _ _ key Hloop) as Hk.
  rewrite initial_compartments_lookup in Hk.
  destruct (results model0 !! key) as [series0|].
  - destruct (is_compartment_key key).
    + destruct Hk as (rows & _ & Hlook). rewrite Hlook in Hv.
      destruct Hv as (y & _ & ->). split; [by eauto | by eexists].
    + rewrite Hk in Hv. rewrite Hv. split; [by intros [? ?] | by intros [_ ?]].
  - rewrite Hk in Hv. rewrite Hv. split; [by intros [? ?] | by intros [[? ?] _]].
Qed.

(** Stacking returns for runs that all carry the kept keys of the first,
    with series of the length of the first run's. *)
Lemma generate_compartment_arrays_returns (model_ensemble : list SEIRModel)
    (model0 : SEIRModel) :
  model_ensemble !! 0%nat = Some model0 →
  (∀ key series0 m,
     results model0 !! key = Some series0 → is_compartment_key key = true →
     m ∈ model_ensemble →
     ∃ series, results m !! key = Some series ∧ length series = length series0) →
  returns (_generate_compartment_arrays model_ensemble).
Proof.
  intros H0 Hshape.
  unfold _generate_compartment_arrays, list_getitem. rewrite H0. simpl.
  destruct (stack_loop_returns model_ensemble
              ((λ _, []) <$> filter (λ kv, is_compartment_key kv.1 = true)
                                    (results model0))) as [comps' Hloop].
  { intros m key Hm Hsome. rewrite initial_compartments_lookup in Hsome.
    destruct (results model0 !! key) as [series0|] eqn:Hkey; [|by destruct Hsome].
    destruct (is_compartment_key key) eqn:Hkept; [|by destruct Hsome].
    destruct (Hshape key series0 m Hkey Hkept Hm) as (series & -> & _). by eexists. }
  rewrite Hloop. simpl. apply dict_forM_returns. intros key stack Hstack.
  pose proof (stack_loop_Ok _ _ _ key Hloop) as Hk.
  rewrite initial_compartments_lookup in Hk.
  destruct (results model0 !! key) as [series0|] eqn:Hkey; [|congruence].
  destruct (is_compartment_key key) eqn:Hkept; [|congruence].
  destruct Hk as (rows & Hrows & Hlook). simpl in Hlook.
  rewrite Hstack in Hlook. injection Hlook as ->.
  destruct (Forall2_lookup_l _ _ _ _ _ Hrows H0) as (row0 & Hrow0 & Hm0row).
  rewrite Hkey in Hm0row. injection Hm0row as <-.
  destruct rows as [|r rest]; [done|]. injection Hrow0 as ->.
  unfold vstack.
  destruct (forallb _ rest) eqn:Hall; [by eexists|].
  apply not_true_iff_false in Hall. exfalso. apply Hall.
  apply forallb_forall. intros row Hrow. apply Nat.eqb_eq.
  apply list_elem_of_In in Hrow.
  assert (row ∈ series0 :: rest) as Hin by (by right).
  apply list_elem_of_lookup in Hin as [i Hi].
  destruct (Forall2_lookup_r _ _ _ _ _ Hrows Hi) as (m & Hm & Hmrow).
  destruct (Hshape key series0 m Hkey Hkept) as (series & Hseries & Hlen).
  { apply list_elem_of_lookup. eauto. }
  congruence.
Qed.

(** X1.  Stacking the runs returns exactly when there is a first run and
    every run carries, for every kept key of the first run, a series of
    the length of the first run's. *)
Theorem compartment_arrays_returns_iff (model_ensemble : list SEIRModel) :
  returns (_generate_compartment_arrays model_ensemble) ↔
  ∃ model0, model_ensemble !! 0%nat = Some model0 ∧
    ∀ key series0 m,
      results model0 !! key = Some series0 → is_compartment_key key = true →
      m ∈ model_ensemble →
      ∃ series, results m !! key = Some series ∧ length series = length series0.
Proof.
  split.
  - intros [arrays H].
    destruct (model_ensemble !! 0%nat) as [model0|] eqn:H0; cycle 1.
    { unfold _generate_compartment_arrays, list_getitem in H. by rewrite H0 in H. }
    exists model0. split; [done|]. intros key series0 m Hkey Hkept Hm.
    destruct (proj2 (generate_compartment_arrays_dom _ _ _ key H H0)) as [stack Hstack];
      [split; [by eexists | done]|].
    destruct (generate_compartment_arrays_Ok _ _ _ _ H Hstack)
      as (Hrows & row0 & Hrow0 & Hlen).
    apply list_elem_of_lookup in Hm as [i Hi].
    destruct (Forall2_lookup_l _ _ _ _ _ Hrows Hi) as (row & Hrow & Hmrow).
    destruct (Forall2_lookup_l _ _ _ _ _ Hrows H0) as (row0' & Hrow0' & Hm0row).
    rewrite Hkey in Hm0row. injection Hm0row as <-.
    rewrite Hrow0 in Hrow0'. injection Hrow0' as ->.
    exists row. split; [done|]. apply Hlen. apply list_elem_of_lookup. eauto.
  - intros (model0 & H0 & Hshape). by eapply generate_compartment_arrays_returns.
Qed.

(** X2.  What the stacked arrays hold: their keys are the keys of the
    first run's results that are not substrings of ['t_list'] (so a
    compartment called ['t'] or ['list'] is dropped like ['t_list']
    itself), and the array of a key has one row per run, in the order
    of the runs, the row of a run being its series for the key. *)
Theorem compartment_arrays_content (model_ensemble : list SEIRModel)
    (arrays : gmap string (list (list float))) (model0 : SEIRModel) :
  _generate_compartment_arrays model_ensemble = Ok arrays →
  model_ensemble !! 0%nat = Some model0 →
  (∀ key, is_Some (arrays !! key) ↔
          is_Some (results model0 !! key) ∧ str_contains "t_list" key = false) ∧
  (∀ key value_stack, arrays !! key = Some value_stack →
     length value_stack = length model_ensemble ∧
     ∀ i m, model_ensemble !! i = Some m → results m !! key = value_stack !! i ∧
                                            is_Some (value_stack !! i)).
Proof.
  intros H H0. split.
  - intros key. rewrite (generate_compartment_arrays_dom _ _ _ key H H0).
    unfold is_compartment_key. by rewrite negb_true_iff.
  - intros key value_stack Hstack.
    destruct (generate_compartment_arrays_Ok _ _ _ _ H Hstack) as (Hrows & _).
    split; [symmetry; by eapply Forall2_length|].
    intros i m Hi.
    destruct (Forall2_lookup_l _ _ _ _ _ Hrows Hi) as (row & Hrow & Hmrow).
    rewrite Hrow. split; [done | by eexists].
Qed.

Lemma compartment_arrays_content_witness :
  let model_ensemble :=
    [MoreRuns.hgen_t_run [1; 2; 3] [7; 8; 9] 2; Examples.hgen_run [2; 3; 4] 2] in
  let arrays :=
    match _generate_compartment_arrays model_ensemble with
    | Ok arrays => arrays
    | Raise _ => ∅
    end in
  (∀ key, is_Some (arrays !! key) ↔
          is_Some (results (MoreRuns.hgen_t_run [1; 2; 3] [7; 8; 9] 2) !! key) ∧
          str_contains "t_list" key = false) ∧
  (∀ key value_stack, arrays !! key = Some value_stack →
     length value_stack = length model_ensemble ∧
     ∀ i m, model_ensemble !! i = Some m → results m !! key = value_stack !! i ∧
                                            is_Some (value_stack !! i)).
Proof.
  cbv zeta.
  apply (compartment_arrays_content
           [MoreRuns.hgen_t_run [1; 2; 3] [7; 8; 9] 2; Examples.hgen_run [2; 3; 4] 2]).
  - apply ok_unwrap. vm_compute. reflexivity.
  - reflexivity.
Defined.

End CompartmentArrays.

(** ** Surge windows: compartments without a capacity, and the order of
    the two ends *)

Section SurgeWindowEdges.
Import F64 Np EnsembleRunner Spec.

(** X3.  For a compartment that has no capacity attribute (any other than
    ['HGen'], ['HICU'], ['HVent']), [_get_surge_window] raises [KeyError]
    as soon as the ensemble has a run, whether or not the runs carry the
    compartment; on an empty ensemble it returns two empty lists. *)
Theorem surge_window_without_capacity (model_ensemble : list SEIRModel)
    (compartment : string) :
  compartment_to_capacity_attr_map !! compartment = None →
  _get_surge_window model_ensemble compartment
  = match model_ensemble with
    | [] => Ok ([], [])
    | _ :: _ => Raise KeyError
    end.
Proof.
  intros Hnone. unfold _get_surge_window. destruct model_ensemble as [|m ens]; [done|].
  assert (surge_window_of_run compartment m = Raise KeyError) as Hrun.
  { unfold surge_window_of_run, capacity_of, dict_getitem. rewrite Hnone.
    by destruct (results m !! compartment). }
  simpl. by rewrite Hrun.
Qed.

Lemma surge_window_without_capacity_witness :
  _get_surge_window [Examples.hgen_hicu_run [1; 3; 1] [0; 0; 0] 2] "I" = Raise KeyError ∧
  _get_surge_window [] "I" = Ok ([], []).
Proof.
  split.
  - apply (surge_window_without_capacity
             [Examples.hgen_hicu_run [1; 3; 1] [0; 0; 0] 2] "I"). reflexivity.
  - apply (surge_window_without_capacity [] "I"). reflexivity.
Defined.

(** Over a non-decreasing time grid the window of a run is ordered. *)
Lemma surge_window_of_run_ordered (compartment : string) (m : SEIRModel)
    (series : list float) (s e : float) :
  results m !! compartment = Some series →
  length (t_list m) = length series →
  Forall finite (t_list m) → StronglySorted le (t_list m) →
  surge_window_of_run compartment m = Ok (s, e) →
  (s = NaN ∧ e = NaN) ∨ (finite s ∧ finite e ∧ le s e).
Proof.
  intros Hseries Hlen Hfin Hsorted. unfold surge_window_of_run, dict_getitem.
  rewrite Hseries. simpl. intros H.
  apply bind_Ok in H as (capacity & _ & H).
  destruct (argwhere ((λ v, gtb v capacity) <$> series)) as [|i rest] eqn:Hs;
    destruct (argwhere ((λ v, gtb v capacity) <$> reverse series)) as [|j rest'] eqn:He.
  - injection H as <- <-. by left.
  - exfalso. apply argwhere_last_exceed in He as (_ & Hex & _).
    by apply (argwhere_none_exceed _ _ Hs) in Hex.
  - exfalso. apply argwhere_first_exceed in Hs as [Hex _].
    assert (exceeds_at (reverse series) capacity (length series - S i)) as Hrev.
    { pose proof (exceeds_at_lt _ _ _ Hex). apply exceeds_at_reverse. split; [lia|].
      replace (length series - S (length series - S i))%nat with i by lia. done. }
    by apply (argwhere_none_exceed _ _ He) in Hrev.
  - right.
    apply argwhere_first_exceed in Hs as [Hfirst Hbefore].
    apply argwhere_last_exceed in He as (Hj & Hlast & Hafter).
    pose proof (exceeds_at_lt _ _ _ Hfirst) as Hi.
    assert (i ≤ length series - S j)%nat as Hij.
    { destruct (Nat.le_gt_cases i (length series - S j)) as [?|Hgt]; [done|].
      by apply Hbefore in Hlast. }
    apply bind_Ok in H as (s' & Hs' & H). apply bind_Ok in H as (e' & He' & [= <- <-]).
    unfold list_getitem in Hs', He'.
    rewrite reverse_lookup in He' by lia. rewrite Hlen in He'.
    destruct (t_list m !! i) as [s0|] eqn:Hts; [|done]. injection Hs' as <-.
    destruct (t_list m !! (length series - S j)%nat) as [e0|] eqn:Hte; [|done].
    injection He' as <-.
    assert (finite s0) as Hs0.
    { eapply Forall_forall; [exact Hfin|]. apply list_elem_of_lookup. eauto. }
    assert (finite e0) as He0.
    { eapply Forall_forall; [exact Hfin|]. apply list_elem_of_lookup. eauto. }
    split; [done|]. split; [done|].
    apply le_finite; [done|done|].
    pose proof (sorted_nth (t_list m) i (length series - S j) Hsorted Hfin Hij) as Hle.
    rewrite (nth_lookup_Some _ _ NaN _ Hts), (nth_lookup_Some _ _ NaN _ Hte) in Hle.
    apply Hle. lia.
Qed.

(** X4.  Over runs whose time grid is a non-decreasing list of numbers as
    long as the series, the two lists [_get_surge_window] returns have one
    entry per run, and for every run surge-start and surge-end are either
    both NaN or two numbers with surge-start <= surge-end. *)
Theorem surge_window_ordered (model_ensemble : list SEIRModel) (compartment : string)
    (surge_start surge_end : list float) :
  (∀ m, m ∈ model_ensemble →
        (∃ series, results m !! compartment = Some series ∧
                   length (t_list m) = length series) ∧
        Forall finite (t_list m) ∧ StronglySorted le (t_list m)) →
  _get_surge_window model_ensemble compartment = Ok (surge_start, surge_end) →
  length surge_start = length model_ensemble ∧
  length surge_end = length model_ensemble ∧
  ∀ k s e, surge_start !! k = Some s → surge_end !! k = Some e →
           (s = NaN ∧ e = NaN) ∨ (finite s ∧ finite e ∧ le s e).
Proof.
  intros Hwf H. unfold _get_surge_window in H.
  apply bind_Ok in H as (windows & Hwin & [= <- <-]).
  apply forM_Ok_inv in Hwin.
  pose proof (Forall2_length _ _ _ Hwin) as Hlen.
  rewrite !length_fmap. split; [done|]. split; [done|].
  intros k s e Hs He. rewrite list_lookup_fmap in Hs, He.
  destruct (windows !! k) as [[s' e']|] eqn:Hk; [|done].
  simpl in Hs, He. injection Hs as <-. injection He as <-.
  destruct (Forall2_lookup_r _ _ _ _ _ Hwin Hk) as (m & Hm & Hrun).
  destruct (Hwf m) as ((series & Hseries & Hl) & Hfin & Hsorted).
  { apply list_elem_of_lookup. eauto. }
  by eapply surge_window_of_run_ordered.
Qed.

Lemma surge_window_ordered_witness :
  let model_ensemble := [Examples.hgen_run [1; 3; 3] 2; Examples.hgen_run [1; 2; 1] 2] in
  length [Fin 1; NaN] = length model_ensemble ∧
  length [Fin 2; NaN] = length model_ensemble ∧
  ∀ k s e, [Fin 1; NaN] !! k = Some s → [Fin 2; NaN] !! k = Some e →
           (s = NaN ∧ e = NaN) ∨ (finite s ∧ finite e ∧ le s e).
Proof.
  apply (surge_window_ordered
           [Examples.hgen_run [1; 3; 3] 2; Examples.hgen_run [1; 2; 1] 2] "HGen").
  - intros m Hm.
    assert (t_list m = Examples.floats [0; 1; 2] ∧
            ∃ series, results m !! "HGen" = Some series ∧ length series = 3%nat)
      as (Ht & series & Hseries & Hlen).
    { apply elem_of_cons in Hm as [->|Hm]; [|apply list_elem_of_singleton in Hm as ->];
        (split; [reflexivity|]); eexists; (split; [vm_compute; reflexivity|reflexivity]). }
    split; [exists series; rewrite Ht; done|]. rewrite Ht.
    split; [repeat constructor|].
    repeat constructor; vm_compute; reflexivity.
  - vm_compute. reflexivity.
Defined.

End SurgeWindowEdges.

(** ** Peaks *)

Section Peaks.
Import F64 Np EnsembleRunner Spec PeakSpec.

Lemma ltb_le (x y : float) : ltb x y = true → le x y.
Proof.
  unfold le. destruct x as [a| | |], y as [b| | |]; simpl; try done.
  destruct (a ?= b)%Q eqn:Hc; [done| |done]. intros _.
  apply Qle_bool_iff, Qlt_le_weak. by rewrite Qlt_alt.
Qed.

Lemma ltb_false_le (x y : float) : finite x → finite y → ltb x y = false → le y x.
Proof.
  unfold le, finite. destruct x as [a| | |], y as [b| | |]; simpl; try done.
  intros _ _. destruct (a ?= b)%Q eqn:Hc; [| done |]; intros _; apply Qle_bool_iff.
  - apply Qeq_alt in Hc. rewrite Hc. apply Qle_refl.
  - apply Qlt_le_weak. by rewrite Qgt_alt.
Qed.

Lemma le_ltb_trans (x y z : float) :
  finite x → finite y → finite z → le x y → ltb y z = true → ltb x z = true.
Proof.
  unfold le, finite. destruct x as [a| | |], y as [b| | |], z as [c| | |]; simpl; try done.
  intros _ _ _ Hab Hbc. apply Qle_bool_iff in Hab.
  destruct (b ?= c)%Q eqn:Hc; [done| |done]. rewrite <- Qlt_alt in Hc.
  assert (a < c)%Q as Hlt by (eapply Qle_lt_trans; eauto).
  rewrite Qlt_alt in Hlt. by rewrite Hlt.
Qed.

Lemma le_reflexive (x : float) : finite x → le x x.
Proof. unfold le, finite. destruct x; simpl; try done. intros _. apply Qle_bool_iff, Qle_refl. Qed.

(** The scan of [np.argmax] over a row of numbers: [pre] has been seen, with
    its first maximum [best] at [best_i]. *)
Lemma argmax_from_first_maximum (l pre : list float) (best_i : nat) (best : float) :
  Forall finite (pre ++ l) →
  (best_i < length pre)%nat →
  is_first_maximum pre best_i best →
  ∃ mx, is_first_maximum (pre ++ l) (argmax_from (length pre) l best_i best) mx.
Proof.
  revert pre best_i best. induction l as [|x l IH]; intros pre best_i best Hfin Hlt Hmax.
  - simpl. rewrite app_nil_r. by exists best.
  - destruct Hmax as (Hbest & Hall & Hbefore).
    assert (finite best) as Hfb.
    { eapply Forall_forall; [exact Hfin|]. apply elem_of_app. left.
      apply list_elem_of_lookup. eauto. }
    assert (finite x) as Hfx.
    { eapply Forall_forall; [exact Hfin|]. apply elem_of_app. right. left. }
    assert (∀ v, v ∈ pre → finite v) as Hfpre.
    { intros v Hv. eapply Forall_forall; [exact Hfin|]. apply elem_of_app. by left. }
    simpl. unfold argmax_replaces.
    replace (is_nan best) with false by (by destruct best).
    replace (is_nan x) with false by (by destruct x). simpl.
    specialize (IH (pre ++ [x])).
    rewrite <- app_assoc, length_app in IH. simpl in IH. rewrite Nat.add_1_r in IH.
    destruct (ltb best x) eqn:Hcmp.
    + apply IH; [done | lia |]. split; [|split].
      * by rewrite lookup_app_r, Nat.sub_diag.
      * intros v Hv. apply elem_of_app in Hv as [Hv|Hv].
        -- eapply le_trans; [by apply Hfpre | exact Hfb | done | by apply Hall | by apply ltb_le].
        -- apply list_elem_of_singleton in Hv as ->. by apply le_reflexive.
      * intros j v Hj Hv. rewrite lookup_app_l in Hv by done.
        assert (v ∈ pre) as Hin by (apply list_elem_of_lookup; eauto).
        eapply le_ltb_trans; [by apply Hfpre | exact Hfb | done | by apply Hall | done].
    + apply IH; [done | lia |]. split; [|split].
      * by rewrite lookup_app_l.
      * intros v Hv. apply elem_of_app in Hv as [Hv|Hv]; [by apply Hall|].
        apply list_elem_of_singleton in Hv as ->. by apply ltb_false_le.
      * intros j v Hj Hv. rewrite lookup_app_l in Hv by lia. by eapply Hbefore.
Qed.

(** [np.argmax] of a row of numbers is the index of its first maximum. *)
Lemma argmax_first_maximum (row : list float) (idx : nat) :
  Forall finite row → argmax row = Ok idx → ∃ mx, is_first_maximum row idx mx.
Proof.
  intros Hfin H. destruct row as [|x row]; [done|]. injection H as <-.
  apply (argmax_from_first_maximum row [x] 0 x); [done | simpl; lia |].
  split; [done|]. split.
  - intros v Hv. apply list_elem_of_singleton in Hv as ->.
    apply le_reflexive. by apply Forall_cons in Hfin as [? _].
  - intros j v Hj. lia.
Qed.

Lemma argmax_from_lt (l : list float) (i best_i : nat) (best : float) :
  (best_i < i)%nat → (argmax_from i l best_i best < i + length l)%nat.
Proof.
  revert i best_i best. induction l as [|x l IH]; intros i best_i best Hlt; simpl; [lia|].
  destruct (argmax_replaces x best).
  - specialize (IH (S i) i x). lia.
  - specialize (IH (S i) best_i best). lia.
Qed.

(** [np.argmax] returns for every non-empty row, with an index of the row. *)
Lemma argmax_returns (row : list float) :
  row ≠ [] → ∃ idx, argmax row = Ok idx ∧ (idx < length row)%nat.
Proof.
  destruct row as [|x row]; [done|]. intros _. eexists. split; [done|].
  pose proof (argmax_from_lt row 1 0 x). simpl. lia.
Qed.

Lemma argmax_Ok_lt (row : list float) (idx : nat) :
  argmax row = Ok idx → row ≠ [] ∧ (idx < length row)%nat.
Proof.
  destruct row as [|x row]; [done|]. intros [= <-]. split; [done|].
  pose proof (argmax_from_lt row 1 0 x). simpl. lia.
Qed.

Lemma percentile_Ok (a : list float) (p : Z) (v : float) :
  percentile a (inject_Z p) = Ok v → v = percentile_1d (inject_Z p) a ∧ 0 ≤ p ≤ 100.
Proof.
  unfold percentile, percentile_in_range.
  destruct (Qle_bool 0 (inject_Z p)) eqn:H0; [|done].
  destruct (Qle_bool (inject_Z p) 100) eqn:H1; [|done]. simpl. intros [= <-].
  split; [done|]. apply Qle_bool_iff in H0, H1.
  change 0%Q with (inject_Z 0) in H0. change 100%Q with (inject_Z 100) in H1.
  rewrite <- Zle_Qle in H0, H1. lia.
Qed.

Lemma percentile_in_range_Z (p : Z) :
  percentile_in_range (inject_Z p) = true ↔ 0 ≤ p ≤ 100.
Proof.
  unfold percentile_in_range. rewrite andb_true_iff, !Qle_bool_iff.
  change 0%Q with (inject_Z 0). change 100%Q with (inject_Z 100).
  rewrite <- !Zle_Qle. done.
Qed.

Lemma percentile_returns_Z (a : list float) (p : Z) :
  0 ≤ p ≤ 100 → percentile a (inject_Z p) = Ok (percentile_1d (inject_Z p) a).
Proof. intros Hp. unfold percentile. by rewrite (proj2 (percentile_in_range_Z p) Hp). Qed.

Lemma peak_time_key_ne_value_key (p q : Z) :
  "peak_time_ci" +:+ pretty p ≠ "peak_value_ci" +:+ pretty q.
Proof. intros H. cbn [String.app] in H. discriminate. Qed.

Lemma peak_mean_key_ne_value_key (q : Z) :
  "peak_value_mean" ≠ "peak_value_ci" +:+ pretty q.
Proof. intros H. cbn [String.app] in H. discriminate. Qed.

Lemma peak_mean_key_ne_time_key (q : Z) :
  "peak_value_mean" ≠ "peak_time_ci" +:+ pretty q.
Proof. intros H. cbn [String.app] in H. discriminate. Qed.

(** The loop over the percentiles of [_detect_peak_time_and_value]. *)
Lemma peak_loop_lookup (output_percentiles : list Z)
    (values_at_peak_index peak_times : list float)
    (d0 d : gmap string outval) (p : Z) :
  foldlM (λ peak_data percentile,
            v ← Np.percentile values_at_peak_index (inject_Z percentile);
            t ← Np.percentile peak_times (inject_Z percentile);
            Ok (<["peak_time_ci" +:+ pretty percentile := VNum t]>
                  (<["peak_value_ci" +:+ pretty percentile := VNum v]> peak_data)))
         output_percentiles d0 = Ok d →
  p ∈ output_percentiles ∨
  (d0 !! ("peak_value_ci" +:+ pretty p)
     = Some (VNum (percentile_1d (inject_Z p) values_at_peak_index)) ∧
   d0 !! ("peak_time_ci" +:+ pretty p)
     = Some (VNum (percentile_1d (inject_Z p) peak_times))) →
  d !! ("peak_value_ci" +:+ pretty p)
    = Some (VNum (percentile_1d (inject_Z p) values_at_peak_index)) ∧
  d !! ("peak_time_ci" +:+ pretty p)
    = Some (VNum (percentile_1d (inject_Z p) peak_times)).
Proof.
  revert d0. induction output_percentiles as [|q ps IH]; simpl; intros d0 H Hp.
  - injection H as <-. destruct Hp as [Hp|Hp]; [|done]. by apply elem_of_nil in Hp.
  - apply bind_Ok in H as (d1 & H1 & H).
    apply bind_Ok in H1 as (v & Hv & H1). apply bind_Ok in H1 as (tv & Htv & [= <-]).
    apply percentile_Ok in Hv as [-> _]. apply percentile_Ok in Htv as [-> _].
    apply (IH _ H).
    destruct (decide (q = p)) as [->|Hne].
    + right. split.
      * rewrite lookup_insert_ne by apply peak_time_key_ne_value_key.
        by rewrite lookup_insert_eq.
      * by rewrite lookup_insert_eq.
    + destruct Hp as [Hp|[Hpv Hpt]].
      * apply elem_of_cons in Hp as [->|Hp]; [done | by left].
      * right. split.
        -- rewrite lookup_insert_ne by apply peak_time_key_ne_value_key.
           rewrite lookup_insert_ne; [done|].
           intros E. apply String.app_inj, pretty_Z_inj in E. done.
        -- rewrite lookup_insert_ne.
           ++ rewrite lookup_insert_ne; [done|].
              apply not_eq_sym, peak_time_key_ne_value_key.
           ++ intros E. apply String.app_inj, pretty_Z_inj in E. done.
Qed.

(** X5.  For stacked series of numbers, [_detect_peak_time_and_value]
    takes, for every run, the maximum of its series and the time-grid
    value at the first index where the series attains it;
    ['peak_value_mean'] is the mean of these maxima, and for every
    requested percentile [p] the entries ['peak_value_ci<p>'] and
    ['peak_time_ci<p>'] are the [p]-th percentiles of the maxima and of the
    peak times over the runs. *)
Theorem peak_data_of_first_maxima (output_percentiles : list Z)
    (value_stack : list (list float)) (t_list : list float)
    (peak_data : gmap string outval) :
  Forall (Forall finite) value_stack →
  _detect_peak_time_and_value output_percentiles value_stack t_list = Ok peak_data →
  ∃ peak_times peak_values,
    length peak_times = length value_stack ∧
    length peak_values = length value_stack ∧
    (∀ i row, value_stack !! i = Some row →
       ∃ idx time mx,
         is_first_maximum row idx mx ∧ t_list !! idx = Some time ∧
         peak_times !! i = Some time ∧ peak_values !! i = Some mx) ∧
    peak_data !! "peak_value_mean" = Some (VNum (mean peak_values)) ∧
    ∀ p, p ∈ output_percentiles →
      peak_data !! ("peak_value_ci" +:+ pretty p)
        = Some (VNum (percentile_1d (inject_Z p) peak_values)) ∧
      peak_data !! ("peak_time_ci" +:+ pretty p)
        = Some (VNum (percentile_1d (inject_Z p) peak_times)).
Proof.
  intros Hfin H. unfold _detect_peak_time_and_value in H.
  apply bind_Ok in H as (peak_indices & Hidx & H).
  apply bind_Ok in H as (peak_times & Htimes & H).
  apply bind_Ok in H as (values & Hvalues & H).
  apply bind_Ok in H as (d & Hd & [= <-]).
  apply forM_Ok_inv in Hidx, Htimes, Hvalues.
  pose proof (Forall2_length _ _ _ Hidx) as Hl1.
  pose proof (Forall2_length _ _ _ Htimes) as Hl2.
  pose proof (Forall2_length _ _ _ Hvalues) as Hl3.
  rewrite length_zip_with in Hl3.
  exists peak_times, values.
  split; [lia|]. split; [lia|]. split; [|split].
  - intros i row Hrow.
    destruct (Forall2_lookup_l _ _ _ _ _ Hidx Hrow) as (idx & Hi & Hargmax).
    destruct (Forall2_lookup_l _ _ _ _ _ Htimes Hi) as (time & Htime & Hget).
    assert (zip value_stack peak_indices !! i = Some (row, idx)) as Hzip.
    { apply lookup_zip_with_Some. eauto. }
    destruct (Forall2_lookup_l _ _ _ _ _ Hvalues Hzip) as (mx & Hmx & Hgetv).
    simpl in Hgetv. unfold list_getitem in Hget, Hgetv.
    destruct (t_list !! idx) as [time'|] eqn:Ht; [|done]. injection Hget as ->.
    destruct (row !! idx) as [mx'|] eqn:Hr; [|done]. injection Hgetv as ->.
    destruct (argmax_first_maximum row idx) as (mx' & Hfirst); [|done|].
    { apply (proj1 (Forall_forall _ _) Hfin). apply list_elem_of_lookup. eauto. }
    assert (mx' = mx) as -> by (destruct Hfirst as [Hf _]; congruence).
    exists idx, time, mx. done.
  - by rewrite lookup_insert_eq.
  - intros p Hp.
    rewrite lookup_insert_ne by apply peak_mean_key_ne_value_key.
    rewrite lookup_insert_ne by apply peak_mean_key_ne_time_key.
    eapply peak_loop_lookup; [exact Hd | by left].
Qed.

Lemma peak_data_of_first_maxima_witness :
  ∃ peak_times peak_values,
    length peak_times = length [Examples.floats [1; 3; 3]; Examples.floats [5; 4; 2]] ∧
    length peak_values = length [Examples.floats [1; 3; 3]; Examples.floats [5; 4; 2]] ∧
    (∀ i row, [Examples.floats [1; 3; 3]; Examples.floats [5; 4; 2]] !! i = Some row →
       ∃ idx time mx,
         is_first_maximum row idx mx ∧ Examples.floats [0; 10; 20] !! idx = Some time ∧
         peak_times !! i = Some time ∧ peak_values !! i = Some mx) ∧
    match _detect_peak_time_and_value [50]
            [Examples.floats [1; 3; 3]; Examples.floats [5; 4; 2]]
            (Examples.floats [0; 10; 20]) with
    | Ok peak_data => peak_data
    | Raise _ => ∅
    end !! "peak_value_mean" = Some (VNum (mean peak_values)) ∧
    ∀ p, p ∈ [50] →
      match _detect_peak_time_and_value [50]
              [Examples.floats [1; 3; 3]; Examples.floats [5; 4; 2]]
              (Examples.floats [0; 10; 20]) with
      | Ok peak_data => peak_data
      | Raise _ => ∅
      end !! ("peak_value_ci" +:+ pretty p)
        = Some (VNum (percentile_1d (inject_Z p) peak_values)) ∧
      match _detect_peak_time_and_value [50]
              [Examples.floats [1; 3; 3]; Examples.floats [5; 4; 2]]
              (Examples.floats [0; 10; 20]) with
      | Ok peak_data => peak_data
      | Raise _ => ∅
      end !! ("peak_time_ci" +:+ pretty p)
        = Some (VNum (percentile_1d (inject_Z p) peak_times)).
Proof.
  apply (peak_data_of_first_maxima [50]
           [Examples.floats [1; 3; 3]; Examples.floats [5; 4; 2]]
           (Examples.floats [0; 10; 20])).
  - repeat constructor.
  - apply ok_unwrap. vm_compute. reflexivity.
Defined.

(** The peaks of a stack: one run peaking at its second step (first of two
    equal maxima), one at its first. *)
Example peak_data_example :
  let peak_data :=
    _detect_peak_time_and_value [50]
      [Examples.floats [1; 3; 3]; Examples.floats [5; 4; 2]]
      (Examples.floats [0; 10; 20]) in
  returned_entry peak_data "peak_value_mean" = Some (VNum (Fin (8 # 2))) ∧
  returned_entry peak_data "peak_time_ci50" = Some (VNum (Fin (500 # 100))) ∧
  returned_entry peak_data "peak_value_ci50" = Some (VNum (Fin (400 # 100))).
Proof. cbv zeta. split; [|split]; vm_compute; reflexivity. Qed.

(** Peak detection returns when no series is empty, the time grid
    reaches every peak index and the percentiles are in range. *)
Lemma detect_peak_returns (output_percentiles : list Z)
    (value_stack : list (list float)) (t_list : list float) :
  Forall (λ row, row ≠ []) value_stack →
  (∀ row idx, row ∈ value_stack → argmax row = Ok idx → (idx < length t_list)%nat) →
  Forall (λ p, 0 ≤ p ≤ 100) output_percentiles →
  returns (_detect_peak_time_and_value output_percentiles value_stack t_list).
Proof.
  intros Hrows Hgrid Hps. unfold _detect_peak_time_and_value.
  destruct (forM_returns argmax value_stack) as [peak_indices Hidx].
  { intros row Hrow. rewrite Forall_forall in Hrows.
    destruct (argmax_returns row (Hrows row Hrow)) as (idx & -> & _). by eexists. }
  rewrite Hidx. simpl. pose proof (forM_Ok_inv _ _ _ Hidx) as Hidx'.
  destruct (forM_returns (list_getitem t_list) peak_indices) as [peak_times Htimes].
  { intros idx Hin. apply list_elem_of_lookup in Hin as [i Hi].
    destruct (Forall2_lookup_r _ _ _ _ _ Hidx' Hi) as (row & Hrow & Hargmax).
    destruct (lookup_lt_is_Some_2 t_list idx) as [time Htime].
    { eapply Hgrid; [|done]. apply list_elem_of_lookup. eauto. }
    unfold list_getitem. rewrite Htime. by eexists. }
  rewrite Htimes. simpl.
  destruct (forM_returns (λ vi : list float * nat, list_getitem vi.1 vi.2)
              (zip value_stack peak_indices)) as [values Hvalues].
  { intros [row idx] Hin. apply list_elem_of_lookup in Hin as [i Hi].
    apply lookup_zip_with_Some in Hi as (row' & idx' & [= <- <-] & Hrow & Hidx0).
    destruct (Forall2_lookup_l _ _ _ _ _ Hidx' Hrow) as (idx' & Hi' & Hargmax).
    assert (idx' = idx) as -> by congruence.
    apply argmax_Ok_lt in Hargmax as [_ Hlt].
    destruct (lookup_lt_is_Some_2 row idx Hlt) as [v Hv].
    simpl. unfold list_getitem. rewrite Hv. by eexists. }
  rewrite Hvalues. simpl.
  assert (returns (foldlM (λ peak_data percentile,
            v ← Np.percentile values (inject_Z percentile);
            t ← Np.percentile peak_times (inject_Z percentile);
            Ok (<["peak_time_ci" +:+ pretty percentile := VNum t]>
                  (<["peak_value_ci" +:+ pretty percentile := VNum v]> peak_data)))
          output_percentiles (∅ : gmap string outval))) as [d Hd].
  { generalize (∅ : gmap string outval).
    induction Hps as [|p ps Hp _ IH]; intros d0; simpl; [by eexists|].
    rewrite !(percentile_returns_Z _ _ Hp). simpl. apply IH. }
  rewrite Hd. by eexists.
Qed.

(** X6.  [_detect_peak_time_and_value] returns exactly when no series is
    empty, the time grid reaches every run's peak index, and every
    requested percentile lies in [0, 100]; otherwise it raises
    [ValueError] (an empty series, a percentile out of range) or
    [IndexError] (a time grid that is too short). *)
Theorem peak_detection_returns_iff (output_percentiles : list Z)
    (value_stack : list (list float)) (t_list : list float) :
  (returns (_detect_peak_time_and_value output_percentiles value_stack t_list) ↔
   Forall (λ row, row ≠ []) value_stack ∧
   (∀ row idx, row ∈ value_stack → argmax row = Ok idx → (idx < length t_list)%nat) ∧
   Forall (λ p, 0 ≤ p ≤ 100) output_percentiles) ∧
  (∀ e, _detect_peak_time_and_value output_percentiles value_stack t_list = Raise e →
        e = ValueError ∨ e = IndexError).
Proof.
  split; [split|].
  - intros [peak_data H]. unfold _detect_peak_time_and_value in H.
    apply bind_Ok in H as (peak_indices & Hidx & H).
    apply bind_Ok in H as (peak_times & Htimes & H).
    apply bind_Ok in H as (values & Hvalues & H).
    apply bind_Ok in H as (d & Hd & _).
    apply forM_Ok_inv in Hidx, Htimes.
    split; [|split].
    + apply Forall_forall. intros row Hrow.
      apply list_elem_of_lookup in Hrow as [i Hi].
      destruct (Forall2_lookup_l _ _ _ _ _ Hidx Hi) as (idx & _ & Hargmax).
      by apply argmax_Ok_lt in Hargmax as [? _].
    + intros row idx Hrow Hargmax.
      apply list_elem_of_lookup in Hrow as [i Hi].
      destruct (Forall2_lookup_l _ _ _ _ _ Hidx Hi) as (idx' & Hi' & Hargmax').
      assert (idx' = idx) as -> by congruence.
      destruct (Forall2_lookup_l _ _ _ _ _ Htimes Hi') as (time & _ & Hget).
      unfold list_getitem in Hget.
      destruct (t_list !! idx) eqn:Ht; [|done]. by eapply lookup_lt_Some.
    + clear -Hd. revert Hd. generalize (∅ : gmap string outval).
      induction output_percentiles as [|p ps IH]; intros d0 Hd; [constructor|].
      simpl in Hd. apply bind_Ok in Hd as (d1 & H1 & Hd).
      apply bind_Ok in H1 as (v & Hv & _). apply percentile_Ok in Hv as [_ Hp].
      constructor; [done | by eapply IH].
  - intros (Hrows & Hgrid & Hps). by apply detect_peak_returns.
  - intros e H. unfold _detect_peak_time_and_value in H.
    apply bind_Raise in H as [H | (peak_indices & _ & H)].
    { apply forM_Raise_inv in H as (row & _ & H). destruct row; [|done].
      injection H as <-. by left. }
    apply bind_Raise in H as [H | (peak_times & _ & H)].
    { apply forM_Raise_inv in H as (idx & _ & H). unfold list_getitem in H.
      destruct (t_list !! idx); [done|]. injection H as <-. by right. }
    apply bind_Raise in H as [H | (values & _ & H)].
    { apply forM_Raise_inv in H as ([row idx] & _ & H). simpl in H.
      unfold list_getitem in H.
      destruct (row !! idx); [done|]. injection H as <-. by right. }
    apply bind_Raise in H as [H | (d & _ & H)]; [|done].
    left. revert H. generalize (∅ : gmap string outval).
    induction output_percentiles as [|p ps IH]; intros d0 H; [done|].
    simpl in H. apply bind_Raise in H as [H | (d1 & _ & H)]; [|by eapply IH].
    unfold percentile in H.
    destruct (percentile_in_range (inject_Z p)); simpl in H; [|congruence].
    destruct (percentile_in_range (inject_Z p)); simpl in H; [done|congruence].
Qed.

End Peaks.

(** ** The output of a suppression policy *)

Section PolicyOutput.
Import F64 Np EnsembleRunner Spec.

Lemma percentile_axis0_Ok (stack : list (list float)) (p : Z) (band : list float) :
  percentile_axis0 stack (inject_Z p) = Ok band →
  band = percentile_1d (inject_Z p) <$> columns stack ∧ 0 ≤ p ≤ 100.
Proof.
  unfold percentile_axis0.
  destruct (percentile_in_range (inject_Z p)) eqn:Hp; [|done]. intros [= <-].
  split; [done | by apply percentile_in_range_Z].
Qed.

Lemma percentile_axis0_Raise (stack : list (list float)) (p : Q) (e : exn) :
  percentile_axis0 stack p = Raise e → e = ValueError.
Proof. unfold percentile_axis0. destruct (percentile_in_range p); congruence. Qed.

(** The loop over the percentiles that fills the bands of a compartment. *)
Local Abbreviation band_loop value_stack :=
  (foldlM (λ (bands : gmap string outval) (percentile : Z),
             band ← percentile_axis0 value_stack (inject_Z percentile);
             Ok (<["ci_" +:+ pretty percentile := VList band]> bands))).

Lemma band_loop_keys (output_percentiles : list Z) (value_stack : list (list float))
    (bands : gmap string outval) (k : string) :
  band_loop value_stack output_percentiles ∅ = Ok bands →
  (∀ rest, k ≠ "ci_" +:+ rest) → bands !! k = None.
Proof.
  intros H Hk.
  eapply (foldlM_keys (λ k, ∃ rest, k = "ci_" +:+ rest)) in H; [by rewrite H | |].
  - intros d p d' Hd k' Hk'. apply bind_Ok in Hd as (band & _ & [= <-]).
    apply lookup_insert_ne. intros <-. apply Hk'. by eexists.
  - intros [rest ->]. by eapply Hk.
Qed.

Lemma band_loop_lookup (output_percentiles : list Z) (value_stack : list (list float))
    (d0 d : gmap string outval) (p : Z) :
  band_loop value_stack output_percentiles d0 = Ok d →
  p ∈ output_percentiles ∨
  d0 !! ("ci_" +:+ pretty p)
    = Some (VList (percentile_1d (inject_Z p) <$> columns value_stack)) →
  d !! ("ci_" +:+ pretty p)
    = Some (VList (percentile_1d (inject_Z p) <$> columns value_stack)).
Proof.
  revert d0. induction output_percentiles as [|q ps IH]; simpl; intros d0 H Hp.
  - injection H as <-. destruct Hp as [Hp|Hp]; [|done]. by apply elem_of_nil in Hp.
  - apply bind_Ok in H as (d1 & H1 & H).
    apply bind_Ok in H1 as (band & Hband & [= <-]).
    apply percentile_axis0_Ok in Hband as [-> _].
    apply (IH _ H).
    destruct (decide (q = p)) as [->|Hne].
    + right. by rewrite lookup_insert_eq.
    + destruct Hp as [Hp|Hp].
      * apply elem_of_cons in Hp as [->|Hp]; [done | by left].
      * right. rewrite lookup_insert_ne; [done|].
        intros E. apply String.app_inj, pretty_Z_inj in E. done.
Qed.

Lemma band_loop_in_range (output_percentiles : list Z) (value_stack : list (list float))
    (d0 d : gmap string outval) :
  band_loop value_stack output_percentiles d0 = Ok d →
  Forall (λ p, 0 ≤ p ≤ 100) output_percentiles.
Proof.
  revert d0. induction output_percentiles as [|q ps IH]; simpl; intros d0 H; [constructor|].
  apply bind_Ok in H as (d1 & H1 & H).
  apply bind_Ok in H1 as (band & Hband & _).
  apply percentile_axis0_Ok in Hband as [_ Hq]. constructor; [done | by eapply IH].
Qed.

Lemma band_loop_returns (output_percentiles : list Z) (value_stack : list (list float))
    (d0 : gmap string outval) :
  Forall (λ p, 0 ≤ p ≤ 100) output_percentiles →
  returns (band_loop value_stack output_percentiles d0).
Proof.
  intros Hps. revert d0. induction Hps as [|p ps Hp _ IH]; intros d0; simpl; [by eexists|].
  assert (percentile_axis0 value_stack (inject_Z p)
          = Ok (percentile_1d (inject_Z p) <$> columns value_stack)) as ->.
  { unfold percentile_axis0. by rewrite (proj2 (percentile_in_range_Z p) Hp). }
  simpl. apply IH.
Qed.

Lemma band_loop_out_of_range (output_percentiles : list Z)
    (value_stack : list (list float)) (d0 : gmap string outval) (p : Z) :
  p ∈ output_percentiles → ¬ (0 ≤ p ≤ 100) →
  band_loop value_stack output_percentiles d0 = Raise ValueError.
Proof.
  intros Hp Hbad. revert d0.
  induction output_percentiles as [|q ps IH]; intros d0; [by apply elem_of_nil in Hp|].
  simpl. destruct (percentile_axis0 value_stack (inject_Z q)) as [band|e] eqn:Hq; simpl.
  - apply percentile_axis0_Ok in Hq as [_ Hq].
    apply elem_of_cons in Hp as [->|Hp]; [done|]. by apply IH.
  - by apply percentile_axis0_Raise in Hq as ->.
Qed.

(** The dict stored for a compartment, in its three parts: the entries of
    the peak detection win over those of the surge window, which win over
    the bands. *)
Lemma compartment_outputs_parts (output_percentiles : list Z)
    (model_ensemble : list SEIRModel) (t_list_out : list float)
    (compartment : string) (value_stack : list (list float))
    (d : gmap string outval) :
  compartment_outputs output_percentiles model_ensemble t_list_out
                      compartment value_stack = Ok d →
  ∃ bands surge peak_data,
    band_loop value_stack output_percentiles ∅ = Ok bands ∧
    _detect_peak_time_and_value output_percentiles value_stack t_list_out = Ok peak_data ∧
    d = (peak_data ∪ surge) ∪ bands ∧
    (∀ k, k ≠ "surge_start" → k ≠ "capacity" → surge !! k = None) ∧
    (compartment_to_capacity_attr_map !! compartment = None → surge = ∅) ∧
    (is_Some (compartment_to_capacity_attr_map !! compartment) →
     ∃ capacity, forM (capacity_of compartment) model_ensemble = Ok capacity ∧
                 surge !! "capacity" = Some (VList capacity) ∧
                 is_Some (surge !! "surge_start")).
Proof.
  intros H. unfold compartment_outputs in H.
  apply bind_Ok in H as (bands & Hbands & H).
  apply bind_Ok in H as (surge & Hsurge & H).
  apply bind_Ok in H as (peak_data & Hpeak & [= <-]).
  exists bands, surge, peak_data. split; [done|]. split; [done|]. split; [done|].
  destruct (decide (is_Some (compartment_to_capacity_attr_map !! compartment)))
    as [Hcap|Hcap].
  - apply bind_Ok in Hsurge as ([surge_start surge_end] & Hwin & Hsurge).
    apply bind_Ok in Hsurge as (capacity & Hcapacity & [= <-]).
    split; [|split].
    + intros k Hk1 Hk2. by rewrite !lookup_insert_ne.
    + intros Hnone. rewrite Hnone in Hcap. by destruct Hcap.
    + intros _. exists capacity. split; [done|]. split; [by rewrite lookup_insert_eq|].
      rewrite lookup_insert_ne by done. rewrite lookup_insert_eq. by eexists.
  - injection Hsurge as <-. split; [|split]; [done | done |]. intros Hsome. done.
Qed.

(** The dict of every compartment of the arrays, in the output. *)
Lemma policy_output_compartment (output_percentiles : list Z)
    (model_ensemble : list SEIRModel) (outputs : gmap string outentry)
    (compartment : string) :
  _generate_output_for_suppression_policy output_percentiles model_ensemble = Ok outputs →
  ∃ model0 arrays,
    model_ensemble !! 0%nat = Some model0 ∧
    _generate_compartment_arrays model_ensemble = Ok arrays ∧
    outputs !! "t_list" = Some (OList (t_list model0)) ∧
    (compartment ≠ "t_list" →
     match arrays !! compartment with
     | Some value_stack =>
         ∃ d, compartment_outputs output_percentiles model_ensemble (t_list model0)
                                  compartment value_stack = Ok d ∧
              outputs !! compartment = Some (ODict d)
     | None => outputs !! compartment = None
     end).
Proof.
  intros H. unfold _generate_output_for_suppression_policy in H.
  apply bind_Ok in H as (model0 & H0 & H).
  apply bind_Ok in H as (arrays & Harr & H).
  apply bind_Ok in H as (per & Hper & [= <-]).
  exists model0, arrays. unfold list_getitem in H0.
  destruct (model_ensemble !! 0%nat) as [m0|]; [|done]. injection H0 as ->.
  split; [done|]. split; [done|]. split; [by rewrite lookup_insert_eq|].
  intros Hne. rewrite lookup_insert_ne, lookup_fmap by done.
  pose proof (dict_forM_Ok_lookup _ _ _ compartment Hper) as Hc.
  destruct (arrays !! compartment) as [value_stack|].
  - destruct Hc as (d & Hd & ->). by exists d.
  - by rewrite Hc.
Qed.

Lemma arrays_no_t_list (model_ensemble : list SEIRModel)
    (arrays : gmap string (list (list float))) :
  _generate_compartment_arrays model_ensemble = Ok arrays → arrays !! "t_list" = None.
Proof.
  intros H. destruct (model_ensemble !! 0%nat) as [model0|] eqn:H0.
  - pose proof (generate_compartment_arrays_dom _ _ _ "t_list" H H0) as Hdom.
    destruct (arrays !! "t_list"); [|done].
    destruct (proj1 Hdom) as [_ Hkept]; [by eexists|]. vm_compute in Hkept. done.
  - unfold _generate_compartment_arrays, list_getitem in H. by rewrite H0 in H.
Qed.

(** X7.  The output of a policy holds the time grid of the first run
    under ['t_list'] (the grids of the other runs are not read), and
    besides it exactly one dict per key of the first run's results that is
    not a substring of ['t_list']. *)
Theorem policy_output_entries (output_percentiles : list Z)
    (model_ensemble : list SEIRModel) (outputs : gmap string outentry)
    (model0 : SEIRModel) :
  _generate_output_for_suppression_policy output_percentiles model_ensemble = Ok outputs →
  model_ensemble !! 0%nat = Some model0 →
  outputs !! "t_list" = Some (OList (t_list model0)) ∧
  ∀ key, key ≠ "t_list" →
    ((∃ d, outputs !! key = Some (ODict d)) ↔
     is_Some (results model0 !! key) ∧ str_contains "t_list" key = false) ∧
    ((outputs !! key = None) ↔
     results model0 !! key = None ∨ str_contains "t_list" key = true).
Proof.
  intros H H0.
  destruct (policy_output_compartment _ _ _ "t_list" H)
    as (model0' & arrays & H0' & Harr & Hgrid & _).
  assert (model0' = model0) as -> by congruence.
  split; [done|]. intros key Hne.
  destruct (policy_output_compartment _ _ _ key H)
    as (model0' & arrays' & H0'' & Harr' & _ & Hkey).
  assert (arrays' = arrays) as -> by congruence. specialize (Hkey Hne).
  pose proof (generate_compartment_arrays_dom _ _ _ key Harr H0) as Hdom.
  unfold is_compartment_key in Hdom. rewrite negb_true_iff in Hdom.
  destruct (arrays !! key) as [value_stack|].
  - destruct Hkey as (d & _ & Hd). destruct (proj1 Hdom) as [Hres Hsub]; [by eexists|].
    split.
    + split; [done | intros _; by exists d].
    + split; [by rewrite Hd|]. intros [Hnone|Htrue]; [|congruence].
      rewrite Hnone in Hres. by destruct Hres.
  - split.
    + split; [intros [d Hd]; congruence|]. intros Hboth.
      apply Hdom in Hboth. by destruct Hboth.
    + split; [|done]. intros _.
      destruct (results model0 !! key) eqn:Hres; [|by left].
      destruct (str_contains "t_list" key) eqn:Hsub; [by right|].
      destruct (proj2 Hdom) as [? ?]; [split; [by eexists | done] | done].
Qed.

Lemma policy_output_entries_witness :
  match _generate_output_for_suppression_policy [50]
          [MoreRuns.hgen_t_run [1; 2; 3] [7; 8; 9] 2; Examples.hgen_run [2; 3; 4] 2] with
  | Ok outputs => outputs
  | Raise _ => ∅
  end !! "t_list"
    = Some (OList (t_list (MoreRuns.hgen_t_run [1; 2; 3] [7; 8; 9] 2))) ∧
  ∀ key, key ≠ "t_list" →
    ((∃ d, match _generate_output_for_suppression_policy [50]
                   [MoreRuns.hgen_t_run [1; 2; 3] [7; 8; 9] 2;
                    Examples.hgen_run [2; 3; 4] 2] with
           | Ok outputs => outputs
           | Raise _ => ∅
           end !! key = Some (ODict d)) ↔
     is_Some (results (MoreRuns.hgen_t_run [1; 2; 3] [7; 8; 9] 2) !! key) ∧
     str_contains "t_list" key = false) ∧
    ((match _generate_output_for_suppression_policy [50]
              [MoreRuns.hgen_t_run [1; 2; 3] [7; 8; 9] 2;
               Examples.hgen_run [2; 3; 4] 2] with
      | Ok outputs => outputs
      | Raise _ => ∅
      end !! key = None) ↔
     results (MoreRuns.hgen_t_run [1; 2; 3] [7; 8; 9] 2) !! key = None ∨
     str_contains "t_list" key = true).
Proof.
  apply (policy_output_entries [50]
           [MoreRuns.hgen_t_run [1; 2; 3] [7; 8; 9] 2; Examples.hgen_run [2; 3; 4] 2]).
  - apply ok_unwrap. vm_compute. reflexivity.
  - reflexivity.
Defined.

(** A series stored under ['t'] by the runs is absent from the output. *)
Example compartment_named_t_is_dropped :
  let outputs :=
    _generate_output_for_suppression_policy [50]
      [MoreRuns.hgen_t_run [1; 2; 3] [7; 8; 9] 2; Examples.hgen_run [2; 3; 4] 2] in
  is_ok outputs = true ∧
  returned_entry outputs "t" = None ∧
  output_entry outputs "HGen" "ci_50" = Some (VList [Fin (150 # 100); Fin (250 # 100); Fin (350 # 100)]).
Proof. cbv zeta. split; [|split]; vm_compute; reflexivity. Qed.

(** X8.  In the dict of a compartment, the entry ['ci_<p>'] of every
    requested percentile [p] is the list of the [p]-th percentiles of the
    columns of the compartment's array (one per timestep, taken over the
    runs), and the entries of the peak detection, run on that array and on
    the first run's time grid, are stored unchanged. *)
Theorem policy_output_bands_and_peaks (output_percentiles : list Z)
    (model_ensemble : list SEIRModel) (outputs : gmap string outentry)
    (model0 : SEIRModel) (arrays : gmap string (list (list float)))
    (compartment : string) (value_stack : list (list float)) :
  _generate_output_for_suppression_policy output_percentiles model_ensemble = Ok outputs →
  model_ensemble !! 0%nat = Some model0 →
  _generate_compartment_arrays model_ensemble = Ok arrays →
  arrays !! compartment = Some value_stack →
  ∃ d peak_data,
    outputs !! compartment = Some (ODict d) ∧
    _detect_peak_time_and_value output_percentiles value_stack (t_list model0)
      = Ok peak_data ∧
    (∀ k v, peak_data !! k = Some v → d !! k = Some v) ∧
    ∀ p, p ∈ output_percentiles →
      0 ≤ p ≤ 100 ∧
      d !! ("ci_" +:+ pretty p)
        = Some (VList (percentile_1d (inject_Z p) <$> columns value_stack)).
Proof.
  intros H H0 Harr Hstack.
  destruct (policy_output_compartment _ _ _ compartment H)
    as (model0' & arrays' & H0' & Harr' & _ & Hkey).
  assert (model0' = model0) as -> by congruence.
  assert (arrays' = arrays) as -> by congruence.
  assert (compartment ≠ "t_list") as Hne.
  { intros ->. rewrite (arrays_no_t_list _ _ Harr) in Hstack. done. }
  specialize (Hkey Hne). rewrite Hstack in Hkey. destruct Hkey as (d & Hd & Hout).
  destruct (compartment_outputs_parts _ _ _ _ _ _ Hd)
    as (bands & surge & peak_data & Hbands & Hpeak & -> & Hsurge & _).
  exists ((peak_data ∪ surge) ∪ bands), peak_data.
  split; [done|]. split; [done|]. split.
  - intros k v Hk. apply lookup_union_Some_l. by apply lookup_union_Some_l.
  - intros p Hp. split.
    + pose proof (band_loop_in_range _ _ _ _ Hbands) as Hrange.
      by apply (proj1 (Forall_forall _ _) Hrange).
    + rewrite lookup_union_r.
      * eapply band_loop_lookup; [exact Hbands | by left].
      * apply lookup_union_None. split.
        -- eapply peak_data_keys; [exact Hpeak|]. intros [rest E].
           cbn [String.app] in E. discriminate.
        -- apply Hsurge; intros E; cbn [String.app] in E; discriminate.
Qed.

Lemma policy_output_bands_and_peaks_witness :
  ∃ d peak_data,
    match _generate_output_for_suppression_policy [25; 75] Examples.three_runs with
    | Ok outputs => outputs
    | Raise _ => ∅
    end !! "HGen" = Some (ODict d) ∧
    _detect_peak_time_and_value [25; 75]
      [Examples.floats [1; 2; 3]; Examples.floats [2; 3; 4]; Examples.floats [3; 4; 5]]
      (t_list (Examples.hgen_run [1; 2; 3] 2))
      = Ok peak_data ∧
    (∀ k v, peak_data !! k = Some v → d !! k = Some v) ∧
    ∀ p, p ∈ [25; 75] →
      0 ≤ p ≤ 100 ∧
      d !! ("ci_" +:+ pretty p)
        = Some (VList (percentile_1d (inject_Z p) <$>
                         columns [Examples.floats [1; 2; 3]; Examples.floats [2; 3; 4];
                                  Examples.floats [3; 4; 5]])).
Proof.
  apply (policy_output_bands_and_peaks [25; 75] Examples.three_runs
           (match _generate_output_for_suppression_policy [25; 75] Examples.three_runs with
            | Ok outputs => outputs
            | Raise _ => ∅
            end)
           (Examples.hgen_run [1; 2; 3] 2)
           (match _generate_compartment_arrays Examples.three_runs with
            | Ok arrays => arrays
            | Raise _ => ∅
            end)
           "HGen").
  - apply ok_unwrap. vm_compute. reflexivity.
  - reflexivity.
  - apply ok_unwrap. vm_compute. reflexivity.
  - vm_compute. reflexivity.
Defined.

(** X9.  The dict of a compartment has a ['capacity'] entry, and a
    ['surge_start'] entry, exactly when the compartment is one of the three
    capacity-bound ones; the ['capacity'] entry lists the capacity
    attribute of every run, in order; no compartment has a ['surge_end']
    entry. *)
Theorem capacity_entries_iff_capacity_bound (output_percentiles : list Z)
    (model_ensemble : list SEIRModel) (outputs : gmap string outentry)
    (compartment : string) (d : gmap string outval) :
  _generate_output_for_suppression_policy output_percentiles model_ensemble = Ok outputs →
  outputs !! compartment = Some (ODict d) →
  (is_Some (d !! "capacity") ↔
   is_Some (compartment_to_capacity_attr_map !! compartment)) ∧
  (is_Some (d !! "surge_start") ↔
   is_Some (compartment_to_capacity_attr_map !! compartment)) ∧
  d !! "surge_end" = None ∧
  (∀ v, d !! "capacity" = Some v →
        ∃ capacity, v = VList capacity ∧
                    Forall2 (λ m c, capacity_of compartment m = Ok c)
                            model_ensemble capacity).
Proof.
  intros H Hout.
  destruct (policy_output_compartment _ _ _ compartment H)
    as (model0 & arrays & H0 & Harr & Hgrid & Hkey).
  assert (compartment ≠ "t_list") as Hne by (intros ->; congruence).
  specialize (Hkey Hne).
  destruct (arrays !! compartment) as [value_stack|]; [|congruence].
  destruct Hkey as (d' & Hd & Hout'). assert (d' = d) as -> by congruence.
  destruct (compartment_outputs_parts _ _ _ _ _ _ Hd)
    as (bands & surge & peak_data & Hbands & Hpeak & -> & Hsurge & Hnone & Hsome).
  assert (∀ k, (∀ rest, k ≠ "ci_" +:+ rest) → (∀ rest, k ≠ String "p" rest) →
               ((peak_data ∪ surge) ∪ bands) !! k = surge !! k) as Hlook.
  { intros k Hb Hp.
    rewrite lookup_union_l by (by eapply band_loop_keys).
    rewrite lookup_union_r; [done|]. eapply peak_data_keys; [exact Hpeak|].
    intros [rest ->]. by eapply Hp. }
  rewrite !Hlook by (intros rest E; cbn [String.app] in E; discriminate).
  destruct (compartment_to_capacity_attr_map !! compartment) as [attr|] eqn:Hattr.
  - destruct Hsome as (capacity & Hcapacity & Hc & Hs); [by eexists|].
    split; [split; by eauto|]. split; [split; by eauto|].
    split; [by apply Hsurge|].
    intros v Hv. rewrite Hc in Hv. injection Hv as <-. exists capacity.
    split; [done | by apply forM_Ok_inv].
  - rewrite (Hnone eq_refl), !lookup_empty.
    split; [split; by intros [? ?]|]. split; [split; by intros [? ?]|]. done.
Qed.

Lemma capacity_entries_iff_capacity_bound_witness :
  ∃ d,
    match _generate_output_for_suppression_policy [50]
            [Examples.hgen_hicu_run [1; 3; 1] [0; 0; 0] 2] with
    | Ok outputs => outputs
    | Raise _ => ∅
    end !! "HICU" = Some (ODict d) ∧
    (is_Some (d !! "capacity") ↔ is_Some (compartment_to_capacity_attr_map !! "HICU")) ∧
    (is_Some (d !! "surge_start") ↔ is_Some (compartment_to_capacity_attr_map !! "HICU")) ∧
    d !! "surge_end" = None ∧
    (∀ v, d !! "capacity" = Some v →
          ∃ capacity, v = VList capacity ∧
                      Forall2 (λ m c, capacity_of "HICU" m = Ok c)
                              [Examples.hgen_hicu_run [1; 3; 1] [0; 0; 0] 2] capacity).
Proof.
  destruct (match _generate_output_for_suppression_policy [50]
                    [Examples.hgen_hicu_run [1; 3; 1] [0; 0; 0] 2] with
            | Ok outputs => outputs
            | Raise _ => ∅
            end !! "HICU") as [[l|d]|] eqn:Hout;
    [vm_compute in Hout; discriminate | | vm_compute in Hout; discriminate].
  exists d. split; [reflexivity|].
  apply (capacity_entries_iff_capacity_bound [50]
           [Examples.hgen_hicu_run [1; 3; 1] [0; 0; 0] 2]
           (match _generate_output_for_suppression_policy [50]
                    [Examples.hgen_hicu_run [1; 3; 1] [0; 0; 0] 2] with
            | Ok outputs => outputs
            | Raise _ => ∅
            end) "HICU" d).
  - apply ok_unwrap. vm_compute. reflexivity.
  - exact Hout.
Defined.

(** X10.  A requested percentile outside [0, 100] makes the aggregation of
    a policy raise [ValueError] as soon as the stacked arrays have a
    compartment, whatever the runs hold. *)
Theorem out_of_range_percentile_raises (output_percentiles : list Z)
    (model_ensemble : list SEIRModel) (arrays : gmap string (list (list float)))
    (p : Z) :
  _generate_compartment_arrays model_ensemble = Ok arrays →
  arrays ≠ ∅ →
  p ∈ output_percentiles → ¬ (0 ≤ p ≤ 100) →
  _generate_output_for_suppression_policy output_percentiles model_ensemble
  = Raise ValueError.
Proof.
  intros Harr Hne Hp Hbad.
  unfold _generate_output_for_suppression_policy.
  destruct (list_getitem model_ensemble 0) as [model0|e] eqn:H0; cycle 1.
  { unfold _generate_compartment_arrays in Harr. by rewrite H0 in Harr. }
  simpl. rewrite Harr. simpl.
  assert (∀ key value_stack,
            compartment_outputs output_percentiles model_ensemble (t_list model0)
                                key value_stack = Raise ValueError) as Hbody.
  { intros key value_stack. unfold compartment_outputs.
    by rewrite (band_loop_out_of_range _ _ _ p Hp Hbad). }
  pose proof (dict_forM_spec
                (compartment_outputs output_percentiles model_ensemble (t_list model0))
                arrays) as S.
  destruct (dict_forM _ arrays) as [per|e].
  - exfalso. apply map_choose in Hne as (key & value_stack & Hkey).
    specialize (S key). rewrite Hkey in S. destruct S as (y & Hy & _).
    rewrite Hbody in Hy. done.
  - destruct S as (key & value_stack & _ & Hraise). rewrite Hbody in Hraise.
    by injection Hraise as <-.
Qed.

Lemma out_of_range_percentile_raises_witness :
  _generate_output_for_suppression_policy [50; 101] Examples.three_runs
  = Raise ValueError.
Proof.
  apply (out_of_range_percentile_raises [50; 101] Examples.three_runs
           (match _generate_compartment_arrays Examples.three_runs with
            | Ok arrays => arrays
            | Raise _ => ∅
            end) 101).
  - apply ok_unwrap. vm_compute. reflexivity.
  - intros E. assert (is_Some ((∅ : gmap string (list (list float))) !! "HGen")) as [? ?].
    { rewrite <- E. vm_compute. by eexists. }
    done.
  - right. left.
  - lia.
Defined.

(** X11.  The aggregation of a policy returns for every well-formed
    ensemble: a first run with a non-empty time grid, runs that all carry
    the kept compartments of the first with series as long as that grid
    and have grids of that length themselves, and percentiles within
    [0, 100]. *)
Theorem aggregation_returns (output_percentiles : list Z)
    (model_ensemble : list SEIRModel) (model0 : SEIRModel) :
  model_ensemble !! 0%nat = Some model0 →
  t_list model0 ≠ [] →
  (∀ m, m ∈ model_ensemble → length (t_list m) = length (t_list model0)) →
  (∀ key series0 m,
     results model0 !! key = Some series0 → str_contains "t_list" key = false →
     m ∈ model_ensemble →
     ∃ series, results m !! key = Some series ∧
               length series = length (t_list model0)) →
  Forall (λ p, 0 ≤ p ≤ 100) output_percentiles →
  returns (_generate_output_for_suppression_policy output_percentiles model_ensemble).
Proof.
  intros H0 Hgrid Hgrids Hshape Hps.
  assert (model0 ∈ model_ensemble) as Hm0 by (apply list_elem_of_lookup; eauto).
  destruct (generate_compartment_arrays_returns model_ensemble model0 H0)
    as [arrays Harr].
  { intros key series0 m Hkey Hkept Hm.
    unfold is_compartment_key in Hkept. rewrite negb_true_iff in Hkept.
    destruct (Hshape key series0 m Hkey Hkept Hm) as (series & Hseries & Hlen).
    destruct (Hshape key series0 model0 Hkey Hkept Hm0) as (series0' & Hseries0 & Hlen0).
    exists series. split; [done|]. congruence. }
  unfold _generate_output_for_suppression_policy, list_getitem. rewrite H0. simpl.
  rewrite Harr. simpl.
  destruct (dict_forM_returns
              (compartment_outputs output_percentiles model_ensemble (t_list model0))
              arrays) as [per Hper]; [|rewrite Hper; by eexists].
  intros key value_stack Hstack.
  destruct (generate_compartment_arrays_Ok _ _ _ _ Harr Hstack) as (Hrows & _).
  destruct (proj1 (generate_compartment_arrays_dom _ _ _ key Harr H0)) as [[series0 Hkey] Hkept];
    [by eexists|].
  unfold is_compartment_key in Hkept. rewrite negb_true_iff in Hkept.
  assert (∀ m, m ∈ model_ensemble →
               ∃ series, results m !! key = Some series ∧
                         length (t_list m) = length series) as Hwf.
  { intros m Hm. destruct (Hshape key series0 m Hkey Hkept Hm) as (series & Hs & Hl).
    exists series. split; [done|]. rewrite Hl. by apply Hgrids. }
  assert (∀ row, row ∈ value_stack → length row = length (t_list model0)) as Hrowlen.
  { intros row Hrow. apply list_elem_of_lookup in Hrow as [i Hi].
    destruct (Forall2_lookup_r _ _ _ _ _ Hrows Hi) as (m & Hm & Hmrow).
    destruct (Hshape key series0 m Hkey Hkept) as (series & Hs & Hl).
    { apply list_elem_of_lookup. eauto. }
    congruence. }
  unfold compartment_outputs.
  destruct (band_loop_returns output_percentiles value_stack ∅ Hps) as [bands ->].
  simpl.
  destruct (detect_peak_returns output_percentiles value_stack (t_list model0))
    as [peak_data Hpeak]; [| |done|].
  { apply Forall_forall. intros row Hrow ->. apply Hrowlen in Hrow.
    destruct (t_list model0); [done | simpl in Hrow; lia]. }
  { intros row idx Hrow Hargmax. apply argmax_Ok_lt in Hargmax as [_ Hlt].
    rewrite <- (Hrowlen row Hrow). done. }
  destruct (decide (is_Some (compartment_to_capacity_attr_map !! key))) as [Hcap|Hcap].
  - destruct (forM_surge_windows _ _ Hcap Hwf) as (windows & Hwin & _).
    unfold _get_surge_window. rewrite Hwin. simpl.
    destruct (forM_returns (capacity_of key) model_ensemble) as [capacity ->].
    { intros m _. destruct (capacity_of_total key m Hcap) as [c ->]. by eexists. }
    simpl. rewrite Hpeak. by eexists.
  - simpl. rewrite Hpeak. by eexists.
Qed.

Lemma aggregation_returns_witness :
  returns (_generate_output_for_suppression_policy [5; 25; 32; 50; 75; 68; 95]
             Examples.three_runs).
Proof.
  apply (aggregation_returns [5; 25; 32; 50; 75; 68; 95] Examples.three_runs
           (Examples.hgen_run [1; 2; 3] 2)).
  - reflexivity.
  - done.
  - intros m Hm. repeat (apply elem_of_cons in Hm as [->|Hm]; [reflexivity|]).
    by apply elem_of_nil in Hm.
  - intros key series0 m Hkey _ Hm.
    assert (key = "HGen") as ->.
    { destruct (decide (key = "HGen")) as [|Hne]; [done|].
      unfold Examples.hgen_run in Hkey. simpl in Hkey.
      rewrite lookup_singleton_ne in Hkey by done. done. }
    repeat (apply elem_of_cons in Hm as [->|Hm];
            [eexists; split; [vm_compute; reflexivity | reflexivity]|]).
    by apply elem_of_nil in Hm.
  - repeat constructor; lia.
Defined.

End PolicyOutput.

(** ** The percentile bands in the output of a policy *)

Section PercentileBands.
Import F64 Np EnsembleRunner Spec.

(** The band stored for a compartment and a requested percentile is the
    list of the percentiles of the columns of the compartment's array. *)
Lemma policy_output_band (output_percentiles : list Z)
    (model_ensemble : list SEIRModel) (outputs : gmap string outentry)
    (arrays : gmap string (list (list float)))
    (compartment : string) (value_stack : list (list float)) (p : Z) :
  _generate_output_for_suppression_policy output_percentiles model_ensemble = Ok outputs →
  _generate_compartment_arrays model_ensemble = Ok arrays →
  arrays !! compartment = Some value_stack →
  p ∈ output_percentiles →
  output_entry (Ok outputs) compartment ("ci_" +:+ pretty p)
  = Some (VList (percentile_1d (inject_Z p) <$> columns value_stack)).
Proof.
  intros H Harr Hstack Hp.
  destruct (policy_output_compartment _ _ _ compartment H)
    as (model0 & arrays' & H0 & Harr' & _ & Hkey).
  assert (arrays' = arrays) as -> by congruence.
  assert (compartment ≠ "t_list") as Hne.
  { intros ->. rewrite (arrays_no_t_list _ _ Harr) in Hstack. done. }
  specialize (Hkey Hne). rewrite Hstack in Hkey. destruct Hkey as (d & Hd & Hout).
  destruct (compartment_outputs_parts _ _ _ _ _ _ Hd)
    as (bands & surge & peak_data & Hbands & Hpeak & -> & Hsurge & _).
  unfold output_entry, returned_entry. rewrite Hout.
  rewrite lookup_union_r.
  - eapply band_loop_lookup; [exact Hbands | by left].
  - apply lookup_union_None. split.
    + eapply peak_data_keys; [exact Hpeak|]. intros [rest E].
      cbn [String.app] in E. discriminate.
    + apply Hsurge; intros E; cbn [String.app] in E; discriminate.
Qed.

(** C6.  In the output of a policy, the band ['ci_<p>'] of every kept
    compartment and every requested percentile has one value per timestep
    of the first run's series, and its value at a timestep is the
    percentile of the values the runs have at that timestep, whatever they
    have at others: the percentile is taken over the runs, column by
    column, and not over the timesteps of a run.  For the three runs
    [[1,2,3], [2,3,4], [3,4,5]] of one compartment the 50th-percentile band
    is the per-timestep median [2, 3, 4].  For the two runs [[1,5,9],
    [3,7,5]] it is [2, 6, 7], of three values, where the medians of the two
    runs are [5] and [5]. *)
Theorem percentile_band_columnwise :
  (∀ (output_percentiles : list Z) (model_ensemble : list SEIRModel)
     (outputs : gmap string outentry) (model0 : SEIRModel)
     (compartment : string) (series0 : list float) (p : Z),
     _generate_output_for_suppression_policy output_percentiles model_ensemble
       = Ok outputs →
     model_ensemble !! 0%nat = Some model0 →
     results model0 !! compartment = Some series0 →
     is_compartment_key compartment = true →
     p ∈ output_percentiles →
     ∃ band,
       output_entry (Ok outputs) compartment ("ci_" +:+ pretty p) = Some (VList band) ∧
       length band = length series0 ∧
       ∀ t, (t < length series0)%nat →
         band !! t
         = Some (percentile_1d (inject_Z p)
                   ((λ m, value_at m compartment t) <$> model_ensemble))) ∧
  (∃ band,
     output_entry (_generate_output_for_suppression_policy [50] Examples.three_runs)
                  "HGen" "ci_50" = Some (VList band) ∧
     Forall2 eqv band [Fin 2; Fin 3; Fin 4]) ∧
  (∃ band,
     output_entry (_generate_output_for_suppression_policy [50] MoreRuns.two_runs)
                  "HGen" "ci_50" = Some (VList band) ∧
     Forall2 eqv band [Fin 2; Fin 6; Fin 7] ∧
     Forall2 eqv (percentile_1d 50 <$> [Examples.floats [1; 5; 9]; Examples.floats [3; 7; 5]])
                 [Fin 5; Fin 5]).
Proof.
  split; [|split].
  - intros output_percentiles ens outputs model0 c series0 p H H0 Hseries Hkept Hp.
    destruct (policy_output_compartment _ _ _ c H)
      as (model0' & arrays & H0' & Harr & _ & _).
    destruct (proj2 (generate_compartment_arrays_dom _ _ _ c Harr H0))
      as [stack Hstack]; [split; [by eexists | done]|].
    destruct (generate_compartment_arrays_Ok _ _ _ _ Harr Hstack)
      as (Hrows & row0 & Hrow0 & _).
    destruct (Forall2_lookup_r _ _ _ _ _ Hrows Hrow0) as (m0 & Hm0 & Hm0row).
    assert (row0 = series0) as -> by congruence.
    eexists. split; [by eapply policy_output_band|].
    rewrite (columns_rectangular _ _ Hrow0), <- list_fmap_compose.
    split; [by rewrite length_fmap, length_seq|].
    intros t Ht. rewrite list_lookup_fmap, lookup_seq_lt by done. simpl.
    by rewrite (column_value_at _ _ _ t Hrows).
  - eexists. split; [vm_compute; reflexivity|].
    repeat constructor; reflexivity.
  - eexists. split; [vm_compute; reflexivity|]. split.
    + repeat constructor; reflexivity.
    + repeat constructor; reflexivity.
Qed.

Lemma percentile_band_columnwise_witness :
  ∃ band,
    output_entry
      (Ok (match _generate_output_for_suppression_policy [25; 75] MoreRuns.two_runs with
           | Ok outputs => outputs
           | Raise _ => ∅
           end))
      "HGen" ("ci_" +:+ pretty 75) = Some (VList band) ∧
    length band = length (Examples.floats [1; 5; 9]) ∧
    ∀ t, (t < length (Examples.floats [1%Z; 5%Z; 9%Z]))%nat →
      band !! t
      = Some (percentile_1d (inject_Z 75) ((λ m, value_at m "HGen" t) <$> MoreRuns.two_runs)).
Proof.
  apply (proj1 percentile_band_columnwise [25; 75] MoreRuns.two_runs
           (match _generate_output_for_suppression_policy [25; 75] MoreRuns.two_runs with
            | Ok outputs => outputs
            | Raise _ => ∅
            end)
           (Examples.hgen_run [1; 5; 9] 2) "HGen" (Examples.floats [1; 5; 9]) 75).
  - apply ok_unwrap. vm_compute. reflexivity.
  - reflexivity.
  - vm_compute. reflexivity.
  - vm_compute. reflexivity.
  - right. left.
Defined.

End PercentileBands.

(** ** The parameter sampler: regions, sample count, overrides, clamps *)

Section SamplerEdges.
Import F64 ParameterEnsembleGenerator Spec.

Lemma loc_to_dict_merge_left (county_metadata : list county_row)
    (hospital_bed_data : gmap string (gmap string float)) (fips : string) :
  loc_to_dict (merge_left county_metadata hospital_bed_data) fips
  = match list_find (λ row, county_fips row = fips) county_metadata with
    | Some (_, row) =>
        Ok (county_columns row ∪
            match hospital_bed_data !! fips with
            | Some cols => cols
            | None => unmatched_hospital_columns
            end)
    | None => Raise KeyError
    end.
Proof.
  unfold loc_to_dict, merge_left.
  induction county_metadata as [|row rows IH]; [done|].
  rewrite fmap_cons. simpl.
  destruct (decide (county_fips row = fips)) as [<-|Hne]; [done|].
  simpl in IH. destruct (list_find _ (_ <$> rows)) as [[i r]|];
    destruct (list_find _ rows) as [[i' r']|]; simpl in *; congruence.
Qed.

(** The constructor returns for a region of the metadata table, with the
    attributes it was given. *)
Lemma generator_init_returns {policy} (county_metadata : list county_row)
    (hospital_bed_data : list hospital_row)
    (fips : string) (N_samples : nat) (t_list : list float)
    (I_initial : Z) (suppression_policy : option policy) :
  fips ∈ county_fips <$> county_metadata →
  ∃ self, __init__ policy county_metadata hospital_bed_data fips N_samples t_list
                   I_initial suppression_policy = Ok self ∧
          ParameterEnsembleGenerator.N_samples policy self = N_samples.
Proof.
  intros Hin. unfold __init__. rewrite loc_to_dict_merge_left.
  destruct (list_find _ county_metadata) as [[i row]|] eqn:Hfind; simpl.
  - by eexists.
  - exfalso. apply list_elem_of_fmap in Hin as (row & -> & Hrow).
    apply list_find_None in Hfind.
    by apply (proj1 (Forall_forall _ _) Hfind row Hrow).
Qed.

(** X12.  The constructor of the generator raises [KeyError] for a region
    that is not in the county metadata table, and returns for every region
    that is. *)
Theorem generator_requires_known_region {policy} (county_metadata : list county_row)
    (hospital_bed_data : list hospital_row)
    (fips : string) (N_samples : nat) (t_list : list float)
    (I_initial : Z) (suppression_policy : option policy) :
  (fips ∈ county_fips <$> county_metadata →
   returns (__init__ policy county_metadata hospital_bed_data fips N_samples t_list
                     I_initial suppression_policy)) ∧
  (fips ∉ county_fips <$> county_metadata →
   __init__ policy county_metadata hospital_bed_data fips N_samples t_list
            I_initial suppression_policy = Raise KeyError).
Proof.
  split.
  - intros Hin.
    destruct (generator_init_returns county_metadata hospital_bed_data fips N_samples
                t_list I_initial suppression_policy Hin) as (self & -> & _).
    by eexists.
  - intros Hnot. unfold __init__. rewrite loc_to_dict_merge_left.
    destruct (list_find _ county_metadata) as [[i row]|] eqn:Hfind; simpl; [|done].
    exfalso. apply Hnot.
    apply list_find_Some in Hfind as (Hi & <- & _).
    apply list_elem_of_fmap. exists row. split; [done|]. by eapply list_elem_of_lookup_2.
Qed.

Lemma hospital_row_columns_keys (r : hospital_row) (k : string) :
  is_Some (unmatched_hospital_columns !! k) → is_Some (hospital_row_columns r !! k).
Proof.
  unfold unmatched_hospital_columns, hospital_row_columns. intros [v Hv].
  rewrite !lookup_insert_Some, lookup_empty in Hv.
  destruct Hv as [[<- _]|[_ [[<- _]|[_ [[<- _]|[_ [[<- _]|[_ [[<- _]|[_ ?]]]]]]]]]];
    [| | | | |done]; by eexists.
Qed.

(** Every group of the summed hospital table has the five hospital
    columns. *)
Lemma groupby_fips_sum_keys (hospital_bed_data : list hospital_row)
    (fips k : string) (cols : gmap string float) :
  groupby_fips_sum hospital_bed_data !! fips = Some cols →
  is_Some (unmatched_hospital_columns !! k) → is_Some (cols !! k).
Proof.
  unfold groupby_fips_sum. intros H Hk.
  assert (∀ groups,
            (∀ cols, groups !! fips = Some cols → is_Some (cols !! k)) →
            ∀ cols, foldl add_to_group groups hospital_bed_data !! fips = Some cols →
                    is_Some (cols !! k)) as Hinv.
  { clear H. induction hospital_bed_data as [|r rows IH]; intros groups Hg; [done|].
    simpl. apply IH. intros cols' Hcols'. unfold add_to_group in Hcols'.
    destruct (groups !! hospital_fips r) as [acc|] eqn:Hacc.
    - destruct (decide (hospital_fips r = fips)) as [Heq|Hne].
      + rewrite Heq, lookup_insert_eq in Hcols'. injection Hcols' as <-.
        rewrite lookup_union_with.
        destruct (hospital_row_columns_keys r k Hk) as [v ->].
        destruct (acc !! k); by eexists.
      + rewrite lookup_insert_ne in Hcols' by done. by apply Hg.
    - destruct (decide (hospital_fips r = fips)) as [Heq|Hne].
      + rewrite Heq, lookup_insert_eq in Hcols'. injection Hcols' as <-.
        rewrite lookup_fmap.
        destruct (hospital_row_columns_keys r k Hk) as [v ->]. by eexists.
      + rewrite lookup_insert_ne in Hcols' by done. by apply Hg. }
  eapply Hinv; [|exact H]. intros cols'. by rewrite lookup_empty.
Qed.

(** The capacity constants of a sample, from the merged dict. *)
Lemma sample_one_capacities {policy} (self : generator policy) (d : draws)
    (licensed utilization potential icu : float) :
  county_metadata_merged policy self !! "num_licensed_beds" = Some licensed →
  county_metadata_merged policy self !! "bed_utilization" = Some utilization →
  county_metadata_merged policy self !! "potential_increase_in_bed_capac" = Some potential →
  county_metadata_merged policy self !! "num_icu_beds" = Some icu →
  match sample_one policy self d with
  | Ok parameter_set =>
      parameter_set !! "beds_general"
        = Some (PNum policy (add (sub licensed utilization) potential)) ∧
      parameter_set !! "beds_ICU" = Some (PNum policy icu) ∧
      parameter_set !! "ventilators"
        = Some (PNum policy (mul icu (draw_ventilators_per_icu_bed d)))
  | Raise _ => True
  end.
Proof.
  intros Hl Hu Hp Hi. unfold sample_one.
  assert (dict_get (county_metadata_merged policy self) "num_licensed_beds" (Fin 0)
          = licensed) as -> by (unfold dict_get; by rewrite Hl).
  assert (dict_get (county_metadata_merged policy self) "bed_utilization" (Fin 0)
          = utilization) as -> by (unfold dict_get; by rewrite Hu).
  assert (dict_get (county_metadata_merged policy self)
                   "potential_increase_in_bed_capac" (Fin 0)
          = potential) as -> by (unfold dict_get; by rewrite Hp).
  assert (dict_get (county_metadata_merged policy self) "num_icu_beds" (Fin 0)
          = icu) as -> by (unfold dict_get; by rewrite Hi).
  destruct (dict_getitem _ "total_population") as [N|e]; [|exact I].
  destruct (py_truediv (mul _ _) _) as [A_initial|e]; [|exact I].
  destruct (py_truediv _ (draw_incubation_days d)) as [sigma|e]; [|exact I].
  destruct (py_truediv _ (draw_infectious_days d)) as [delta|e]; [|exact I].
  split; [|split]; reflexivity.
Qed.

(** Without an override, the sets returned are the sampled ones. *)
Lemma sample_without_override {policy} (self : generator policy) (rng : nat → draws)
    (parameter_sets : list (gmap string (pval policy))) :
  sample_seir_parameters policy self rng None = Ok parameter_sets →
  Forall2 (λ i parameter_set, sample_one policy self (rng i) = Ok parameter_set)
          (seq 0 (N_samples policy self)) parameter_sets.
Proof.
  unfold sample_seir_parameters. intros H.
  apply bind_Ok in H as (sets & Hsets & [= <-]).
  apply forM_Ok_inv in Hsets. simpl.
  assert ((λ parameter_set : gmap string (pval policy), dict_update parameter_set ∅)
            <$> sets = sets) as ->; [|done].
  rewrite <- (list_fmap_id sets) at 2. apply list_fmap_ext.
  intros i ps _. unfold dict_update. by rewrite (left_id_L ∅ (∪)).
Qed.

(** When the metadata table has no column named like a hospital column,
    the dict the constructor stores holds under each of the five hospital
    columns what the summed hospital table holds for the region, or the NaN
    of the left merge when the region is not in that table. *)
Lemma merged_hospital_column {policy} (county_metadata : list county_row)
    (hospital_bed_data : list hospital_row)
    (fips : string) (N_samples : nat) (t_list : list float)
    (I_initial : Z) (suppression_policy : option policy)
    (self : generator policy) (k : string) :
  (∀ row k, row ∈ county_metadata → is_Some (unmatched_hospital_columns !! k) →
            county_columns row !! k = None) →
  __init__ policy county_metadata hospital_bed_data fips N_samples t_list
           I_initial suppression_policy = Ok self →
  is_Some (unmatched_hospital_columns !! k) →
  ∃ v, county_metadata_merged policy self !! k = Some v ∧
       match groupby_fips_sum hospital_bed_data !! fips with
       | Some cols => cols
       | None => unmatched_hospital_columns
       end !! k = Some v.
Proof.
  intros Hschema Hinit Hk. unfold __init__ in Hinit.
  rewrite loc_to_dict_merge_left in Hinit.
  destruct (list_find _ county_metadata) as [[i row]|] eqn:Hfind; [|done].
  simpl in Hinit. injection Hinit as <-. simpl.
  apply list_find_Some in Hfind as (Hi & _ & _).
  rewrite lookup_union_r by (apply Hschema; [by eapply list_elem_of_lookup_2 | done]).
  destruct (groupby_fips_sum hospital_bed_data !! fips) as [cols|] eqn:Hcols.
  - destruct (groupby_fips_sum_keys _ _ k _ Hcols Hk) as [v Hv]. by exists v.
  - destruct Hk as [v Hv]. by exists v.
Qed.

(** X13.  When the metadata table has no column named like a hospital
    column, the dict the constructor stores has, whatever the region, the
    hospital columns of the merge (summed over the region's facilities, or
    NaN for a region without any), so the [get(..., 0)] of the sampler
    never fall back on their default: in every sampled set, [beds_ICU] is
    the merged ['num_icu_beds'], [beds_general] is ['num_licensed_beds']
    minus ['bed_utilization'] plus ['potential_increase_in_bed_capac'], and
    [ventilators] is ['num_icu_beds'] times the draw. *)
Theorem capacity_defaults_never_used {policy} (county_metadata : list county_row)
    (hospital_bed_data : list hospital_row)
    (fips : string) (N_samples : nat) (t_list : list float)
    (I_initial : Z) (suppression_policy : option policy)
    (self : generator policy) (rng : nat → draws)
    (parameter_sets : list (gmap string (pval policy))) :
  (∀ row k, row ∈ county_metadata → is_Some (unmatched_hospital_columns !! k) →
            county_columns row !! k = None) →
  __init__ policy county_metadata hospital_bed_data fips N_samples t_list
           I_initial suppression_policy = Ok self →
  sample_seir_parameters policy self rng None = Ok parameter_sets →
  ∃ licensed utilization potential icu,
    (match groupby_fips_sum hospital_bed_data !! fips with
     | Some cols => cols
     | None => unmatched_hospital_columns
     end !! "num_licensed_beds" = Some licensed ∧
     match groupby_fips_sum hospital_bed_data !! fips with
     | Some cols => cols
     | None => unmatched_hospital_columns
     end !! "bed_utilization" = Some utilization ∧
     match groupby_fips_sum hospital_bed_data !! fips with
     | Some cols => cols
     | None => unmatched_hospital_columns
     end !! "potential_increase_in_bed_capac" = Some potential ∧
     match groupby_fips_sum hospital_bed_data !! fips with
     | Some cols => cols
     | None => unmatched_hospital_columns
     end !! "num_icu_beds" = Some icu) ∧
    county_metadata_merged policy self !! "num_licensed_beds" = Some licensed ∧
    county_metadata_merged policy self !! "bed_utilization" = Some utilization ∧
    county_metadata_merged policy self !! "potential_increase_in_bed_capac"
      = Some potential ∧
    county_metadata_merged policy self !! "num_icu_beds" = Some icu ∧
    ∀ i parameter_set, parameter_sets !! i = Some parameter_set →
      parameter_set !! "beds_general"
        = Some (PNum policy (add (sub licensed utilization) potential)) ∧
      parameter_set !! "beds_ICU" = Some (PNum policy icu) ∧
      parameter_set !! "ventilators"
        = Some (PNum policy (mul icu (draw_ventilators_per_icu_bed (rng i)))).
Proof.
  intros Hschema Hinit Hsample.
  destruct (merged_hospital_column _ _ _ _ _ _ _ _ "num_licensed_beds" Hschema Hinit)
    as (licensed & Hl & Hl'); [by eexists|].
  destruct (merged_hospital_column _ _ _ _ _ _ _ _ "bed_utilization" Hschema Hinit)
    as (utilization & Hu & Hu'); [by eexists|].
  destruct (merged_hospital_column _ _ _ _ _ _ _ _ "potential_increase_in_bed_capac"
              Hschema Hinit) as (potential & Hp & Hp'); [by eexists|].
  destruct (merged_hospital_column _ _ _ _ _ _ _ _ "num_icu_beds" Hschema Hinit)
    as (icu & Hi & Hi'); [by eexists|].
  exists licensed, utilization, potential, icu.
  split; [done|]. split; [done|]. split; [done|]. split; [done|]. split; [done|].
  intros i parameter_set Hset.
  apply sample_without_override in Hsample.
  destruct (Forall2_lookup_r _ _ _ _ _ Hsample Hset) as (j & Hj & Hone).
  apply lookup_seq in Hj as [-> _]. simpl in Hone.
  pose proof (sample_one_capacities self (rng i) _ _ _ _ Hl Hu Hp Hi) as Hcap.
  by rewrite Hone in Hcap.
Qed.

Lemma capacity_defaults_never_used_witness :
  ∃ licensed utilization potential icu,
    (match groupby_fips_sum Examples.hospital_bed_data !! "06003" with
     | Some cols => cols
     | None => unmatched_hospital_columns
     end !! "num_licensed_beds" = Some licensed ∧
     match groupby_fips_sum Examples.hospital_bed_data !! "06003" with
     | Some cols => cols
     | None => unmatched_hospital_columns
     end !! "bed_utilization" = Some utilization ∧
     match groupby_fips_sum Examples.hospital_bed_data !! "06003" with
     | Some cols => cols
     | None => unmatched_hospital_columns
     end !! "potential_increase_in_bed_capac" = Some potential ∧
     match groupby_fips_sum Examples.hospital_bed_data !! "06003" with
     | Some cols => cols
     | None => unmatched_hospital_columns
     end !! "num_icu_beds" = Some icu) ∧
    county_metadata_merged unit (SamplerExamples.generator_for "06003") !! "num_licensed_beds"
      = Some licensed ∧
    county_metadata_merged unit (SamplerExamples.generator_for "06003") !! "bed_utilization"
      = Some utilization ∧
    county_metadata_merged unit (SamplerExamples.generator_for "06003")
      !! "potential_increase_in_bed_capac" = Some potential ∧
    county_metadata_merged unit (SamplerExamples.generator_for "06003") !! "num_icu_beds"
      = Some icu ∧
    ∀ i parameter_set, SamplerExamples.sampled_with "06003" None !! i = Some parameter_set →
      parameter_set !! "beds_general"
        = Some (PNum unit (add (sub licensed utilization) potential)) ∧
      parameter_set !! "beds_ICU" = Some (PNum unit icu) ∧
      parameter_set !! "ventilators"
        = Some (PNum unit (mul icu (draw_ventilators_per_icu_bed Examples.central_draws))).
Proof.
  apply (capacity_defaults_never_used
           Examples.county_metadata Examples.hospital_bed_data
           "06003" 2 (Examples.floats [0; 1; 2]) 1 None
           (SamplerExamples.generator_for "06003") (λ _, Examples.central_draws)
           (SamplerExamples.sampled_with "06003" None)).
  - intros row k Hrow [v Hv]. unfold unmatched_hospital_columns in Hv.
    rewrite !lookup_insert_Some, lookup_empty in Hv.
    repeat (apply elem_of_cons in Hrow as [->|Hrow];
            [destruct Hv as [[<- _]|[_ [[<- _]|[_ [[<- _]|[_ [[<- _]|[_ [[<- _]|[_ ?]]]]]]]]]];
               [reflexivity..|done]|]).
    by apply elem_of_nil in Hrow.
  - apply ok_unwrap. vm_compute. reflexivity.
  - apply ok_unwrap. vm_compute. reflexivity.
Defined.

Lemma py_truediv_returns (x y : float) :
  returns (py_truediv x y) ↔ ¬ eqv y (Fin 0).
Proof.
  unfold py_truediv, eqv. destruct y as [b| | |]; [|split; [tauto | by eexists]..].
  destruct (Qeq_bool b 0) eqn:Hb.
  - apply Qeq_bool_iff in Hb. split; [by intros [? ?] | tauto].
  - split; [|by eexists]. intros _ Hb'. apply Qeq_bool_iff in Hb'. congruence.
Qed.

Lemma py_truediv_Raise (x y : float) (e : exn) :
  py_truediv x y = Raise e → e = ZeroDivisionError.
Proof.
  unfold py_truediv. destruct y as [b| | |]; [|congruence..].
  destruct (Qeq_bool b 0); congruence.
Qed.

Lemma one_minus_zero (f : float) : eqv (sub (Fin 1) f) (Fin 0) ↔ eqv f (Fin 1).
Proof.
  destruct f as [q| | |]; try done. unfold sub, opp, add, eqv. split; intros H; lra.
Qed.

(** One iteration returns exactly when the stored dict has the
    ['total_population'] column and none of the three divisors is zero. *)
Lemma sample_one_returns_iff {policy} (self : generator policy) (d : draws) :
  returns (sample_one policy self d) ↔
  is_Some (county_metadata_merged policy self !! "total_population") ∧
  SamplerSpec.divisors_nonzero d.
Proof.
  unfold SamplerSpec.divisors_nonzero. rewrite <- (one_minus_zero (draw_fraction_asymptomatic d)).
  rewrite <- (py_truediv_returns (Fin 1) (draw_incubation_days d)).
  rewrite <- (py_truediv_returns (Fin 1) (draw_infectious_days d)).
  rewrite <- (py_truediv_returns
                (mul (draw_fraction_asymptomatic d) (of_Z (I_initial policy self)))
                (sub (Fin 1) (draw_fraction_asymptomatic d))).
  unfold sample_one, dict_getitem.
  destruct (county_metadata_merged policy self !! "total_population") as [N|].
  - destruct (py_truediv (mul _ _) _) as [A_initial|e1];
      [|split; [by intros [? ?] | by intros (_ & _ & _ & [? ?])]].
    destruct (py_truediv _ (draw_incubation_days d)) as [sigma|e2];
      [|split; [by intros [? ?] | by intros (_ & [? ?] & _)]].
    destruct (py_truediv _ (draw_infectious_days d)) as [delta|e3];
      [|split; [by intros [? ?] | by intros (_ & _ & [? ?] & _)]].
    split; [intros _ | intros _; eexists; reflexivity].
    split; [by eexists|]. split; [by eexists|]. split; by eexists.
  - split; [by intros [? ?] | by intros [[? ?] _]].
Qed.

(** What one iteration raises: [KeyError] without the ['total_population']
    column, [ZeroDivisionError] with it. *)
Lemma sample_one_Raise {policy} (self : generator policy) (d : draws) (e : exn) :
  sample_one policy self d = Raise e →
  match county_metadata_merged policy self !! "total_population" with
  | Some _ => e = ZeroDivisionError
  | None => e = KeyError
  end.
Proof.
  unfold sample_one, dict_getitem.
  destruct (county_metadata_merged policy self !! "total_population") as [N|];
    [|by intros [= <-]].
  destruct (py_truediv (mul _ _) _) as [A_initial|e1] eqn:H1;
    [|intros [= <-]; by eapply py_truediv_Raise].
  destruct (py_truediv _ (draw_incubation_days d)) as [sigma|e2] eqn:H2;
    [|intros [= <-]; by eapply py_truediv_Raise].
  destruct (py_truediv _ (draw_infectious_days d)) as [delta|e3] eqn:H3;
    [|intros [= <-]; by eapply py_truediv_Raise].
  intros H. exfalso. revert H. change (?x = Raise e → False) with (x ≠ Raise e).
  discriminate.
Qed.

(** X14.  [sample_seir_parameters] returns exactly when no sample is asked
    for, or the stored dict has the ['total_population'] column and no
    iteration draws a zero divisor (incubation days, infectious days, one
    minus the asymptomatic fraction).  When it returns, there are exactly
    [N_samples] parameter sets.  When it raises, it raises [KeyError]
    without the ['total_population'] column, and [ZeroDivisionError] with
    it. *)
Theorem sample_count {policy} (self : generator policy) (rng : nat → draws)
    (override_params : option (gmap string (pval policy))) :
  (returns (sample_seir_parameters policy self rng override_params) ↔
   N_samples policy self = 0%nat ∨
   (is_Some (county_metadata_merged policy self !! "total_population") ∧
    ∀ i, (i < N_samples policy self)%nat → SamplerSpec.divisors_nonzero (rng i))) ∧
  (∀ parameter_sets,
     sample_seir_parameters policy self rng override_params = Ok parameter_sets →
     length parameter_sets = N_samples policy self) ∧
  (∀ e, sample_seir_parameters policy self rng override_params = Raise e →
        match county_metadata_merged policy self !! "total_population" with
        | Some _ => e = ZeroDivisionError
        | None => e = KeyError
        end).
Proof.
  unfold sample_seir_parameters.
  split; [split|split].
  - intros [sets H]. apply bind_Ok in H as (sets0 & H & _).
    apply forM_Ok_inv in H.
    destruct (N_samples policy self) as [|n] eqn:HN; [by left|]. right.
    assert (∀ i, (i < S n)%nat →
                 is_Some (county_metadata_merged policy self !! "total_population") ∧
                 SamplerSpec.divisors_nonzero (rng i)) as Hall.
    { intros i Hi.
      destruct (Forall2_lookup_l _ _ _ i i H) as (ps & _ & Hps);
        [by apply lookup_seq_lt|].
      apply sample_one_returns_iff. by exists ps. }
    split; [apply (Hall 0%nat); lia | intros i Hi; by apply Hall].
  - intros [Hzero|[HN Hdiv]].
    + rewrite Hzero. simpl. by eexists.
    + destruct (forM_returns (λ i, sample_one policy self (rng i))
                  (seq 0 (N_samples policy self))) as [sets ->]; [|by eexists].
      intros i Hi. apply elem_of_seq in Hi.
      apply sample_one_returns_iff. split; [done|]. apply Hdiv. lia.
  - intros sets H. apply bind_Ok in H as (sets0 & H & [= <-]).
    apply forM_Ok_inv, Forall2_length in H.
    rewrite length_fmap, <- H. apply length_seq.
  - intros e H. apply bind_Raise in H as [H | (sets0 & _ & H)]; [|done].
    apply forM_Raise_inv in H as (i & _ & H). by apply sample_one_Raise in H.
Qed.

Lemma sample_count_witness :
  returns (sample_seir_parameters unit (SamplerExamples.generator_for "06075")
             (λ _, Examples.central_draws) None).
Proof.
  apply (proj2 (proj1 (sample_count (SamplerExamples.generator_for "06075")
                         (λ _, Examples.central_draws) None))).
  right. split; [vm_compute; by eexists|].
  intros i _. unfold SamplerSpec.divisors_nonzero, Examples.central_draws, eqv. simpl.
  split; [|split]; intros H; compute in H; discriminate.
Defined.

(** The example region: two samples are asked for, and two sets returned;
    with an incubation period drawn as zero, the inversion raises. *)
Example sample_count_example :
  length (SamplerExamples.sampled_with "06075" None) = 2%nat ∧
  N_samples unit (SamplerExamples.generator_for "06075") = 2%nat ∧
  sample_seir_parameters unit (SamplerExamples.generator_for "06075")
    (λ _, SamplerExamples.zero_incubation_draws) None = Raise ZeroDivisionError.
Proof. split; [|split]; vm_compute; reflexivity. Qed.

(** X15.  Overriding is a dict update of every sampled set: the draws are
    those of the call without override, every key of [override_params] is
    stored with the given value in every set (whether or not the sampler
    knows the key), and every other key keeps its sampled value. *)
Theorem override_replaces_verbatim {policy} (self : generator policy) (rng : nat → draws)
    (override_params : gmap string (pval policy))
    (parameter_sets : list (gmap string (pval policy))) :
  sample_seir_parameters policy self rng (Some override_params) = Ok parameter_sets →
  ∃ sampled,
    sample_seir_parameters policy self rng None = Ok sampled ∧
    length parameter_sets = length sampled ∧
    ∀ i parameter_set sampled_set,
      parameter_sets !! i = Some parameter_set → sampled !! i = Some sampled_set →
      ∀ k, parameter_set !! k
           = match override_params !! k with
             | Some v => Some v
             | None => sampled_set !! k
             end.
Proof.
  unfold sample_seir_parameters. intros H.
  apply bind_Ok in H as (sets & Hsets & [= <-]). rewrite Hsets. simpl.
  eexists. split; [done|]. rewrite !length_fmap. split; [done|].
  intros i ps base Hps Hbase k.
  rewrite list_lookup_fmap in Hps, Hbase.
  destruct (sets !! i) as [s|]; [|done]. simpl in Hps, Hbase.
  injection Hps as <-. injection Hbase as <-.
  unfold dict_update. rewrite (left_id_L ∅ (∪)), lookup_union.
  destruct (override_params !! k), (s !! k); done.
Qed.

Lemma override_replaces_verbatim_witness :
  ∃ sampled,
    sample_seir_parameters unit (SamplerExamples.generator_for "06075")
      (λ _, Examples.central_draws) None = Ok sampled ∧
    length (SamplerExamples.sampled_with "06075" (Some SamplerExamples.override_R0_beds))
      = length sampled ∧
    ∀ i parameter_set sampled_set,
      SamplerExamples.sampled_with "06075" (Some SamplerExamples.override_R0_beds) !! i
        = Some parameter_set →
      sampled !! i = Some sampled_set →
      ∀ k, parameter_set !! k
           = match SamplerExamples.override_R0_beds !! k with
             | Some v => Some v
             | None => sampled_set !! k
             end.
Proof.
  apply (override_replaces_verbatim
           (SamplerExamples.generator_for "06075") (λ _, Examples.central_draws)
           SamplerExamples.override_R0_beds
           (SamplerExamples.sampled_with "06075" (Some SamplerExamples.override_R0_beds))).
  apply ok_unwrap. vm_compute. reflexivity.
Defined.

(** An override of [R0] and [beds_ICU] on the example. *)
Example override_example :
  (SamplerExamples.sampled_with "06075" (Some SamplerExamples.override_R0_beds) !! 1%nat ≫= (.!! "R0"))
    = Some (PNum unit (Fin 2)) ∧
  (SamplerExamples.sampled_with "06075" (Some SamplerExamples.override_R0_beds) !! 1%nat
     ≫= (.!! "beds_ICU")) = Some (PNum unit (Fin 10)) ∧
  (SamplerExamples.sampled_with "06075" None !! 1%nat ≫= (.!! "R0"))
    = Some (PNum unit (Fin (375 # 100))).
Proof. split; [|split]; vm_compute; reflexivity. Qed.

Lemma py_max_zero (x : float) :
  ltb (py_max x (Fin 0)) (Fin 0) = false ∧
  (ltb x (Fin 0) = true → py_max x (Fin 0) = Fin 0) ∧
  (ltb x (Fin 0) = false → py_max x (Fin 0) = x).
Proof.
  unfold py_max, gtb.
  destruct (ltb x (Fin 0)) eqn:Hx; (split; [|split]); try done.
Qed.

Lemma sample_one_clamped {policy} (self : generator policy) (d : draws) :
  match sample_one policy self d with
  | Ok parameter_set =>
      parameter_set !! "hospitalization_rate_icu"
        = Some (PNum policy
                  (py_max (mul (draw_icu_given_hospitalized d)
                               (draw_hospitalization_rate_general d)) (Fin 0))) ∧
      parameter_set !! "fraction_icu_requiring_ventilator"
        = Some (PNum policy (py_max (draw_fraction_icu_requiring_ventilator d) (Fin 0)))
  | Raise _ => True
  end.
Proof.
  unfold sample_one.
  destruct (dict_getitem _ "total_population") as [N|e]; [|exact I].
  destruct (py_truediv (mul _ _) _) as [A_initial|e]; [|exact I].
  destruct (py_truediv _ (draw_incubation_days d)) as [sigma|e]; [|exact I].
  destruct (py_truediv _ (draw_infectious_days d)) as [delta|e]; [|exact I].
  split; reflexivity.
Qed.

(** X16.  In every sampled set (without override) the ICU hospitalisation
    rate and the fraction of ICU patients requiring a ventilator are never
    below zero: each is its draw when the draw is not negative, and zero
    when it is. *)
Theorem sampled_rates_not_negative {policy} (self : generator policy) (rng : nat → draws)
    (parameter_sets : list (gmap string (pval policy))) :
  sample_seir_parameters policy self rng None = Ok parameter_sets →
  ∀ i parameter_set, parameter_sets !! i = Some parameter_set →
    ∃ rate fraction,
      parameter_set !! "hospitalization_rate_icu" = Some (PNum policy rate) ∧
      parameter_set !! "fraction_icu_requiring_ventilator" = Some (PNum policy fraction) ∧
      ltb rate (Fin 0) = false ∧ ltb fraction (Fin 0) = false ∧
      (let drawn := mul (draw_icu_given_hospitalized (rng i))
                        (draw_hospitalization_rate_general (rng i)) in
       rate = if ltb drawn (Fin 0) then Fin 0 else drawn) ∧
      (let drawn := draw_fraction_icu_requiring_ventilator (rng i) in
       fraction = if ltb drawn (Fin 0) then Fin 0 else drawn).
Proof.
  intros Hsample i parameter_set Hset.
  apply sample_without_override in Hsample.
  destruct (Forall2_lookup_r _ _ _ _ _ Hsample Hset) as (j & Hj & Hone).
  apply lookup_seq in Hj as [-> _]. simpl in Hone.
  pose proof (sample_one_clamped self (rng i)) as Hcl. rewrite Hone in Hcl.
  destruct Hcl as [Hrate Hfraction].
  eexists _, _. split; [exact Hrate|]. split; [exact Hfraction|].
  split; [apply py_max_zero|]. split; [apply py_max_zero|].
  cbv zeta. split.
  - destruct (ltb (mul _ _) (Fin 0)) eqn:Hx; by apply py_max_zero.
  - destruct (ltb (draw_fraction_icu_requiring_ventilator (rng i)) (Fin 0)) eqn:Hx;
      by apply py_max_zero.
Qed.

Lemma sampled_rates_not_negative_witness :
  ∃ rate fraction,
    SamplerExamples.first_sampled_with_draws "06075" SamplerExamples.negative_draws
      !! "hospitalization_rate_icu" = Some (PNum unit rate) ∧
    SamplerExamples.first_sampled_with_draws "06075" SamplerExamples.negative_draws
      !! "fraction_icu_requiring_ventilator" = Some (PNum unit fraction) ∧
    ltb rate (Fin 0) = false ∧ ltb fraction (Fin 0) = false ∧
    (let drawn := mul (draw_icu_given_hospitalized SamplerExamples.negative_draws)
                      (draw_hospitalization_rate_general SamplerExamples.negative_draws) in
     rate = if ltb drawn (Fin 0) then Fin 0 else drawn) ∧
    (let drawn := draw_fraction_icu_requiring_ventilator SamplerExamples.negative_draws in
     fraction = if ltb drawn (Fin 0) then Fin 0 else drawn).
Proof.
  refine (sampled_rates_not_negative
            (SamplerExamples.generator_for "06075") (λ _, SamplerExamples.negative_draws)
            (SamplerExamples.sampled_with_draws "06075" SamplerExamples.negative_draws)
            _ 0%nat
            (SamplerExamples.first_sampled_with_draws "06075" SamplerExamples.negative_draws) _).
  - apply ok_unwrap. vm_compute. reflexivity.
  - unfold SamplerExamples.first_sampled_with_draws.
    destruct (SamplerExamples.sampled_with_draws "06075" SamplerExamples.negative_draws !! 0%nat)
      eqn:Hset; [reflexivity|].
    apply lookup_ge_None in Hset. vm_compute in Hset. lia.
Defined.

(** With negative draws both rates are stored as zero. *)
Example negative_draws_are_clamped :
  (SamplerExamples.sampled_with_draws "06075" SamplerExamples.negative_draws !! 0%nat
     ≫= (.!! "hospitalization_rate_icu")) = Some (PNum unit (Fin 0)) ∧
  (SamplerExamples.sampled_with_draws "06075" SamplerExamples.negative_draws !! 0%nat
     ≫= (.!! "fraction_icu_requiring_ventilator")) = Some (PNum unit (Fin 0)).
Proof. split; vm_compute; reflexivity. Qed.

(** The summed hospital table holds, for a region with facilities whose
    column [name] is a number everywhere, the sum of the column over the
    region's facilities. *)
Lemma groupby_fips_sum_total (hospital_bed_data : list hospital_row)
    (fips name : string) (col : hospital_row → float) :
  (∀ r, hospital_row_columns r !! name = Some (col r)) →
  Forall (λ r, hospital_fips r = fips → finite (col r)) hospital_bed_data →
  match groupby_fips_sum hospital_bed_data !! fips with
  | Some cols =>
      ∃ q, cols !! name = Some (Fin q) ∧
           (q == SamplerSpec.facility_total col fips hospital_bed_data)%Q
  | None => ∀ r, r ∈ hospital_bed_data → hospital_fips r ≠ fips
  end.
Proof.
  intros Hcol Hfin. unfold groupby_fips_sum.
  assert (∀ groups q0,
            match groups !! fips with
            | Some cols => ∃ q, cols !! name = Some (Fin q) ∧ (q == q0)%Q
            | None => (q0 == 0)%Q
            end →
            match foldl add_to_group groups hospital_bed_data !! fips with
            | Some cols =>
                ∃ q, cols !! name = Some (Fin q) ∧
                     (q == q0 + SamplerSpec.facility_total col fips hospital_bed_data)%Q
            | None =>
                groups !! fips = None ∧
                ∀ r, r ∈ hospital_bed_data → hospital_fips r ≠ fips
            end) as Hinv.
  { induction Hfin as [|r rows Hr _ IH]; intros groups q0 Hg.
    - simpl. unfold SamplerSpec.facility_total. simpl.
      destruct (groups !! fips) as [cols|].
      + destruct Hg as (q & Hq & Hq0). exists q. split; [done|]. lra.
      + split; [done|]. intros r Hr. by apply elem_of_nil in Hr.
    - simpl. destruct (decide (hospital_fips r = fips)) as [Heq|Hne].
      + specialize (Hr Heq). apply finite_Fin in Hr.
        specialize (IH (add_to_group groups r) (q0 + value (col r))%Q).
        assert (SamplerSpec.facility_total col fips (r :: rows)
                = (value (col r) + SamplerSpec.facility_total col fips rows)%Q) as Htot.
        { unfold SamplerSpec.facility_total. rewrite filter_cons_True by done. done. }
        rewrite Htot.
        assert (match add_to_group groups r !! fips with
                | Some cols =>
                    ∃ q, cols !! name = Some (Fin q) ∧ (q == q0 + value (col r))%Q
                | None => False
                end) as Hstep.
        { unfold add_to_group. rewrite Heq.
          destruct (groups !! fips) as [acc|].
          - destruct Hg as (q & Hq & Hq0). rewrite lookup_insert_eq.
            exists (q + value (col r))%Q. split; [|lra].
            rewrite lookup_union_with, Hq, Hcol, Hr. done.
          - rewrite lookup_insert_eq. exists (value (col r)). split; [|lra].
            rewrite lookup_fmap, Hcol, Hr. done. }
        destruct (add_to_group groups r !! fips) as [cols1|] eqn:Hg1; [|done].
        specialize (IH Hstep).
        destruct (foldl add_to_group (add_to_group groups r) rows !! fips) as [cols|].
        * destruct IH as (q & Hq & Hsum). exists q. split; [done|]. lra.
        * by destruct IH.
      + assert (add_to_group groups r !! fips = groups !! fips) as Hsame.
        { unfold add_to_group.
          destruct (groups !! hospital_fips r); by rewrite lookup_insert_ne. }
        specialize (IH (add_to_group groups r) q0). rewrite Hsame in IH.
        specialize (IH Hg).
        assert (SamplerSpec.facility_total col fips (r :: rows)
                = SamplerSpec.facility_total col fips rows) as ->.
        { unfold SamplerSpec.facility_total. by rewrite filter_cons_False. }
        destruct (foldl add_to_group (add_to_group groups r) rows !! fips) as [cols|];
          [done|].
        destruct IH as [Hnone Hrows]. split; [done|].
        intros r' Hr'. apply elem_of_cons in Hr' as [->|Hr']; [done | by apply Hrows]. }
  specialize (Hinv ∅ 0%Q). rewrite lookup_empty in Hinv.
  specialize (Hinv ltac:(reflexivity)).
  destruct (foldl add_to_group ∅ hospital_bed_data !! fips) as [cols|].
  - destruct Hinv as (q & Hq & Hsum). exists q. split; [done|]. lra.
  - by destruct Hinv.
Qed.

(** X17.  For a region with facilities in the hospital table whose columns
    are numbers (the metadata table having no column named like a hospital
    column), the capacities of every sampled set are totals over the
    region's facilities: [beds_ICU] is the sum of their ICU beds,
    [beds_general] the sum of their licensed beds minus the sum of their
    bed utilisations plus the sum of their potential increases, and
    [ventilators] is [beds_ICU] times the draw. *)
Theorem matched_region_capacities_are_totals {policy}
    (county_metadata : list county_row)
    (hospital_bed_data : list hospital_row)
    (fips : string) (N_samples : nat) (t_list : list float)
    (I_initial : Z) (suppression_policy : option policy)
    (self : generator policy) (rng : nat → draws)
    (parameter_sets : list (gmap string (pval policy))) :
  (∀ row k, row ∈ county_metadata → is_Some (unmatched_hospital_columns !! k) →
            county_columns row !! k = None) →
  (∃ r, r ∈ hospital_bed_data ∧ hospital_fips r = fips) →
  Forall (λ r, hospital_fips r = fips →
               finite (num_licensed_beds r) ∧ finite (num_icu_beds r) ∧
               finite (bed_utilization r) ∧
               finite (potential_increase_in_bed_capac r)) hospital_bed_data →
  __init__ policy county_metadata hospital_bed_data fips N_samples t_list
           I_initial suppression_policy = Ok self →
  sample_seir_parameters policy self rng None = Ok parameter_sets →
  ∃ beds icu : Q,
    (icu == SamplerSpec.facility_total num_icu_beds fips hospital_bed_data)%Q ∧
    (beds == SamplerSpec.facility_total num_licensed_beds fips hospital_bed_data
             - SamplerSpec.facility_total bed_utilization fips hospital_bed_data
             + SamplerSpec.facility_total potential_increase_in_bed_capac fips
                 hospital_bed_data)%Q ∧
    ∀ i parameter_set, parameter_sets !! i = Some parameter_set →
      parameter_set !! "beds_general" = Some (PNum policy (Fin beds)) ∧
      parameter_set !! "beds_ICU" = Some (PNum policy (Fin icu)) ∧
      parameter_set !! "ventilators"
        = Some (PNum policy (mul (Fin icu) (draw_ventilators_per_icu_bed (rng i)))).
Proof.
  intros Hschema (r0 & Hr0 & Hfips0) Hfin Hinit Hsample.
  assert (∀ name col,
            is_Some (unmatched_hospital_columns !! name) →
            (∀ r, hospital_row_columns r !! name = Some (col r)) →
            (∀ r, r ∈ hospital_bed_data → hospital_fips r = fips → finite (col r)) →
            ∃ q, county_metadata_merged policy self !! name = Some (Fin q) ∧
                 (q == SamplerSpec.facility_total col fips hospital_bed_data)%Q) as Hcolumn.
  { intros name col Hname Hcol Hcolfin.
    pose proof (groupby_fips_sum_total hospital_bed_data fips name col Hcol) as Htot.
    unfold __init__ in Hinit. rewrite loc_to_dict_merge_left in Hinit.
    destruct (list_find _ county_metadata) as [[i row]|] eqn:Hfind; [|done].
    simpl in Hinit. injection Hinit as <-. simpl.
    apply list_find_Some in Hfind as (Hi & _ & _).
    destruct (groupby_fips_sum hospital_bed_data !! fips) as [cols|].
    - destruct Htot as (q & Hq & Hsum); [by apply Forall_forall|].
      exists q. split; [|done]. rewrite lookup_union_r; [done|].
      apply Hschema; [by eapply list_elem_of_lookup_2 | done].
    - exfalso. eapply Htot; [by apply Forall_forall | exact Hr0 | done]. }
  rewrite Forall_forall in Hfin.
  destruct (Hcolumn "num_licensed_beds" num_licensed_beds) as (ql & Hl & Hsl);
    [by eexists | done | intros r Hr Hf; by apply (Hfin r Hr Hf) |].
  destruct (Hcolumn "bed_utilization" bed_utilization) as (qu & Hu & Hsu);
    [by eexists | done | intros r Hr Hf; by apply (Hfin r Hr Hf) |].
  destruct (Hcolumn "potential_increase_in_bed_capac" potential_increase_in_bed_capac)
    as (qp & Hp & Hsp);
    [by eexists | done | intros r Hr Hf; by apply (Hfin r Hr Hf) |].
  destruct (Hcolumn "num_icu_beds" num_icu_beds) as (qi & Hi & Hsi);
    [by eexists | done | intros r Hr Hf; by apply (Hfin r Hr Hf) |].
  exists (ql + - qu + qp)%Q, qi. split; [done|]. split; [lra|].
  intros i parameter_set Hset.
  apply sample_without_override in Hsample.
  destruct (Forall2_lookup_r _ _ _ _ _ Hsample Hset) as (j & Hj & Hone).
  apply lookup_seq in Hj as [-> _]. simpl in Hone.
  pose proof (sample_one_capacities self (rng i) _ _ _ _ Hl Hu Hp Hi) as Hcap.
  by rewrite Hone in Hcap.
Qed.

Lemma matched_region_capacities_are_totals_witness :
  ∃ beds icu : Q,
    (icu == SamplerSpec.facility_total num_icu_beds "06075" Examples.hospital_bed_data)%Q ∧
    (beds == SamplerSpec.facility_total num_licensed_beds "06075" Examples.hospital_bed_data
             - SamplerSpec.facility_total bed_utilization "06075" Examples.hospital_bed_data
             + SamplerSpec.facility_total potential_increase_in_bed_capac "06075"
                 Examples.hospital_bed_data)%Q ∧
    ∀ i parameter_set, SamplerExamples.sampled_with "06075" None !! i = Some parameter_set →
      parameter_set !! "beds_general" = Some (PNum unit (Fin beds)) ∧
      parameter_set !! "beds_ICU" = Some (PNum unit (Fin icu)) ∧
      parameter_set !! "ventilators"
        = Some (PNum unit (mul (Fin icu)
                               (draw_ventilators_per_icu_bed Examples.central_draws))).
Proof.
  apply (matched_region_capacities_are_totals
           Examples.county_metadata Examples.hospital_bed_data
           "06075" 2 (Examples.floats [0; 1; 2]) 1 None
           (SamplerExamples.generator_for "06075") (λ _, Examples.central_draws)
           (SamplerExamples.sampled_with "06075" None)).
  - intros row k Hrow [v Hv]. unfold unmatched_hospital_columns in Hv.
    rewrite !lookup_insert_Some, lookup_empty in Hv.
    repeat (apply elem_of_cons in Hrow as [->|Hrow];
            [destruct Hv as [[<- _]|[_ [[<- _]|[_ [[<- _]|[_ [[<- _]|[_ [[<- _]|[_ ?]]]]]]]]]];
               [reflexivity..|done]|]).
    by apply elem_of_nil in Hrow.
  - eexists. split; [left | reflexivity].
  - repeat constructor.
  - apply ok_unwrap. vm_compute. reflexivity.
  - apply ok_unwrap. vm_compute. reflexivity.
Defined.

(** The totals of the two facilities of region 06075: 60 ICU beds, and
    800 - 1.3 + 150 general beds. *)
Example matched_region_totals_example :
  (SamplerSpec.facility_total num_icu_beds "06075" Examples.hospital_bed_data == 60)%Q ∧
  (SamplerSpec.facility_total num_licensed_beds "06075" Examples.hospital_bed_data
   - SamplerSpec.facility_total bed_utilization "06075" Examples.hospital_bed_data
   + SamplerSpec.facility_total potential_increase_in_bed_capac "06075"
       Examples.hospital_bed_data == 9487 # 10)%Q.
Proof. split; vm_compute; reflexivity. Qed.

Lemma py_truediv_Ok (x y v : float) : py_truediv x y = Ok v → v = div x y.
Proof.
  unfold py_truediv. destruct y as [b| | |]; [|congruence..].
  destruct (Qeq_bool b 0); congruence.
Qed.

Lemma sample_one_initial_infections {policy} (self : generator policy) (d : draws) :
  match sample_one policy self d with
  | Ok parameter_set =>
      parameter_set !! "A_initial"
        = Some (PNum policy
                  (div (mul (draw_fraction_asymptomatic d) (of_Z (I_initial policy self)))
                       (sub (Fin 1) (draw_fraction_asymptomatic d)))) ∧
      parameter_set !! "I_initial" = Some (PNum policy (of_Z (I_initial policy self))) ∧
      parameter_set !! "gamma" = Some (PNum policy (draw_fraction_asymptomatic d))
  | Raise _ => True
  end.
Proof.
  unfold sample_one.
  destruct (dict_getitem _ "total_population") as [N|e]; [|exact I].
  destruct (py_truediv (mul _ _) _) as [A_initial|e] eqn:HA; [|exact I].
  destruct (py_truediv _ (draw_incubation_days d)) as [sigma|e]; [|exact I].
  destruct (py_truediv _ (draw_infectious_days d)) as [delta|e]; [|exact I].
  apply py_truediv_Ok in HA as ->.
  split; [|split]; reflexivity.
Qed.

(** X26.  When the asymptomatic fraction drawn is a number [f] with
    [0 <= f < 1], the initial asymptomatic count [A_initial] of the set is
    the number [a] with [a * (1 - f) = f * I_initial]: asymptomatic cases are
    the share [f] of [A_initial + I_initial]; [gamma] is [f] itself, and [a]
    is not negative when [I_initial] is not. *)
Theorem initial_asymptomatic_share {policy} (self : generator policy) (rng : nat → draws)
    (parameter_sets : list (gmap string (pval policy)))
    (i : nat) (parameter_set : gmap string (pval policy)) (f : Q) :
  sample_seir_parameters policy self rng None = Ok parameter_sets →
  parameter_sets !! i = Some parameter_set →
  draw_fraction_asymptomatic (rng i) = Fin f →
  (0 <= f)%Q → (f < 1)%Q →
  ∃ a : Q,
    parameter_set !! "A_initial" = Some (PNum policy (Fin a)) ∧
    parameter_set !! "I_initial" = Some (PNum policy (of_Z (I_initial policy self))) ∧
    parameter_set !! "gamma" = Some (PNum policy (Fin f)) ∧
    (a * (1 - f) == f * inject_Z (I_initial policy self))%Q ∧
    (0 ≤ I_initial policy self → (0 <= a)%Q).
Proof.
  intros Hsample Hset Hf Hf0 Hf1.
  apply sample_without_override in Hsample.
  destruct (Forall2_lookup_r _ _ _ _ _ Hsample Hset) as (j & Hj & Hone).
  apply lookup_seq in Hj as [-> _]. simpl in Hone.
  pose proof (sample_one_initial_infections self (rng i)) as Hinit.
  rewrite Hone, Hf in Hinit. destruct Hinit as (HA & HI & Hg).
  unfold of_Z in HA. simpl in HA.
  assert ((1 + - f ?= 0)%Q = Gt) as Hcmp by (apply Qgt_alt; lra).
  rewrite Hcmp in HA.
  eexists. split; [exact HA|]. split; [exact HI|]. split; [exact Hg|]. split.
  - field. lra.
  - intros HI0. apply Qle_shift_div_l; [lra|]. rewrite Qmult_0_l.
    apply Qmult_le_0_compat; [done|].
    change 0%Q with (inject_Z 0). by rewrite <- Zle_Qle.
Qed.

Lemma initial_asymptomatic_share_witness :
  ∃ a : Q,
    SamplerExamples.first_sampled_with_draws "06075" Examples.central_draws !! "A_initial"
      = Some (PNum unit (Fin a)) ∧
    SamplerExamples.first_sampled_with_draws "06075" Examples.central_draws !! "I_initial"
      = Some (PNum unit (of_Z (I_initial unit (SamplerExamples.generator_for "06075")))) ∧
    SamplerExamples.first_sampled_with_draws "06075" Examples.central_draws !! "gamma"
      = Some (PNum unit (Fin (5 # 10))) ∧
    (a * (1 - (5 # 10)) == (5 # 10) * inject_Z (I_initial unit (SamplerExamples.generator_for "06075")))%Q ∧
    (0 ≤ I_initial unit (SamplerExamples.generator_for "06075") → (0 <= a)%Q).
Proof.
  refine (initial_asymptomatic_share
            (SamplerExamples.generator_for "06075") (λ _, Examples.central_draws)
            (SamplerExamples.sampled_with_draws "06075" Examples.central_draws)
            0%nat (SamplerExamples.first_sampled_with_draws "06075" Examples.central_draws)
            (5 # 10) _ _ _ _ _).
  - apply ok_unwrap. vm_compute. reflexivity.
  - unfold SamplerExamples.first_sampled_with_draws.
    destruct (SamplerExamples.sampled_with_draws "06075" Examples.central_draws !! 0%nat)
      eqn:Hset; [reflexivity|].
    apply lookup_ge_None in Hset. vm_compute in Hset. lia.
  - reflexivity.
  - vm_compute. discriminate.
  - vm_compute. reflexivity.
Defined.

End SamplerEdges.

(** ** The fitter: its time axis, when [fit] returns, the start date *)

Section FitterEdges.
Import F64 Np InitialConditionsFitter Spec.

Lemma foldr_min_le (d0 : Z) (l : list Z) :
  foldr Z.min d0 l ≤ d0 ∧ (∀ d, d ∈ l → foldr Z.min d0 l ≤ d) ∧
  (foldr Z.min d0 l = d0 ∨ foldr Z.min d0 l ∈ l).
Proof.
  induction l as [|x l (IH1 & IH2 & IH3)]; simpl.
  - split; [lia|]. split; [|by left]. intros d Hd. by apply elem_of_nil in Hd.
  - split; [lia|]. split.
    + intros d Hd. apply elem_of_cons in Hd as [->|Hd]; [lia|].
      specialize (IH2 d Hd). lia.
    + destruct (Z.min_spec x (foldr Z.min d0 l)) as [[_ ->]|[_ ->]].
      * right. left.
      * destruct IH3 as [?|?]; [by left | right; by right].
Qed.

(** X18.  A constructed fitter holds the rows of its region only, in the
    order of the case table, and at least one; its start date is the
    earliest date among them, its time axis their dates counted in days
    from the start date (so it is never negative and contains 0), and its
    counts are theirs, index by index. *)
Theorem fitter_time_axis (case_data : list case_row) (fips : string)
    (t0_case_count start_days_before_t0 start_days_after_t0 min_days_required : Z)
    (self : fitter) :
  __init__ case_data fips t0_case_count start_days_before_t0
           start_days_after_t0 min_days_required = Ok self →
  cases self = filter (λ r, row_fips r = fips) case_data ∧
  cases self ≠ [] ∧
  min_days_required ≤ Z.of_nat (length (cases self)) ∧
  (∀ r, r ∈ cases self → data_start_date self ≤ row_date r) ∧
  (∃ r, r ∈ cases self ∧ row_date r = data_start_date self) ∧
  length (t self) = length (cases self) ∧
  length (y self) = length (cases self) ∧
  (∀ i r, cases self !! i = Some r →
          t self !! i = Some (row_date r - data_start_date self) ∧
          y self !! i = Some (row_cases r)) ∧
  Forall (λ ti, 0 ≤ ti) (t self) ∧
  0 ∈ t self.
Proof.
  unfold __init__. intros H.
  destruct (decide _) as [|Hmin]; [done|].
  apply bind_Ok in H as (first_row & Hfirst & [= <-]). simpl.
  set (rows := filter (λ r, row_fips r = fips) case_data) in *.
  unfold list_getitem in Hfirst.
  destruct (rows !! 0%nat) as [r0|] eqn:Hr0; [|done]. injection Hfirst as ->.
  destruct (foldr_min_le (row_date first_row) (row_date <$> rows)) as (Hle0 & Hle & Hin).
  set (date_min := foldr Z.min (row_date first_row) (row_date <$> rows)) in *.
  assert (first_row ∈ rows) as Hfirst_in by (by eapply list_elem_of_lookup_2).
  assert (∀ r, r ∈ rows → date_min ≤ row_date r) as Hmin_le.
  { intros r Hr. apply Hle. apply list_elem_of_fmap. by exists r. }
  assert (∃ r, r ∈ rows ∧ row_date r = date_min) as (rmin & Hrmin & Hdate).
  { destruct Hin as [Heq|Hin]; [by exists first_row|].
    apply list_elem_of_fmap in Hin as (r & Hr & Hrin). by exists r. }
  split; [done|]. split; [by intros E; rewrite E in Hr0|]. split; [lia|].
  split; [done|]. split; [by exists rmin|].
  rewrite !length_fmap. split; [done|]. split; [done|]. split; [|split].
  - intros i r Hi. rewrite !list_lookup_fmap, Hi. done.
  - apply Forall_fmap, Forall_forall. intros r Hr. simpl. specialize (Hmin_le r Hr). lia.
  - apply list_elem_of_fmap. exists rmin. split; [lia | done].
Qed.

Lemma fitter_time_axis_witness :
  cases (FitterExamples.doubling_fitter) = filter (λ r, row_fips r = "06075") Examples.doubling_cases ∧
  cases (FitterExamples.doubling_fitter) ≠ [] ∧
  5 ≤ Z.of_nat (length (cases (FitterExamples.doubling_fitter))) ∧
  (∀ r, r ∈ cases (FitterExamples.doubling_fitter) →
        data_start_date (FitterExamples.doubling_fitter) ≤ row_date r) ∧
  (∃ r, r ∈ cases (FitterExamples.doubling_fitter) ∧
        row_date r = data_start_date (FitterExamples.doubling_fitter)) ∧
  length (t (FitterExamples.doubling_fitter)) = length (cases (FitterExamples.doubling_fitter)) ∧
  length (y (FitterExamples.doubling_fitter)) = length (cases (FitterExamples.doubling_fitter)) ∧
  (∀ i r, cases (FitterExamples.doubling_fitter) !! i = Some r →
          t (FitterExamples.doubling_fitter) !! i
            = Some (row_date r - data_start_date (FitterExamples.doubling_fitter)) ∧
          y (FitterExamples.doubling_fitter) !! i = Some (row_cases r)) ∧
  Forall (λ ti, 0 ≤ ti) (t (FitterExamples.doubling_fitter)) ∧
  0 ∈ t (FitterExamples.doubling_fitter).
Proof.
  apply (fitter_time_axis Examples.doubling_cases "06075" 1 2 1000 5).
  vm_compute. reflexivity.
Defined.

Lemma argmin_from_lt (l : list float) (i best_i : nat) (best : float) :
  (best_i < i)%nat → (argmin_from i l best_i best < i + length l)%nat.
Proof.
  revert i best_i best. induction l as [|x l IH]; intros i best_i best Hlt; simpl; [lia|].
  destruct (argmin_replaces x best).
  - specialize (IH (S i) i x). lia.
  - specialize (IH (S i) best_i best). lia.
Qed.

(** [np.argmin] returns for every non-empty array, with an index of it, and
    raises [ValueError] for the empty one. *)
Lemma argmin_spec (a : list float) :
  match argmin a with
  | Ok idx => (idx < length a)%nat
  | Raise e => a = [] ∧ e = ValueError
  end.
Proof.
  destruct a as [|x a]; simpl; [done|].
  pose proof (argmin_from_lt a 1 0 x). lia.
Qed.

Lemma threshold_index_spec (np_exp : float → float) (self : fitter) (p : model_params_t) :
  match threshold_index self (exponential_model np_exp p (t self)) with
  | Ok idx => (idx < length (t self))%nat
  | Raise e => t self = [] ∧ e = ValueError
  end.
Proof.
  unfold threshold_index, exponential_model.
  pose proof (argmin_spec ((λ v, abs (sub v (of_Z (t0_case_count self)))) <$>
                           ((λ ti, mul (norm p) (np_exp (div (sub (of_Z ti) (t0 p)) (scale p))))
                              <$> t self))) as H.
  destruct (argmin _) as [idx|e].
  - by rewrite !length_fmap in H.
  - destruct H as [H ->]. split; [|done].
    apply fmap_nil_inv in H. by apply fmap_nil_inv in H.
Qed.

Lemma reduced_chi2_returns (y_pred : list float) (y : list Z) :
  length y_pred = length y → returns (_reduced_chi2 y_pred y).
Proof.
  intros Hlen. unfold _reduced_chi2, chi2_terms.
  destruct (mask_select_positive y_pred y Hlen) as (pred_pos & -> & _).
  destruct (mask_select_positive y y eq_refl) as (y_pos & -> & _).
  by eexists.
Qed.

(** [fit] on a fitter with a non-empty time axis as long as its counts,
    by what the minimiser does. *)
Lemma fit_minimiser_cases
    (np_exp : float → float)
    (migrad : (model_params_t → result float) → minuit_settings → result model_params_t)
    (self : fitter) :
  t self ≠ [] → length (t self) = length (y self) →
  match migrad (exponential_loss np_exp self) x0 with
  | Ok params =>
      ∃ attrs, fit np_exp migrad self = Ok attrs ∧ model_params attrs = params ∧
               (t0_idx attrs < length (t self))%nat
  | Raise e => fit np_exp migrad self = Raise e
  end.
Proof.
  intros Hne Hlen. rewrite fit_without_window.
  change (migrad (exponential_loss np_exp self) x0)
    with (migrad (λ p, _reduced_chi2 (exponential_model np_exp p (t self)) (y self)) x0).
  destruct (migrad _ x0) as [params|e]; [|done]. simpl.
  pose proof (threshold_index_spec np_exp self params) as Hidx.
  destruct (threshold_index self _) as [idx|e]; [|by destruct Hidx]. simpl.
  destruct (reduced_chi2_returns (exponential_model np_exp params (t self)) (y self))
    as [chi2 ->].
  { unfold exponential_model. by rewrite length_fmap. }
  simpl. destruct (lookup_lt_is_Some_2 (t self) idx Hidx) as [day Hday].
  unfold list_getitem. rewrite Hday. simpl. eexists. split; [done|]. done.
Qed.

(** The facts about a constructed fitter the proofs below use. *)
Lemma fitter_time_axis_facts (case_data : list case_row) (fips : string)
    (t0_case_count start_days_before_t0 start_days_after_t0 min_days_required : Z)
    (self : fitter) :
  __init__ case_data fips t0_case_count start_days_before_t0
           start_days_after_t0 min_days_required = Ok self →
  cases self = filter (λ r, row_fips r = fips) case_data ∧
  (∀ r, r ∈ cases self → data_start_date self ≤ row_date r) ∧
  cases self ≠ [] ∧
  length (t self) = length (cases self) ∧
  length (y self) = length (cases self) ∧
  (∀ i r, cases self !! i = Some r →
          t self !! i = Some (row_date r - data_start_date self) ∧
          y self !! i = Some (row_cases r)).
Proof.
  unfold __init__. intros H.
  destruct (decide _) as [|Hmin]; [done|].
  apply bind_Ok in H as (first_row & Hfirst & [= <-]). simpl.
  destruct (foldr_min_le (row_date first_row)
              (row_date <$> filter (λ r, row_fips r = fips) case_data))
    as (_ & Hle & _).
  split; [done|]. split; [|split; [|split; [|split]]].
  - intros r Hr. apply Hle. apply list_elem_of_fmap. by exists r.
  - intros E. unfold list_getitem in Hfirst. by rewrite E in Hfirst.
  - by rewrite length_fmap.
  - by rewrite length_fmap.
  - intros i r Hi. rewrite !list_lookup_fmap, Hi. done.
Qed.

(** X19.  On a constructed fitter, [fit] returns exactly when the
    minimiser returns, with the minimiser's parameters and an index [t0_idx]
    of one of the region's rows, and it raises what the minimiser raises:
    nothing else in it can fail. *)
Theorem fit_returns_iff_minimiser_returns
    (np_exp : float → float)
    (migrad : (model_params_t → result float) → minuit_settings → result model_params_t)
    (case_data : list case_row) (fips : string)
    (t0_case_count start_days_before_t0 start_days_after_t0 min_days_required : Z)
    (self : fitter) :
  __init__ case_data fips t0_case_count start_days_before_t0
           start_days_after_t0 min_days_required = Ok self →
  match migrad (exponential_loss np_exp self) x0 with
  | Ok params =>
      ∃ attrs, fit np_exp migrad self = Ok attrs ∧ model_params attrs = params ∧
               (t0_idx attrs < length (cases self))%nat
  | Raise e => fit np_exp migrad self = Raise e
  end.
Proof.
  intros Hinit.
  destruct (fitter_time_axis_facts _ _ _ _ _ _ _ Hinit)
    as (_ & _ & Hne & Hlen & Hleny & _).
  assert (t self ≠ []) as Hne'.
  { intros E. rewrite E in Hlen. destruct (cases self); done. }
  pose proof (fit_minimiser_cases np_exp migrad self Hne' ltac:(congruence)) as Hfit.
  destruct (migrad (exponential_loss np_exp self) x0) as [params|e]; [|done].
  destruct Hfit as (attrs & Hattrs & Hparams & Hidx).
  exists attrs. split; [done|]. split; [done|]. by rewrite <- Hlen.
Qed.

Lemma fit_returns_iff_minimiser_returns_witness :
  match Examples.start_point_optimiser
          (exponential_loss Examples.constant_exp FitterExamples.doubling_fitter) x0 with
  | Ok params =>
      ∃ attrs, fit Examples.constant_exp Examples.start_point_optimiser
                   FitterExamples.doubling_fitter = Ok attrs ∧
               model_params attrs = params ∧
               (t0_idx attrs < length (cases FitterExamples.doubling_fitter))%nat
  | Raise e =>
      fit Examples.constant_exp Examples.start_point_optimiser FitterExamples.doubling_fitter
      = Raise e
  end.
Proof.
  apply (fit_returns_iff_minimiser_returns Examples.constant_exp
           Examples.start_point_optimiser Examples.doubling_cases "06075" 1 2 1000 5).
  apply ok_unwrap. vm_compute. reflexivity.
Defined.

(** X20.  The start date [fit] infers for a constructed fitter is the date
    of one of the region's rows, the one at the index [t0_idx] where the
    fitted curve is closest to [t0_case_count]: it is an observed date,
    never earlier than the first observation. *)
Theorem fitted_start_date_is_observed
    (np_exp : float → float)
    (migrad : (model_params_t → result float) → minuit_settings → result model_params_t)
    (case_data : list case_row) (fips : string)
    (t0_case_count start_days_before_t0 start_days_after_t0 min_days_required : Z)
    (self : fitter) (attrs : fit_attributes) :
  __init__ case_data fips t0_case_count start_days_before_t0
           start_days_after_t0 min_days_required = Ok self →
  fit np_exp migrad self = Ok attrs →
  threshold_index self (fit_predictions attrs) = Ok (t0_idx attrs) ∧
  ∃ r, cases self !! t0_idx attrs = Some r ∧
       row_fips r = fips ∧
       t0_date attrs = row_date r ∧
       fitted_t0 attrs = row_date r - data_start_date self ∧
       data_start_date self ≤ t0_date attrs.
Proof.
  intros Hinit Hfit.
  destruct (fitter_time_axis_facts _ _ _ _ _ _ _ Hinit)
    as (Hcases & Hmin & _ & Hlen & _ & Hrows).
  rewrite fit_without_window in Hfit.
  apply bind_Ok in Hfit as (params & _ & Hfit). simpl in Hfit.
  apply bind_Ok in Hfit as (idx & Hidx & Hfit).
  apply bind_Ok in Hfit as (chi2 & _ & Hfit).
  apply bind_Ok in Hfit as (day & Hday & [= <-]). simpl.
  split; [done|].
  unfold list_getitem in Hday. destruct (t self !! idx) as [day'|] eqn:Ht; [|done].
  injection Hday as ->.
  destruct (lookup_lt_is_Some_2 (cases self) idx) as [r Hr].
  { rewrite <- Hlen. by eapply lookup_lt_Some. }
  exists r. split; [done|].
  destruct (Hrows idx r Hr) as [Hti _].
  assert (day = row_date r - data_start_date self) as -> by congruence.
  assert (r ∈ cases self) as Hin by (by eapply list_elem_of_lookup_2).
  split.
  { rewrite Hcases in Hin. by apply list_elem_of_filter in Hin as [? _]. }
  split; [lia|]. split; [done|]. specialize (Hmin r Hin). lia.
Qed.

Lemma fitted_start_date_is_observed_witness :
  threshold_index FitterExamples.doubling_fitter (fit_predictions FitterExamples.doubling_fit)
    = Ok (t0_idx FitterExamples.doubling_fit) ∧
  ∃ r, cases FitterExamples.doubling_fitter !! t0_idx FitterExamples.doubling_fit = Some r ∧
       row_fips r = "06075" ∧
       t0_date FitterExamples.doubling_fit = row_date r ∧
       fitted_t0 FitterExamples.doubling_fit
         = row_date r - data_start_date FitterExamples.doubling_fitter ∧
       data_start_date FitterExamples.doubling_fitter ≤ t0_date FitterExamples.doubling_fit.
Proof.
  apply (fitted_start_date_is_observed Examples.constant_exp
           Examples.start_point_optimiser Examples.doubling_cases "06075" 1 2 1000 5).
  - apply ok_unwrap. vm_compute. reflexivity.
  - apply ok_unwrap. vm_compute. reflexivity.
Defined.

(** With a constant curve every index is as close to the threshold as the
    first, which [np.argmin] keeps: the start date is the first day. *)
Example fitted_start_date_example :
  t0_idx FitterExamples.doubling_fit = 0%nat ∧
  t0_date FitterExamples.doubling_fit = 18322 ∧
  data_start_date FitterExamples.doubling_fitter = 18322.
Proof. split; [|split]; vm_compute; reflexivity. Qed.

Lemma mask_select_agree {A} (a a' : list A) (y : list Z) :
  length a = length y → length a' = length y →
  (∀ i v, y !! i = Some v → 0 < v → a !! i = a' !! i) →
  mask_select a ((λ v, bool_decide (0 < v)) <$> y)
  = mask_select a' ((λ v, bool_decide (0 < v)) <$> y).
Proof.
  intros Hlen Hlen' Hagree. unfold mask_select. rewrite length_fmap.
  destruct (decide (length a = length y)); [|done].
  destruct (decide (length a' = length y)); [|done].
  f_equal. f_equal. clear e e0.
  revert a a' Hlen Hlen' Hagree.
  induction y as [|v y IH]; intros [|x a] [|x' a'] Hlen Hlen' Hagree; try done.
  simpl in Hlen, Hlen'. rewrite fmap_cons.
  change (zip (x :: a) (?b :: ?m)) with ((x, b) :: zip a m).
  change (zip (x' :: a') (?b :: ?m)) with ((x', b) :: zip a' m).
  rewrite !filter_cons. simpl.
  assert (filter (λ xb : A * bool, xb.2 = true) (zip a ((λ v, bool_decide (0 < v)) <$> y))
          = filter (λ xb : A * bool, xb.2 = true)
                   (zip a' ((λ v, bool_decide (0 < v)) <$> y))) as Htail.
  { apply IH; [lia | lia |]. intros i w Hi Hw. apply (Hagree (S i) w Hi Hw). }
  destruct (decide (0 < v)) as [Hv|Hv].
  - rewrite (bool_decide_eq_true_2 _ Hv). destruct (decide (true = true)); [|done].
    specialize (Hagree 0%nat v eq_refl Hv). simpl in Hagree. injection Hagree as ->.
    by rewrite Htail.
  - rewrite (bool_decide_eq_false_2 _ Hv). destruct (decide (false = true)); done.
Qed.

(** X21.  The reduced chi-square reads the predictions only where the
    observed count is strictly positive: it returns for predictions of the
    length of the counts, and two such prediction arrays that agree on the
    days with a positive count have the same reduced chi-square. *)
Theorem reduced_chi2_reads_positive_days_only (y_pred y_pred' : list float) (y : list Z) :
  length y_pred = length y → length y_pred' = length y →
  (∀ i v, y !! i = Some v → 0 < v → y_pred !! i = y_pred' !! i) →
  returns (_reduced_chi2 y_pred y) ∧
  _reduced_chi2 y_pred y = _reduced_chi2 y_pred' y.
Proof.
  intros Hlen Hlen' Hagree. split; [by apply reduced_chi2_returns|].
  unfold _reduced_chi2, chi2_terms.
  by rewrite (mask_select_agree y_pred y_pred' y Hlen Hlen' Hagree).
Qed.

Lemma reduced_chi2_reads_positive_days_only_witness :
  returns (_reduced_chi2 [Fin 1; Fin 2; Fin 5] [0; 3; 4]) ∧
  _reduced_chi2 [Fin 1; Fin 2; Fin 5] [0; 3; 4]
  = _reduced_chi2 [Fin 100; Fin 2; Fin 5] [0; 3; 4].
Proof.
  apply (reduced_chi2_reads_positive_days_only
           [Fin 1; Fin 2; Fin 5] [Fin 100; Fin 2; Fin 5] [0; 3; 4]).
  - reflexivity.
  - reflexivity.
  - intros [|[|[|i]]] v Hi Hv; simpl in Hi; try done.
    injection Hi as <-. lia.
Defined.

(** Predictions shorter than the counts: the mask does not fit. *)
Example reduced_chi2_length_mismatch :
  _reduced_chi2 [Fin 1; Fin 2] [0; 3; 4] = Raise IndexError.
Proof. vm_compute. reflexivity. Qed.

Lemma mask_select_elem_of {A} (a : list A) (mask : list bool) (selected : list A) (x : A) :
  mask_select a mask = Ok selected → x ∈ selected → x ∈ a.
Proof.
  unfold mask_select. destruct (decide _); [|done]. intros [= <-] Hx.
  apply list_elem_of_fmap in Hx as ([x' b] & -> & Hin).
  apply list_elem_of_filter in Hin as [_ Hin].
  apply list_elem_of_lookup in Hin as [i Hi].
  apply lookup_zip_with_Some in Hi as (x'' & b' & [= <- <-] & Hx & _).
  simpl. by eapply list_elem_of_lookup_2.
Qed.

Lemma mask_select_positive_counts (y : list Z) (selected : list Z) :
  mask_select y ((λ v, bool_decide (0 < v)) <$> y) = Ok selected →
  Forall (λ v, 0 < v) selected.
Proof.
  unfold mask_select. destruct (decide _); [|done]. intros [= <-].
  apply Forall_forall. intros v Hv.
  apply list_elem_of_fmap in Hv as ([v' b] & -> & Hin).
  apply list_elem_of_filter in Hin as [Hb Hin]. simpl in Hb. subst b.
  apply list_elem_of_lookup in Hin as [i Hi].
  apply lookup_zip_with_Some in Hi as (v'' & b' & [= <- <-] & Hv & Hb).
  rewrite list_lookup_fmap, Hv in Hb. simpl in Hb. injection Hb as Hb.
  simpl. by apply bool_decide_eq_true_1 in Hb.
Qed.

Lemma le_zero_add (x y : float) : le (Fin 0) x → le (Fin 0) y → le (Fin 0) (add x y).
Proof.
  destruct x as [a| | |], y as [b| | |]; try done. unfold le. simpl.
  rewrite !Qle_bool_iff. lra.
Qed.

(** A summand of the chi-square is not negative, and it is not NaN when
    the prediction is not: it is [+inf] for an infinite prediction. *)
Lemma chi2_term_nonnegative (p : float) (v : Z) :
  is_nan p = false → 0 < v →
  le (Fin 0) (div (mul (sub p (of_Z v)) (sub p (of_Z v))) (of_Z v)).
Proof.
  intros Hp Hv.
  assert (0 < inject_Z v)%Q as Hpos.
  { change 0%Q with (inject_Z 0). by rewrite <- Zlt_Qlt. }
  destruct p as [q| | |]; [| | |done]; unfold of_Z; simpl.
  - assert ((inject_Z v ?= 0)%Q = Gt) as -> by (by apply Qgt_alt).
    apply le_Fin. apply Qle_shift_div_l; [done|]. rewrite Qmult_0_l.
    set (d := (q + - inject_Z v)%Q). nra.
  - assert (Qle_bool 0 (inject_Z v) = true) as ->; [|done].
    apply Qle_bool_iff. lra.
  - assert (Qle_bool 0 (inject_Z v) = true) as ->; [|done].
    apply Qle_bool_iff. lra.
Qed.

Lemma sum_nonnegative (terms : list float) (acc : float) :
  le (Fin 0) acc → Forall (le (Fin 0)) terms → le (Fin 0) (foldl add acc terms).
Proof.
  intros Hacc H. revert acc Hacc.
  induction H as [|x terms Hx _ IH]; intros acc Hacc; simpl; [done|].
  apply IH. by apply le_zero_add.
Qed.

(** X22.  With predictions none of which is NaN and at least two strictly
    positive counts, the reduced chi-square is not NaN and is not negative;
    it is a number or [+inf]. *)
Theorem reduced_chi2_nonnegative (y_pred : list float) (y : list Z) :
  length y_pred = length y → Forall (λ x, is_nan x = false) y_pred →
  (2 ≤ n_positive y)%nat →
  ∃ r, _reduced_chi2 y_pred y = Ok r ∧ le (Fin 0) r.
Proof.
  intros Hlen Hfin Hpos. unfold _reduced_chi2, chi2_terms.
  destruct (mask_select_positive y_pred y Hlen) as (pred_pos & Hpred & Hpredlen).
  destruct (mask_select_positive y y eq_refl) as (y_pos & Hy & Hylen).
  rewrite Hpred, Hy. simpl.
  assert (Forall (λ x, is_nan x = false) pred_pos) as Hpfin.
  { apply Forall_forall. intros x Hx. apply (proj1 (Forall_forall _ _) Hfin).
    by eapply mask_select_elem_of. }
  pose proof (mask_select_positive_counts y y_pos Hy) as Hypos.
  assert (Forall (le (Fin 0))
            (zip_with (λ p v, div (mul (sub p (of_Z v)) (sub p (of_Z v))) (of_Z v))
                      pred_pos y_pos)) as Hterms.
  { clear -Hpfin Hypos. revert y_pos Hypos.
    induction Hpfin as [|p ps Hp _ IH]; intros [|v vs] Hvs; simpl; try constructor.
    - apply Forall_cons in Hvs as [Hv _]. by apply chi2_term_nonnegative.
    - apply Forall_cons in Hvs as [_ Hvs]. by apply IH. }
  pose proof (sum_nonnegative _ (Fin 0) ltac:(done) Hterms) as Hsum.
  eexists. split; [done|].
  rewrite length_zip_with, Hpredlen, Hylen, Nat.min_id.
  fold (Np.sum (zip_with (λ p v, div (mul (sub p (of_Z v)) (sub p (of_Z v))) (of_Z v))
                         pred_pos y_pos)) in Hsum.
  assert (0 < inject_Z (Z.of_nat (n_positive y) - 1))%Q as Hd.
  { change 0%Q with (inject_Z 0). rewrite <- Zlt_Qlt. lia. }
  destruct (Np.sum _) as [s| | |]; [| |done|done]; unfold of_Z; simpl.
  - assert ((inject_Z (Z.of_nat (n_positive y) - 1) ?= 0)%Q = Gt) as ->
      by (by apply Qgt_alt).
    apply le_Fin in Hsum. apply le_Fin. apply Qle_shift_div_l; [done|]. lra.
  - assert (Qle_bool 0 (inject_Z (Z.of_nat (n_positive y) - 1)) = true) as ->; [|done].
    apply Qle_bool_iff. lra.
Qed.

Lemma reduced_chi2_nonnegative_witness :
  ∃ r, _reduced_chi2 [Fin 1; PInf; Fin 5] [0; 3; 4] = Ok r ∧ le (Fin 0) r.
Proof.
  apply (reduced_chi2_nonnegative [Fin 1; PInf; Fin 5] [0; 3; 4]).
  - reflexivity.
  - repeat constructor.
  - vm_compute. lia.
Defined.

(** Two positive days, predicted as 2 and 5 against counts of 3 and 4: the
    reduced chi-square is [(1/3 + 1/4) / 1]; with an infinite prediction it
    is [+inf]. *)
Example reduced_chi2_values :
  (∃ q, _reduced_chi2 [Fin 1; Fin 2; Fin 5] [0; 3; 4] = Ok (Fin q) ∧ (q == 7 # 12)%Q) ∧
  _reduced_chi2 [Fin 1; PInf; Fin 5] [0; 3; 4] = Ok PInf.
Proof. split; [eexists; split; [vm_compute; reflexivity | reflexivity] | vm_compute; reflexivity]. Qed.

End FitterEdges.

(** ** The imputation table, row by row *)

Section ImputationRows.
Import F64 InitialConditionsFitter Spec.

Variable np_exp : float → float.
Variable migrad :
  (model_params_t → result float) → minuit_settings → result model_params_t.
Variable np_log : float → float.
Variable cross_validate :
  estimator → list (list float) → list float → result (list float).
Variable ridge : Type.
Variable BayesianRidge_fit : list (list float) → list float → result ridge.
Variable BayesianRidge_predict : ridge → list float → float.

(** X23.  When a county is imputed.  A county with fewer than five rows in
    the case table gets the empty summary (the constructor's [ValueError]
    is caught); a county with at least five gets the summary of its fit
    when the minimiser returns, the empty summary when the minimiser raises
    [ValueError], and any other exception of the minimiser is not
    caught. *)
Theorem county_summary (case_data : list case_row) (fips : string) :
  let empty := {| summary_model_params := None; summary_t0_date := None;
                  summary_reduced_chi2 := None |} in
  match __init__ case_data fips 1 0 1000 5 with
  | Raise _ =>
      (length (filter (λ r, row_fips r = fips) case_data) < 5)%nat ∧
      fit_one_county np_exp migrad case_data fips = Ok empty
  | Ok self =>
      (5 ≤ length (filter (λ r, row_fips r = fips) case_data))%nat ∧
      match migrad (exponential_loss np_exp self) x0 with
      | Ok params =>
          ∃ attrs,
            fit np_exp migrad self = Ok attrs ∧ model_params attrs = params ∧
            fit_one_county np_exp migrad case_data fips
            = Ok {| summary_model_params := Some params;
                    summary_t0_date := Some (t0_date attrs);
                    summary_reduced_chi2 := Some (reduced_chi2 attrs) |}
      | Raise ValueError => fit_one_county np_exp migrad case_data fips = Ok empty
      | Raise e => fit_one_county np_exp migrad case_data fips = Raise e
      end
  end.
Proof.
  cbv zeta. unfold fit_one_county.
  destruct (__init__ case_data fips 1 0 1000 5) as [self|e] eqn:Hinit.
  - destruct (fitter_time_axis_facts _ _ _ _ _ _ _ Hinit)
      as (Hcases & _ & _ & Hlen & Hleny & _).
    assert (5 ≤ length (filter (λ r, row_fips r = fips) case_data))%nat as Hfive.
    { unfold __init__ in Hinit. destruct (decide _) as [|Hge]; [done|]. lia. }
    split; [done|].
    assert (t self ≠ []) as Hne.
    { intros E. rewrite E in Hlen. simpl in Hlen. rewrite Hcases in Hlen. lia. }
    pose proof (fit_minimiser_cases np_exp migrad self Hne ltac:(congruence)) as Hfit.
    destruct (migrad (exponential_loss np_exp self) x0) as [params|e].
    + destruct Hfit as (attrs & Hattrs & Hparams & _). exists attrs.
      split; [done|]. split; [done|]. simpl. rewrite Hattrs. simpl. by rewrite Hparams.
    + simpl. rewrite Hfit. by destruct e.
  - simpl. unfold __init__ in Hinit. destruct (decide _) as [Hlt|Hge].
    + injection Hinit as <-. split; [lia | done].
    + exfalso. apply bind_Raise in Hinit as [Hinit | (? & _ & ?)]; [|done].
      unfold list_getitem in Hinit.
      destruct (filter (λ r, row_fips r = fips) case_data) as [|r rows]; [|done].
      simpl in Hge. lia.
Qed.

(** What the loop over the counties stores for each of them. *)
Lemma fips_to_fit_map_entries (case_data : list case_row) (counties : list string)
    (fips_to_fit_map : list (string * fit_summary_t)) :
  foldlM (λ fips_to_fit_map fips,
            summary ← fit_one_county np_exp migrad case_data fips;
            Ok (alist_set fips summary fips_to_fit_map))
         counties [] = Ok fips_to_fit_map →
  Forall (λ entry, fit_one_county np_exp migrad case_data entry.1 = Ok entry.2)
         fips_to_fit_map.
Proof.
  intros H.
  eapply (foldlM_invariant
            (Forall (λ entry : string * fit_summary_t,
                       fit_one_county np_exp migrad case_data entry.1 = Ok entry.2)));
    [constructor | | exact H].
  intros acc fips acc' Hacc Hstep.
  apply bind_Ok in Hstep as (summary & Hsummary & [= <-]).
  by apply alist_set_Forall.
Qed.

(** X24.  A row of the table a state gets.  It joins a county of the
    metadata table with the summary of that county's fit.  A county with a
    fit keeps the start date of its fit, as a date and as a number of days
    since 2020-01-01, and is marked not imputed; a county without one is
    marked imputed and gets the regression's prediction from its three log
    features as its number of days, and 2020-01-01 plus that number as its
    start date.  The regression is the [BayesianRidge] fitted on the rows
    that are not imputed. *)
Theorem imputation_table_rows (metadata : list county_meta)
    (case_data : list case_row) (state : string) (table : list merged_row) :
  generate_start_times_for_state np_exp migrad np_log cross_validate ridge
    BayesianRidge_fit BayesianRidge_predict metadata case_data state = Ok table →
  ∃ best_model,
    BayesianRidge_fit
      (log_features np_log <$> filter (λ row, imputed_start_time row = Some false) table)
      (days_from_2020_01_01 <$> filter (λ row, imputed_start_time row = Some false) table)
      = Ok best_model ∧
    Forall (λ row,
              ∃ summary,
                fit_one_county np_exp migrad case_data (merged_fips row) = Ok summary ∧
                merged_meta row ∈ metadata ∧
                meta_fips (merged_meta row) = merged_fips row ∧
                merged_model_params row = summary_model_params summary ∧
                merged_reduced_chi2 row = summary_reduced_chi2 summary ∧
                match summary_t0_date summary with
                | Some d =>
                    imputed_start_time row = Some false ∧
                    days_from_2020_01_01 row = of_Z (d - date_2020_01_01) ∧
                    merged_t0_date row = Some (of_Z d)
                | None =>
                    imputed_start_time row = Some true ∧
                    days_from_2020_01_01 row
                      = BayesianRidge_predict best_model (log_features np_log row) ∧
                    merged_t0_date row
                      = Some (add (of_Z date_2020_01_01) (days_from_2020_01_01 row))
                end)
           table.
Proof.
  unfold generate_start_times_for_state.
  destruct (decide _) as [|_]; [done|]. intros H.
  apply bind_Ok in H as (fips_to_fit_map & Hmap & H).
  destruct (forallb _ _) eqn:Hdates; [done|].
  apply bind_Ok in H as (scores & _ & H).
  apply bind_Ok in H as (best_model & Hmodel & H).
  apply forM_Ok_inv in H. apply fips_to_fit_map_entries in Hmap.
  set (merged := fips_to_fit_map ≫= _) in *.
  assert (Forall (λ row0,
            ∃ summary,
              fit_one_county np_exp migrad case_data (merged_fips row0) = Ok summary ∧
              merged_meta row0 ∈ metadata ∧
              meta_fips (merged_meta row0) = merged_fips row0 ∧
              merged_model_params row0 = summary_model_params summary ∧
              merged_reduced_chi2 row0 = summary_reduced_chi2 summary ∧
              merged_t0_date row0 = (λ d, of_Z d) <$> summary_t0_date summary ∧
              days_from_2020_01_01 row0
                = match summary_t0_date summary with
                  | Some d => of_Z (d - date_2020_01_01)
                  | None => NaN
                  end) merged) as Hmerged.
  { unfold merged. apply Forall_bind. eapply Forall_impl; [exact Hmap|].
    intros [fips summary] Hsummary. simpl in *. apply Forall_fmap, Forall_forall.
    intros meta Hmeta. apply list_elem_of_filter in Hmeta as [Hfips Hmeta].
    exists summary. simpl. done. }
  assert (Forall2 (λ row0 row,
            merged_fips row = merged_fips row0 ∧ merged_meta row = merged_meta row0 ∧
            merged_model_params row = merged_model_params row0 ∧
            merged_reduced_chi2 row = merged_reduced_chi2 row0 ∧
            if has_data row0
            then imputed_start_time row = Some false ∧
                 days_from_2020_01_01 row = days_from_2020_01_01 row0 ∧
                 merged_t0_date row = merged_t0_date row0
            else imputed_start_time row = Some true ∧
                 days_from_2020_01_01 row
                   = BayesianRidge_predict best_model (log_features np_log row) ∧
                 merged_t0_date row
                   = Some (add (of_Z date_2020_01_01) (days_from_2020_01_01 row)))
          merged table) as Hfinal.
  { eapply Forall2_impl; [exact H|]. intros row0 row Hrow. unfold finalize_row in Hrow.
    destruct (has_data row0).
    - destruct (merged_model_params row0); [|done]. by injection Hrow as <-.
    - by injection Hrow as <-. }
  assert (log_features np_log <$> filter (λ row, has_data row = true) merged
          = log_features np_log <$>
              filter (λ row, imputed_start_time row = Some false) table ∧
          days_from_2020_01_01 <$> filter (λ row, has_data row = true) merged
          = days_from_2020_01_01 <$>
              filter (λ row, imputed_start_time row = Some false) table) as [HX Hy].
  { clear -Hfinal. induction Hfinal as [|row0 row rows0 rows Hrow _ [IHX IHy]]; [done|].
    destruct Hrow as (_ & Hmeta & _ & _ & Hcase). rewrite !filter_cons.
    destruct (has_data row0) eqn:Hdata.
    - destruct Hcase as (Himp & Hdays & _).
      destruct (decide (true = true)); [|done].
      destruct (decide (imputed_start_time row = Some false)); [|done].
      rewrite !fmap_cons, IHX, IHy, Hdays. split; [|done]. f_equal.
      unfold log_features. by rewrite Hmeta.
    - destruct Hcase as (Himp & _).
      destruct (decide (false = true)); [done|].
      destruct (decide (imputed_start_time row = Some false)); [congruence|]. done. }
  exists best_model. split; [by rewrite <- HX, <- Hy|].
  eapply Forall2_Forall_r; [exact Hfinal|].
  eapply Forall_impl; [exact Hmerged|].
  intros row0 (summary & Hsummary & Hin & Hfips & Hparams & Hchi2 & Hdate & Hdays) row
         (Hf & Hm & Hp & Hc & Hcase).
  exists summary. rewrite Hf, Hm, Hp, Hc.
  split; [done|]. split; [done|]. split; [done|]. split; [done|]. split; [done|].
  unfold has_data in Hcase. rewrite Hdays in Hcase.
  destruct (summary_t0_date summary) as [d|]; simpl in *.
  - destruct Hcase as (Himp & Hd & Ht). rewrite Hd, Ht, Hdate. done.
  - done.
Qed.

Lemma alist_set_fresh {V} (k : string) (v : V) (d : list (string * V)) :
  k ∉ d.*1 → alist_set k v d = d ++ [(k, v)].
Proof.
  induction d as [|[k' v'] d IH]; intros Hk; simpl; [done|].
  rewrite fmap_cons in Hk. apply not_elem_of_cons in Hk as [Hne Hk].
  destruct (decide (k = k')); [done|]. by rewrite IH.
Qed.

(** Over counties that are pairwise different, the loop stores one entry
    per county, in their order. *)
Lemma fips_to_fit_map_keys (case_data : list case_row) (counties : list string)
    (acc fips_to_fit_map : list (string * fit_summary_t)) :
  NoDup (acc.*1 ++ counties) →
  foldlM (λ fips_to_fit_map fips,
            summary ← fit_one_county np_exp migrad case_data fips;
            Ok (alist_set fips summary fips_to_fit_map))
         counties acc = Ok fips_to_fit_map →
  fips_to_fit_map.*1 = acc.*1 ++ counties.
Proof.
  revert acc. induction counties as [|fips counties IH]; intros acc Hnodup H; simpl in H.
  - injection H as <-. by rewrite app_nil_r.
  - apply bind_Ok in H as (acc' & Hstep & H).
    apply bind_Ok in Hstep as (summary & _ & [= <-]).
    assert (fips ∉ acc.*1) as Hfresh.
    { apply NoDup_app in Hnodup as (_ & Hdisj & _). intros Hin.
      apply (Hdisj fips Hin). left. }
    rewrite (alist_set_fresh _ _ _ Hfresh) in H.
    assert ((acc ++ [(fips, summary)]).*1 ++ counties = acc.*1 ++ fips :: counties) as E.
    { rewrite fmap_app. simpl. by rewrite <- app_assoc. }
    rewrite (IH (acc ++ [(fips, summary)])); [done | by rewrite E | done].
Qed.

Lemma filter_unique_fips (metadata : list county_meta) (m : county_meta) :
  NoDup (meta_fips <$> metadata) → m ∈ metadata →
  filter (λ meta, meta_fips meta = meta_fips m) metadata = [m].
Proof.
  induction metadata as [|m' metadata IH]; intros Hnodup Hm; [by apply elem_of_nil in Hm|].
  rewrite fmap_cons in Hnodup. apply NoDup_cons in Hnodup as [Hfresh Hnodup].
  apply elem_of_cons in Hm as [->|Hm].
  - rewrite filter_cons_True by done. f_equal.
    destruct (filter _ metadata) as [|x rest] eqn:Hfilter; [done|]. exfalso.
    assert (x ∈ filter (λ meta, meta_fips meta = meta_fips m') metadata) as Hx
      by (rewrite Hfilter; left).
    apply list_elem_of_filter in Hx as [Hfips Hx]. apply Hfresh.
    rewrite <- Hfips. apply list_elem_of_fmap. by exists x.
  - rewrite filter_cons_False; [by apply IH|].
    intros Hfips. apply Hfresh. rewrite Hfips. apply list_elem_of_fmap. by exists m.
Qed.

(** X25.  When the regions of the metadata table are pairwise different,
    the table has exactly one row per county of the state (the state being
    compared without regard to case), in the order of the metadata table. *)
Theorem imputation_table_covers_state (metadata : list county_meta)
    (case_data : list case_row) (state : string) (table : list merged_row) :
  NoDup (meta_fips <$> metadata) →
  generate_start_times_for_state np_exp migrad np_log cross_validate ridge
    BayesianRidge_fit BayesianRidge_predict metadata case_data state = Ok table →
  table ≠ [] ∧
  merged_meta <$> table
    = filter (λ m, str_lower (meta_state m) = str_lower state) metadata ∧
  merged_fips <$> table
    = meta_fips <$> filter (λ m, str_lower (meta_state m) = str_lower state) metadata.
Proof.
  intros Hnodup. unfold generate_start_times_for_state.
  set (in_state := filter (λ m, str_lower (meta_state m) = str_lower state) metadata).
  destruct (decide _) as [|Hne]; [done|]. intros H.
  apply bind_Ok in H as (fips_to_fit_map & Hmap & H).
  destruct (forallb _ _) eqn:Hdates; [done|].
  apply bind_Ok in H as (scores & _ & H).
  apply bind_Ok in H as (best_model & _ & H).
  apply forM_Ok_inv in H.
  assert (NoDup (meta_fips <$> in_state)) as Hnodup'.
  { eapply sublist_NoDup; [exact Hnodup|]. apply fmap_sublist, sublist_filter. }
  apply fips_to_fit_map_keys in Hmap; [|done]. simpl in Hmap.
  set (merged := fips_to_fit_map ≫= _) in *.
  assert (merged_meta <$> merged = in_state ∧
          merged_fips <$> merged = meta_fips <$> in_state) as [Hmeta Hfips].
  { unfold merged.
    assert (∀ m, m ∈ in_state → m ∈ metadata) as Hsub.
    { intros m Hm. by apply list_elem_of_filter in Hm as [_ ?]. }
    clear -Hmap Hsub Hnodup. revert Hmap Hsub. generalize in_state as S.
    induction fips_to_fit_map as [|[fips summary] entries IH]; intros [|m S] Hkeys Hsub;
      try done.
    rewrite !fmap_cons in Hkeys. simpl in Hkeys. injection Hkeys as -> Hkeys.
    destruct (IH S Hkeys) as [IH1 IH2]; [intros m' Hm'; apply Hsub; by right|].
    rewrite bind_cons. cbn beta. cbn [fst snd].
    rewrite (filter_unique_fips metadata m Hnodup) by (apply Hsub; left).
    rewrite fmap_cons, fmap_nil. cbn [app].
    rewrite !fmap_cons, IH1, IH2. done. }
  assert (merged_meta <$> table = merged_meta <$> merged ∧
          merged_fips <$> table = merged_fips <$> merged) as [Hm Hf].
  { clear -H. induction H as [|row0 row rows0 rows Hrow _ [IH1 IH2]]; [done|].
    rewrite !fmap_cons, IH1, IH2. unfold finalize_row in Hrow.
    destruct (has_data row0).
    - destruct (merged_model_params row0); [|done]. by injection Hrow as <-.
    - by injection Hrow as <-. }
  split; [|by rewrite Hm, Hf, Hmeta, Hfips].
  intros ->. simpl in Hm. rewrite Hmeta in Hm. apply Hne.
  by rewrite length_fmap, <- Hm.
Qed.

End ImputationRows.

Lemma imputation_table_rows_witness :
  ∃ best_model,
    (λ (_ : list (list float)) (_ : list float), Ok tt)
      (InitialConditionsFitter.log_features Examples.constant_log <$>
         filter (λ row, InitialConditionsFitter.imputed_start_time row = Some false)
                TableExamples.start_times_table)
      (InitialConditionsFitter.days_from_2020_01_01 <$>
         filter (λ row, InitialConditionsFitter.imputed_start_time row = Some false)
                TableExamples.start_times_table)
      = Ok best_model ∧
    Forall (λ row,
              ∃ summary,
                InitialConditionsFitter.fit_one_county Examples.constant_exp
                  Examples.start_point_optimiser Examples.doubling_cases
                  (InitialConditionsFitter.merged_fips row) = Ok summary ∧
                InitialConditionsFitter.merged_meta row ∈ Examples.state_metadata ∧
                InitialConditionsFitter.meta_fips (InitialConditionsFitter.merged_meta row)
                  = InitialConditionsFitter.merged_fips row ∧
                InitialConditionsFitter.merged_model_params row
                  = InitialConditionsFitter.summary_model_params summary ∧
                InitialConditionsFitter.merged_reduced_chi2 row
                  = InitialConditionsFitter.summary_reduced_chi2 summary ∧
                match InitialConditionsFitter.summary_t0_date summary with
                | Some d =>
                    InitialConditionsFitter.imputed_start_time row = Some false ∧
                    InitialConditionsFitter.days_from_2020_01_01 row
                      = F64.of_Z (d - InitialConditionsFitter.date_2020_01_01) ∧
                    InitialConditionsFitter.merged_t0_date row = Some (F64.of_Z d)
                | None =>
                    InitialConditionsFitter.imputed_start_time row = Some true ∧
                    InitialConditionsFitter.days_from_2020_01_01 row
                      = (λ (_ : unit) (_ : list float), Fin 80) best_model
                          (InitialConditionsFitter.log_features Examples.constant_log row) ∧
                    InitialConditionsFitter.merged_t0_date row
                      = Some (F64.add (F64.of_Z InitialConditionsFitter.date_2020_01_01)
                                      (InitialConditionsFitter.days_from_2020_01_01 row))
                end)
           TableExamples.start_times_table.
Proof.
  apply (imputation_table_rows
           Examples.constant_exp Examples.start_point_optimiser Examples.constant_log
           (λ _ _ _, Ok []) unit (λ _ _, Ok tt) (λ _ _, Fin 80)
           Examples.state_metadata Examples.doubling_cases "california").
  apply ok_unwrap. vm_compute. reflexivity.
Defined.

(** The two rows of the example: the county without case data is imputed
    to day 80, the other keeps the start date of its fit. *)
Example imputation_table_example :
  (λ row, (InitialConditionsFitter.merged_fips row,
           InitialConditionsFitter.days_from_2020_01_01 row,
           InitialConditionsFitter.merged_t0_date row))
    <$> TableExamples.start_times_table
  = [("06003", Fin 80, Some (F64.add (F64.of_Z 18262) (Fin 80)));
     ("06075", F64.of_Z 60, Some (F64.of_Z 18322))].
Proof. vm_compute. reflexivity. Qed.

Lemma imputation_table_covers_state_witness :
  TableExamples.start_times_table ≠ [] ∧
  InitialConditionsFitter.merged_meta <$> TableExamples.start_times_table
    = filter (λ m, str_lower (InitialConditionsFitter.meta_state m) = str_lower "california")
             Examples.state_metadata ∧
  InitialConditionsFitter.merged_fips <$> TableExamples.start_times_table
    = InitialConditionsFitter.meta_fips <$>
        filter (λ m, str_lower (InitialConditionsFitter.meta_state m) = str_lower "california")
               Examples.state_metadata.
Proof.
  apply (imputation_table_covers_state
           Examples.constant_exp Examples.start_point_optimiser Examples.constant_log
           (λ _ _ _, Ok []) unit (λ _ _, Ok tt) (λ _ _, Fin 80)
           Examples.state_metadata Examples.doubling_cases "california").
  - apply (bool_decide_unpack _). vm_compute. reflexivity.
  - apply ok_unwrap. vm_compute. reflexivity.
Defined.

(** ** The doubling time in the imputation table *)

Section DoublingTime.
Import F64 InitialConditionsFitter Spec.

Variable np_exp : float → float.
Variable migrad :
  (model_params_t → result float) → minuit_settings → result model_params_t.
Variable np_log : float → float.
Variable cross_validate :
  estimator → list (list float) → list float → result (list float).
Variable ridge : Type.
Variable BayesianRidge_fit : list (list float) → list float → result ridge.
Variable BayesianRidge_predict : ridge → list float → float.

Lemma alist_set_keys {V} (k k' : string) (v : V) (d : list (string * V)) :
  k' ∈ (alist_set k v d).*1 ↔ k' = k ∨ k' ∈ d.*1.
Proof.
  induction d as [|[k0 v0] d IH]; simpl.
  - rewrite list_elem_of_singleton. split; [by left | intros [?|H]; [done|]].
    by apply elem_of_nil in H.
  - destruct (decide (k = k0)) as [->|Hne]; simpl.
    + rewrite !elem_of_cons. tauto.
    + rewrite !elem_of_cons, IH. tauto.
Qed.

(** The loop over the counties stores an entry for every county, and for
    nothing else. *)
Lemma fips_to_fit_map_domain (case_data : list case_row) (counties : list string)
    (acc fips_to_fit_map : list (string * fit_summary_t)) (fips : string) :
  foldlM (λ fips_to_fit_map fips,
            summary ← fit_one_county np_exp migrad case_data fips;
            Ok (alist_set fips summary fips_to_fit_map))
         counties acc = Ok fips_to_fit_map →
  fips ∈ fips_to_fit_map.*1 ↔ fips ∈ counties ∨ fips ∈ acc.*1.
Proof.
  revert acc. induction counties as [|c counties IH]; intros acc H; simpl in H.
  - injection H as <-. split; [by right | intros [Hin|?]; [|done]].
    by apply elem_of_nil in Hin.
  - apply bind_Ok in H as (acc' & Hstep & H).
    apply bind_Ok in Hstep as (summary & _ & [= <-]).
    rewrite (IH _ H), alist_set_keys, elem_of_cons. tauto.
Qed.

(** What the last assignments make of a row joined from a county's entry
    and a row of the metadata table. *)
Lemma finalize_joined_row (best_model : ridge) (fips : string)
    (summary : fit_summary_t) (meta : county_meta) (row : merged_row) :
  summary_consistent summary →
  finalize_row np_log ridge BayesianRidge_predict best_model
    {| merged_fips := fips;
       merged_model_params := summary_model_params summary;
       merged_t0_date := (λ d, of_Z d) <$> summary_t0_date summary;
       merged_reduced_chi2 := summary_reduced_chi2 summary;
       merged_meta := meta;
       days_from_2020_01_01 :=
         match summary_t0_date summary with
         | Some d => of_Z (d - date_2020_01_01)
         | None => NaN
         end;
       imputed_start_time := None;
       doubling_rate_days := NaN |} = Ok row →
  merged_fips row = fips ∧ merged_meta row = meta ∧
  merged_model_params row = summary_model_params summary ∧
  doubling_time_as_specified np_log row.
Proof.
  unfold summary_consistent, finalize_row, has_data, doubling_time_as_specified.
  destruct (summary_model_params summary) as [p|],
           (summary_t0_date summary) as [d|]; try done; simpl.
  - by intros _ [= <-].
  - by intros _ [= <-].
Qed.

(** C9.  In the table [generate_start_times_for_state] returns, every
    county of the state has a row, joined from its row of the metadata
    table and the summary of its own fit.  When the county has a real fit
    (the summary holds fitted parameters), the row is marked not imputed
    and its doubling time is [np.log(2)] times the [scale] parameter of
    that fit; when it has none, the row is marked imputed and has no
    doubling time (NaN).  The table has no other rows: each of its rows is
    the row of a county of the state, with the doubling time of that
    county's fit. *)
Theorem doubling_time_of_real_fits (metadata : list county_meta)
    (case_data : list case_row) (state : string) (table : list merged_row) :
  generate_start_times_for_state np_exp migrad np_log cross_validate ridge
    BayesianRidge_fit BayesianRidge_predict metadata case_data state = Ok table →
  (∀ meta, meta ∈ metadata → str_lower (meta_state meta) = str_lower state →
     ∃ row summary,
       row ∈ table ∧ merged_meta row = meta ∧ merged_fips row = meta_fips meta ∧
       fit_one_county np_exp migrad case_data (meta_fips meta) = Ok summary ∧
       match summary_model_params summary with
       | Some p =>
           merged_model_params row = Some p ∧
           imputed_start_time row = Some false ∧
           doubling_rate_days row = mul (np_log (Fin 2)) (scale p)
       | None =>
           merged_model_params row = None ∧
           imputed_start_time row = Some true ∧
           doubling_rate_days row = NaN
       end) ∧
  Forall (λ row,
            ∃ meta summary,
              meta ∈ metadata ∧ str_lower (meta_state meta) = str_lower state ∧
              meta_fips meta = merged_fips row ∧
              fit_one_county np_exp migrad case_data (merged_fips row) = Ok summary ∧
              match summary_model_params summary with
              | Some p =>
                  merged_model_params row = Some p ∧
                  imputed_start_time row = Some false ∧
                  doubling_rate_days row = mul (np_log (Fin 2)) (scale p)
              | None =>
                  merged_model_params row = None ∧
                  imputed_start_time row = Some true ∧
                  doubling_rate_days row = NaN
              end)
         table.
Proof.
  unfold generate_start_times_for_state.
  set (counties := meta_fips <$> filter _ metadata).
  destruct (decide _) as [|_]; [done|]. intros H.
  apply bind_Ok in H as (fips_to_fit_map & Hmap & H).
  destruct (forallb _ _) eqn:Hdates; [done|].
  apply bind_Ok in H as (scores & _ & H).
  apply bind_Ok in H as (best_model & _ & H).
  apply forM_Ok_inv in H.
  pose proof (fips_to_fit_map_entries np_exp migrad _ _ _ Hmap) as Hentries.
  rewrite Forall_forall in Hentries.
  assert (∀ fips summary (meta : county_meta) row,
            (fips, summary) ∈ fips_to_fit_map →
            finalize_row np_log ridge BayesianRidge_predict best_model
              {| merged_fips := fips;
                 merged_model_params := summary_model_params summary;
                 merged_t0_date := (λ d, of_Z d) <$> summary_t0_date summary;
                 merged_reduced_chi2 := summary_reduced_chi2 summary;
                 merged_meta := meta;
                 days_from_2020_01_01 :=
                   match summary_t0_date summary with
                   | Some d => of_Z (d - date_2020_01_01)
                   | None => NaN
                   end;
                 imputed_start_time := None;
                 doubling_rate_days := NaN |} = Ok row →
            merged_fips row = fips ∧ merged_meta row = meta ∧
            fit_one_county np_exp migrad case_data fips = Ok summary ∧
            match summary_model_params summary with
            | Some p =>
                merged_model_params row = Some p ∧
                imputed_start_time row = Some false ∧
                doubling_rate_days row = mul (np_log (Fin 2)) (scale p)
            | None =>
                merged_model_params row = None ∧
                imputed_start_time row = Some true ∧
                doubling_rate_days row = NaN
            end) as Hrow.
  { intros fips summary meta row Hentry Hfinal.
    pose proof (Hentries _ Hentry) as Hfit. simpl in Hfit.
    destruct (finalize_joined_row _ _ _ _ _
                (fit_one_county_consistent _ _ _ _ _ Hfit) Hfinal)
      as (Hf & Hm & Hp & Hd).
    split; [done|]. split; [done|]. split; [done|].
    unfold doubling_time_as_specified in Hd. rewrite Hp in Hd.
    destruct (summary_model_params summary); by destruct Hd. }
  split.
  - intros meta Hmeta Hstate.
    assert (meta_fips meta ∈ fips_to_fit_map.*1) as Hkey.
    { apply (fips_to_fit_map_domain _ _ _ _ _ Hmap). left.
      apply list_elem_of_fmap. exists meta. split; [done|].
      by apply list_elem_of_filter. }
    apply list_elem_of_fmap in Hkey as ([fips summary] & Hfips & Hentry).
    simpl in Hfips. subst fips.
    match type of H with
    | Forall2 _ ?merged _ =>
        assert ({| merged_fips := meta_fips meta;
                   merged_model_params := summary_model_params summary;
                   merged_t0_date := (λ d, of_Z d) <$> summary_t0_date summary;
                   merged_reduced_chi2 := summary_reduced_chi2 summary;
                   merged_meta := meta;
                   days_from_2020_01_01 :=
                     match summary_t0_date summary with
                     | Some d => of_Z (d - date_2020_01_01)
                     | None => NaN
                     end;
                   imputed_start_time := None;
                   doubling_rate_days := NaN |} ∈ merged) as Hin
    end.
    { apply list_elem_of_bind. exists (meta_fips meta, summary). split; [|done].
      apply list_elem_of_fmap. exists meta. split; [done|].
      by apply list_elem_of_filter. }
    apply list_elem_of_lookup in Hin as [i Hi].
    destruct (Forall2_lookup_l _ _ _ _ _ H Hi) as (row & Hrowi & Hfinal).
    destruct (Hrow _ _ _ _ Hentry Hfinal) as (Hf & Hm & Hfit & Hcase).
    exists row, summary. split; [by eapply list_elem_of_lookup_2|]. done.
  - apply Forall_forall. intros row Hin.
    apply list_elem_of_lookup in Hin as [i Hi].
    destruct (Forall2_lookup_r _ _ _ _ _ H Hi) as (row0 & Hrow0 & Hfinal).
    apply list_elem_of_lookup_2, list_elem_of_bind in Hrow0
      as ([fips summary] & Hjoin & Hentry).
    apply list_elem_of_fmap in Hjoin as (meta & -> & Hmeta).
    apply list_elem_of_filter in Hmeta as [Hfips Hmeta]. simpl in Hfips.
    destruct (Hrow _ _ _ _ Hentry Hfinal) as (Hf & Hm & Hfit & Hcase).
    assert (fips ∈ counties) as Hcounty.
    { destruct (proj1 (fips_to_fit_map_domain _ _ _ _ fips Hmap)) as [?|Hnil]; [|done|].
      - apply list_elem_of_fmap. by exists (fips, summary).
      - by apply elem_of_nil in Hnil. }
    apply list_elem_of_fmap in Hcounty as (meta' & Hfips' & Hmeta').
    apply list_elem_of_filter in Hmeta' as [Hstate' Hmeta'].
    exists meta', summary. rewrite Hf.
    split; [done|]. split; [done|]. split; [done|]. done.
Qed.

End DoublingTime.

Lemma doubling_time_of_real_fits_witness :
  ∃ table,
    Examples.example_start_times = Ok table ∧
    (∀ meta, meta ∈ Examples.state_metadata →
       str_lower (InitialConditionsFitter.meta_state meta) = str_lower "california" →
       ∃ row summary,
         row ∈ table ∧ InitialConditionsFitter.merged_meta row = meta ∧
         InitialConditionsFitter.merged_fips row = InitialConditionsFitter.meta_fips meta ∧
         InitialConditionsFitter.fit_one_county Examples.constant_exp
           Examples.start_point_optimiser Examples.doubling_cases
           (InitialConditionsFitter.meta_fips meta) = Ok summary ∧
         match InitialConditionsFitter.summary_model_params summary with
         | Some p =>
             InitialConditionsFitter.merged_model_params row = Some p ∧
             InitialConditionsFitter.imputed_start_time row = Some false ∧
             InitialConditionsFitter.doubling_rate_days row
               = F64.mul (Examples.constant_log (Fin 2)) (InitialConditionsFitter.scale p)
         | None =>
             InitialConditionsFitter.merged_model_params row = None ∧
             InitialConditionsFitter.imputed_start_time row = Some true ∧
             InitialConditionsFitter.doubling_rate_days row = NaN
         end) ∧
    Forall (λ row,
              ∃ meta summary,
                meta ∈ Examples.state_metadata ∧
                str_lower (InitialConditionsFitter.meta_state meta) = str_lower "california" ∧
                InitialConditionsFitter.meta_fips meta
                  = InitialConditionsFitter.merged_fips row ∧
                InitialConditionsFitter.fit_one_county Examples.constant_exp
                  Examples.start_point_optimiser Examples.doubling_cases
                  (InitialConditionsFitter.merged_fips row) = Ok summary ∧
                match InitialConditionsFitter.summary_model_params summary with
                | Some p =>
                    InitialConditionsFitter.merged_model_params row = Some p ∧
                    InitialConditionsFitter.imputed_start_time row = Some false ∧
                    InitialConditionsFitter.doubling_rate_days row
                      = F64.mul (Examples.constant_log (Fin 2))
                                (InitialConditionsFitter.scale p)
                | None =>
                    InitialConditionsFitter.merged_model_params row = None ∧
                    InitialConditionsFitter.imputed_start_time row = Some true ∧
                    InitialConditionsFitter.doubling_rate_days row = NaN
                end)
           table.
Proof.
  assert (Examples.example_start_times = Ok TableExamples.start_times_table) as Htable
    by (apply ok_unwrap; vm_compute; reflexivity).
  exists TableExamples.start_times_table. split; [exact Htable|].
  exact (doubling_time_of_real_fits
           Examples.constant_exp Examples.start_point_optimiser Examples.constant_log
           (λ _ _ _, Ok []) unit (λ _ _, Ok tt) (λ _ _, Fin 80)
           Examples.state_metadata Examples.doubling_cases "california"
           TableExamples.start_times_table Htable).
Defined.

(** Without a county that has a fit there is no column of dates, and no
    table: the subtraction of 2020-01-01 raises. *)
Example no_fit_no_table :
  InitialConditionsFitter.generate_start_times_for_state
    Examples.constant_exp Examples.start_point_optimiser Examples.constant_log
    (λ _ _ _, Ok []) unit (λ _ _, Ok tt) (λ _ _, Fin 80)
    Examples.state_metadata [] "california" = Raise TypeError.
Proof. vm_compute. reflexivity. Qed.

(** ** The time grid of the runner *)

Section TimeGrid.
Import F64 EnsembleRun.

(** X27.  For a positive number of years [n], the time grid of the runner
    has [365 n] points, the last of which is exactly [365 n]; the point at
    index [i] before the last is [i * 365 n / (365 n - 1)], so the grid
    starts at 0 and every later point lies after its index: the step is
    slightly more than one day. *)
Theorem time_grid_spacing (n_years : Z) :
  0 < n_years →
  ∃ grid,
    time_grid n_years = Ok grid ∧
    length grid = Z.to_nat (365 * n_years) ∧
    grid !! (Z.to_nat (365 * n_years) - 1)%nat = Some (of_Z (365 * n_years)) ∧
    ∀ i, (i < Z.to_nat (365 * n_years) - 1)%nat →
      ∃ q, grid !! i = Some (Fin q) ∧
           (q * inject_Z (365 * n_years - 1)
            == inject_Z (Z.of_nat i) * inject_Z (365 * n_years))%Q ∧
           (inject_Z (Z.of_nat i) <= q)%Q ∧
           ((0 < i)%nat → (inject_Z (Z.of_nat i) < q)%Q).
Proof.
  intros Hn. unfold time_grid, linspace.
  destruct ((365 * n_years) <? 0) eqn:Hneg; [apply Z.ltb_lt in Hneg; lia|].
  eexists. split; [done|]. rewrite length_fmap, length_seq. split; [done|].
  assert ((0 <? 365 * n_years - 1) = true) as Hdiv by (apply Z.ltb_lt; lia).
  assert (0 < inject_Z (365 * n_years - 1))%Q as Hpos.
  { change 0%Q with (inject_Z 0). rewrite <- Zlt_Qlt. lia. }
  assert ((inject_Z (365 * n_years - 1) ?= 0)%Q = Gt) as Hcmp by (by apply Qgt_alt).
  split.
  - rewrite list_lookup_fmap, lookup_seq_lt by lia. simpl. rewrite Hdiv.
    rewrite (proj2 (Z.eqb_eq _ _)) by lia. done.
  - intros i Hi. rewrite list_lookup_fmap, lookup_seq_lt by lia. simpl. rewrite Hdiv.
    rewrite (proj2 (Z.eqb_neq _ _)) by lia.
    unfold of_Z, of_nat, of_Z. simpl. rewrite Hcmp. simpl.
    eexists. split; [done|].
    assert (inject_Z (365 * n_years) == inject_Z (365 * n_years - 1) + 1)%Q as HN.
    { rewrite <- (inject_Z_plus _ 1). f_equiv. lia. }
    assert (0 <= inject_Z (Z.of_nat i))%Q as Hi0.
    { change 0%Q with (inject_Z 0). rewrite <- Zle_Qle. lia. }
    set (d := inject_Z (365 * n_years - 1)) in *.
    set (x := inject_Z (Z.of_nat i)) in *.
    set (N := inject_Z (365 * n_years)) in *.
    assert ((x * ((N + - 0) / d) + 0) * d == x * N)%Q as Hq by (field; lra).
    split; [exact Hq|].
    assert (x * d <= (x * ((N + - 0) / d) + 0) * d)%Q as Hle by (rewrite Hq, HN; nra).
    split.
    + apply Qmult_le_r in Hle; done.
    + intros Hi1.
      assert (1 <= x)%Q as Hx1.
      { unfold x. change 1%Q with (inject_Z 1). rewrite <- Zle_Qle. lia. }
      assert (x * d < (x * ((N + - 0) / d) + 0) * d)%Q as Hlt by (rewrite Hq, HN; nra).
      apply Qmult_lt_r in Hlt; done.
Qed.

Lemma time_grid_spacing_witness :
  ∃ grid,
    time_grid 2 = Ok grid ∧
    length grid = Z.to_nat (365 * 2) ∧
    grid !! (Z.to_nat (365 * 2) - 1)%nat = Some (of_Z (365 * 2)) ∧
    ∀ i, (i < Z.to_nat (365 * 2) - 1)%nat →
      ∃ q, grid !! i = Some (Fin q) ∧
           (q * inject_Z (365 * 2 - 1) == inject_Z (Z.of_nat i) * inject_Z (365 * 2))%Q ∧
           (inject_Z (Z.of_nat i) <= q)%Q ∧
           ((0 < i)%nat → (inject_Z (Z.of_nat i) < q)%Q).
Proof. apply (time_grid_spacing 2). lia. Defined.

End TimeGrid.

(** ** The run over the suppression policies *)

Section RunEnsemble.
Import F64 EnsembleRunner EnsembleRun.

Variable policy : Type.
Variable future_suppression : Type.
Variable generate_empirical_distancing_policy :
  list float → string → future_suppression → result policy.
Variable format_policy : future_suppression → string.
Variable _run_single_simulation :
  gmap string (ParameterEnsembleGenerator.pval policy) → result SEIRModel.
Variable generate_and_save :
  list SEIRModel → gmap string (gmap string outentry) → result unit.

Local Abbreviation run_policy' :=
  (run_policy policy future_suppression generate_empirical_distancing_policy
              _run_single_simulation).
Local Abbreviation policy_loop' :=
  (policy_loop policy future_suppression generate_empirical_distancing_policy
               format_policy _run_single_simulation).
Local Abbreviation run_ensemble' :=
  (run_ensemble policy future_suppression generate_empirical_distancing_policy
                format_policy _run_single_simulation generate_and_save).

(** X28.  With an ensemble size of zero, [run_ensemble] raises
    [IndexError] in the first iteration of its loop (the aggregation reads
    the first run of an empty ensemble), for a region of the metadata
    table and a first policy that can be generated: nothing is written. *)
Theorem run_ensemble_without_samples (self : runner future_suppression)
    (county_metadata : list ParameterEnsembleGenerator.county_row)
    (hospital_bed_data : list ParameterEnsembleGenerator.hospital_row)
    (rng : nat → nat → ParameterEnsembleGenerator.draws)
    (first : future_suppression) (others : list future_suppression) :
  n_samples _ self = 0%nat →
  suppression_policy _ self = first :: others →
  fips _ self ∈ ParameterEnsembleGenerator.county_fips <$> county_metadata →
  returns (generate_empirical_distancing_policy (t_list _ self) (fips _ self) first) →
  run_ensemble' self county_metadata hospital_bed_data rng = Raised IndexError.
Proof.
  intros Hzero Hpolicies Hregion [distancing Hdistancing].
  unfold run_ensemble. rewrite Hpolicies. simpl. unfold run_policy.
  rewrite Hdistancing. simpl.
  destruct (generator_init_returns county_metadata hospital_bed_data (fips _ self)
              (n_samples _ self) (t_list _ self) 1 (Some distancing) Hregion)
    as (generator & -> & HN).
  simpl. unfold ParameterEnsembleGenerator.sample_seir_parameters.
  rewrite HN, Hzero. simpl. done.
Qed.

(** The loop, from iteration [i0] on. *)
Lemma policy_loop_spec (self : runner future_suppression)
    (county_metadata : list ParameterEnsembleGenerator.county_row)
    (hospital_bed_data : list ParameterEnsembleGenerator.hospital_row)
    (rng : nat → nat → ParameterEnsembleGenerator.draws)
    (policies : list future_suppression) (i0 : nat)
    (acc all_outputs : gmap string (gmap string outentry))
    (bound model_ensemble : option (list SEIRModel)) :
  policy_loop' self county_metadata hospital_bed_data rng i0 policies acc bound
  = Ok (all_outputs, model_ensemble) →
  (policies ≠ [] → is_Some model_ensemble) ∧
  (∀ sp, sp ∈ policies →
         is_Some (all_outputs !! ("suppression_policy__" +:+ format_policy sp))) ∧
  (∀ key output, all_outputs !! key = Some output →
     (acc !! key = Some output ∧
      ∀ sp, sp ∈ policies → key ≠ "suppression_policy__" +:+ format_policy sp) ∨
     ∃ j sp ensemble,
       policies !! j = Some sp ∧
       key = "suppression_policy__" +:+ format_policy sp ∧
       run_policy' self county_metadata hospital_bed_data (rng (i0 + j)%nat) sp
         = Ok (ensemble, output) ∧
       ∀ j' sp', (j < j')%nat → policies !! j' = Some sp' →
                 format_policy sp' ≠ format_policy sp).
Proof.
  revert i0 acc bound.
  induction policies as [|sp policies IH]; intros i0 acc bound H; simpl in H.
  - injection H as <- <-. split; [done|]. split.
    + intros sp Hsp. by apply elem_of_nil in Hsp.
    + intros key output Hkey. left. split; [done|].
      intros sp Hsp. by apply elem_of_nil in Hsp.
  - apply bind_Ok in H as ([ensemble output] & Hrun & H). simpl in H.
    destruct (IH _ _ _ H) as (Hbound & Hkeys & Hvalues).
    split; [|split].
    + intros _. destruct policies as [|sp' policies'].
      * simpl in H. injection H as _ <-. by eexists.
      * by apply Hbound.
    + intros sp' Hsp'. apply elem_of_cons in Hsp' as [->|Hsp']; [|by apply Hkeys].
      destruct (all_outputs !! ("suppression_policy__" +:+ format_policy sp))
        as [out|] eqn:Hout; [by eexists|].
      exfalso. clear -H Hout. revert H Hout.
      generalize (S i0) as i. generalize (Some ensemble) as b.
      assert (is_Some ((<["suppression_policy__" +:+ format_policy sp := output]> acc)
                         !! ("suppression_policy__" +:+ format_policy sp))) as Hacc
        by (rewrite lookup_insert_eq; by eexists).
      revert Hacc.
      generalize (<["suppression_policy__" +:+ format_policy sp := output]> acc) as a.
      induction policies as [|sp' policies IH']; intros a Ha b i H Hout; simpl in H.
      * injection H as <- _. rewrite Hout in Ha. by destruct Ha.
      * apply bind_Ok in H as (run & _ & H). eapply IH'; [|exact H|exact Hout].
        destruct (decide ("suppression_policy__" +:+ format_policy sp'
                          = "suppression_policy__" +:+ format_policy sp)) as [->|Hne].
        -- rewrite lookup_insert_eq. by eexists.
        -- by rewrite lookup_insert_ne.
    + intros key out Hkey. destruct (Hvalues key out Hkey)
        as [[Hacc Hfresh] | (j & sp' & ens & Hj & -> & Hrun' & Hlast)].
      * destruct (decide (key = "suppression_policy__" +:+ format_policy sp))
          as [->|Hne].
        -- rewrite lookup_insert_eq in Hacc. injection Hacc as <-.
           right. exists 0%nat, sp, ensemble. split; [done|]. split; [done|].
           rewrite Nat.add_0_r. split; [done|].
           intros [|j'] sp' Hlt Hj'; [lia|]. simpl in Hj'.
           intros E. apply (Hfresh sp'); [by eapply list_elem_of_lookup_2|].
           by rewrite E.
        -- rewrite lookup_insert_ne in Hacc by done. left. split; [done|].
           intros sp' Hsp'. apply elem_of_cons in Hsp' as [->|Hsp']; [done|].
           by apply Hfresh.
      * right. exists (S j), sp', ens. split; [done|]. split; [done|].
        replace (i0 + S j)%nat with (S i0 + j)%nat by lia. split; [done|].
        intros [|j'] sp'' Hlt Hj'; [lia|]. simpl in Hj'.
        apply (Hlast j' sp''); [lia | done].
Qed.

(** X29.  When [run_ensemble] writes its data file, the dict written has
    one entry per policy, under the key ['suppression_policy__'] followed
    by the policy's text, and nothing else; the entry is the output of a
    policy with that text, the last one in the list when several policies
    share it.  With the report requested the list of policies cannot have
    been empty. *)
Theorem run_ensemble_written (self : runner future_suppression)
    (county_metadata : list ParameterEnsembleGenerator.county_row)
    (hospital_bed_data : list ParameterEnsembleGenerator.hospital_row)
    (rng : nat → nat → ParameterEnsembleGenerator.draws)
    (all_outputs : gmap string (gmap string outentry)) :
  run_ensemble' self county_metadata hospital_bed_data rng = Written all_outputs →
  (generate_report _ self = true → suppression_policy _ self ≠ []) ∧
  (∀ sp, sp ∈ suppression_policy _ self →
         is_Some (all_outputs !! ("suppression_policy__" +:+ format_policy sp))) ∧
  (∀ key output, all_outputs !! key = Some output →
     ∃ j sp ensemble,
       suppression_policy _ self !! j = Some sp ∧
       key = "suppression_policy__" +:+ format_policy sp ∧
       run_policy' self county_metadata hospital_bed_data (rng j) sp
         = Ok (ensemble, output) ∧
       ∀ j' sp', (j < j')%nat → suppression_policy _ self !! j' = Some sp' →
                 format_policy sp' ≠ format_policy sp).
Proof.
  unfold run_ensemble. intros H.
  destruct (policy_loop' self county_metadata hospital_bed_data rng 0
              (suppression_policy _ self) ∅ None)
    as [[outs bound]|e] eqn:Hloop; [|done].
  destruct (policy_loop_spec _ _ _ _ _ _ _ _ _ _ Hloop) as (Hbound & Hkeys & Hvalues).
  assert (outs = all_outputs ∧
          (generate_report _ self = true → is_Some bound)) as [-> Hreport].
  { destruct (generate_report _ self).
    - destruct bound as [ens|]; [|done].
      destruct (generate_and_save ens outs); [|done].
      injection H as <-. split; [done | by eexists].
    - injection H as <-. done. }
  split; [|split].
  - intros Hrep Hnil. rewrite Hnil in Hloop. simpl in Hloop.
    injection Hloop as _ <-. destruct (Hreport Hrep) as [? ?]. done.
  - done.
  - intros key output Hkey.
    destruct (Hvalues key output Hkey) as [[Hempty _] | Hfound]; [done|]. done.
Qed.

End RunEnsemble.

Lemma written_unwrap (o : EnsembleRun.outcome) :
  RunExamples.is_written o = true → o = EnsembleRun.Written (RunExamples.written o).
Proof. destruct o; [reflexivity | discriminate | discriminate]. Qed.

Lemma run_ensemble_without_samples_witness :
  RunExamples.example_run 0 [35; 50] true = EnsembleRun.Raised IndexError.
Proof.
  apply (run_ensemble_without_samples unit Z (λ _ _ _, Ok tt) pretty
           (λ _, Ok (Examples.hgen_run [1; 3; 1] 2)) (λ _ _, Ok tt)
           (RunExamples.example_runner 0 [35; 50] true)
           Examples.county_metadata Examples.hospital_bed_data
           (λ _ _, Examples.central_draws) 35 [50]).
  - reflexivity.
  - reflexivity.
  - right. left.
  - by eexists.
Defined.

Lemma run_ensemble_written_witness :
  (EnsembleRun.generate_report Z (RunExamples.example_runner 2 [35; 50; 35] true) = true →
   EnsembleRun.suppression_policy Z (RunExamples.example_runner 2 [35; 50; 35] true) ≠ []) ∧
  (∀ sp, sp ∈ EnsembleRun.suppression_policy Z
                (RunExamples.example_runner 2 [35; 50; 35] true) →
         is_Some (RunExamples.written (RunExamples.example_run 2 [35; 50; 35] true)
                    !! ("suppression_policy__" +:+ pretty sp))) ∧
  (∀ key output,
     RunExamples.written (RunExamples.example_run 2 [35; 50; 35] true) !! key
       = Some output →
     ∃ j sp ensemble,
       EnsembleRun.suppression_policy Z
         (RunExamples.example_runner 2 [35; 50; 35] true) !! j = Some sp ∧
       key = "suppression_policy__" +:+ pretty sp ∧
       EnsembleRun.run_policy unit Z (λ _ _ _, Ok tt)
         (λ _, Ok (Examples.hgen_run [1; 3; 1] 2))
         (RunExamples.example_runner 2 [35; 50; 35] true)
         Examples.county_metadata Examples.hospital_bed_data
         ((λ _ _, Examples.central_draws) j) sp
         = Ok (ensemble, output) ∧
       ∀ j' sp', (j < j')%nat →
                 EnsembleRun.suppression_policy Z
                   (RunExamples.example_runner 2 [35; 50; 35] true) !! j' = Some sp' →
                 pretty sp' ≠ pretty sp).
Proof.
  apply (run_ensemble_written unit Z (λ _ _ _, Ok tt) pretty
           (λ _, Ok (Examples.hgen_run [1; 3; 1] 2)) (λ _ _, Ok tt)
           (RunExamples.example_runner 2 [35; 50; 35] true)
           Examples.county_metadata Examples.hospital_bed_data
           (λ _ _, Examples.central_draws)).
  apply written_unwrap. vm_compute. reflexivity.
Defined.

(** Three policies, two of them with the same text: two entries. *)
Example run_ensemble_example :
  RunExamples.is_written (RunExamples.example_run 2 [35; 50; 35] true) = true ∧
  size (RunExamples.written (RunExamples.example_run 2 [35; 50; 35] true)) = 2%nat ∧
  RunExamples.example_run 2 [] true = EnsembleRun.RaisedUnboundLocalError ∧
  RunExamples.example_run 2 [] false = EnsembleRun.Written ∅.
Proof. split; [|split; [|split]]; vm_compute; reflexivity. Qed.
